(** * Label-to-configuration enrichment of the Proxmox provider

    A shallow embedding of the provider package: the label scan
    [getDefinedElements], the address resolution ([getServiceIP],
    [buildServerURL], [buildStreamServerAddress]), the three protocol passes
    ([buildHTTPConfiguration], [buildTCPConfiguration],
    [buildUDPConfiguration]), the assembler [generateConfiguration] and the
    node scan [scanServices].

    Go strings are byte strings and are embedded as [string]; a Go
    [map[string]V] is a [gmap string V]; a pointer that may be nil is an
    [option]; [uint64] identifiers are [N] and [*int] priorities are
    [option Z].  [log.Printf] is embedded as a writer effect: every function
    that logs returns the list of lines it wrote next to its result. *)

From Stdlib Require Import ZArith Ascii.
From stdpp Require Import gmap strings list pretty.


(** ** Go's [strings] package, as far as the provider uses it *)

Module strings.

(** [strings.HasPrefix(s, prefix)]. *)
Fixpoint HasPrefix (s prefix : string) {struct prefix} : bool :=
  match prefix, s with
  | EmptyString, _ => true
  | String _ _, EmptyString => false
  | String p prefix', String c s' =>
      if decide (c = p) then HasPrefix s' prefix' else false
  end.

(** The slice expression [s[n:]]; the provider only takes it under a
    [HasPrefix] guard, where it is in range. *)
Fixpoint slice_from (s : string) (n : nat) {struct n} : string :=
  match n, s with
  | O, _ => s
  | S n', String _ s' => slice_from s' n'
  | S _, EmptyString => EmptyString
  end.

(** [strings.Split(s, sep)] for a one-byte separator: the pieces of [s]
    between the occurrences of [sep]; never the empty list. *)
Fixpoint Split (s : string) (sep : ascii) : list string :=
  match s with
  | EmptyString => [EmptyString]
  | String c s' =>
      if decide (c = sep) then EmptyString :: Split s' sep
      else match Split s' sep with
           | [] => [String c EmptyString]
           | part :: parts => String c part :: parts
           end
  end.

End strings.

(** ** Log lines *)

Inductive Proto := HTTP | TCP | UDP.

Inductive LogEvent :=
  | LogProcessing (name : string) (id : N) (node : string)
  | LogDecodeError (name : string) (err : string)
  | WarnNoPort (proto : Proto) (name : string)
  | WarnNoValidIP (name node : string)
  | LogScanning (container : bool) (node name : string) (id : N) (status : string)
  | LogConfigError (container : bool) (id : N) (err : string)
  | LogSkipping (container : bool) (name : string) (id : N)
  | LogTraefikConfig (container : bool) (name : string) (id : N)
  | LogInterfacesError (container : bool) (node : string) (id : N) (err : string)
  | LogNoValidIPs (container : bool) (node : string) (id : N)
  | LogNodeScanError (node : string) (err : string).

(** A computation that writes log lines. *)
Definition Logged (A : Type) : Type := (A * list LogEvent)%type.

#[global] Instance Logged_ret : MRet Logged := λ A x, (x, []).
#[global] Instance Logged_bind : MBind Logged := λ A B f m,
  let r := f m.1 in (r.1, m.2 ++ r.2).

(** [log.Printf]. *)
Definition logPrintf (e : LogEvent) : Logged unit := (tt, [e]).

(** A [for i := range xs] loop that rewrites the elements in place. *)
Fixpoint forEach {A} (f : A → Logged A) (xs : list A) : Logged (list A) :=
  match xs with
  | [] => mret []
  | x :: xs' => y ← f x; ys ← forEach f xs'; mret (y :: ys)
  end.

(** A [for _, x := range xs] loop over a state. *)
Fixpoint forRange {A S} (f : S → A → Logged S) (xs : list A) (s : S) : Logged S :=
  match xs with
  | [] => mret s
  | x :: xs' => s' ← f s x; forRange f xs' s'
  end.

(** ** The data model *)

Module internal.

Module IP.
Record t := mk { Address : string; AddressType : string }.
End IP.

Module Service.
Record t := mk {
    ID : N;
    Name : string;
    Config : gmap string string;
    IPs : list IP.t
  }.
End Service.

(** What the provider uses of a virtual machine or container entry of a
    node listing. *)
Module Guest.
Record t := mk { VMID : N; Name : string; Status : string }.
End Guest.

(** The outcome of a call that returns a value and an error. *)
Inductive result (A : Type) :=
  | Ok (a : A)
  | Err (e : string).
Arguments Ok {A} a.
Arguments Err {A} e.

(** The cluster client, seen through the calls the provider makes: the
    answers of one poll cycle.  [GetVMConfig] and [GetContainerConfig]
    stand for the call followed by [GetTraefikMap], the two
    [...NetworkInterfaces] calls for the call followed by [GetIPs]. *)
Module ProxmoxClient.
Record t := mk {
    GetNodes : result (list string);
    GetVirtualMachines : string → result (list Guest.t);
    GetContainers : string → result (list Guest.t);
    GetVMConfig : string → N → result (gmap string string);
    GetContainerConfig : string → N → result (gmap string string);
    GetVMNetworkInterfaces : string → N → result (list IP.t);
    GetContainerNetworkInterfaces : string → N → result (list IP.t);
    LogLevel : string
  }.
End ProxmoxClient.

(** Modelled from the spec: the constant [internal.LogLevelDebug] is not
    part of the sources at hand; the verbosity levels are named by words
    such as "info", the default. *)
Definition LogLevelDebug : string := "debug".

(** Modelled from the spec: [internal.NewService] is not part of the
    sources at hand.  A workload is created from its numeric id, its name
    and its label mapping; its list of reported addresses is filled in
    afterwards, so it starts empty. *)
Definition NewService (id : N) (name : string) (config : gmap string string)
  : Service.t :=
  Service.mk id name config [].

End internal.

(** The records of package [dynamic], with the fields the provider reads and
    writes. *)
Module dynamic.

Module Router.
Record t := mk { Service : string; Rule : string; Priority : option Z }.
End Router.

Module Server.
Record t := mk { URL : string; Scheme : string; Port : string }.
End Server.

Module ServersLoadBalancer.
Record t := mk { PassHostHeader : option bool; Servers : list Server.t }.
End ServersLoadBalancer.

Module Service.
Record t := mk { LoadBalancer : option ServersLoadBalancer.t }.
End Service.

Module TCPRouter.
Record t := mk { Service : string; Rule : string; Priority : option Z }.
End TCPRouter.

Module TCPServer.
Record t := mk { Address : string; Port : string }.
End TCPServer.

Module TCPServersLoadBalancer.
Record t := mk { Servers : list TCPServer.t }.
End TCPServersLoadBalancer.

Module TCPService.
Record t := mk { LoadBalancer : option TCPServersLoadBalancer.t }.
End TCPService.

Module UDPRouter.
Record t := mk { Service : string }.
End UDPRouter.

Module UDPServer.
Record t := mk { Address : string; Port : string }.
End UDPServer.

Module UDPServersLoadBalancer.
Record t := mk { Servers : list UDPServer.t }.
End UDPServersLoadBalancer.

Module UDPService.
Record t := mk { LoadBalancer : option UDPServersLoadBalancer.t }.
End UDPService.

(** Middlewares are only ever written by the label decoder. *)
Module Middleware.
Record t := mk { opaque : string }.
End Middleware.

Module HTTPConfiguration.
Record t := mk {
    Routers : gmap string Router.t;
    Services : gmap string Service.t;
    Middlewares : gmap string Middleware.t
  }.
End HTTPConfiguration.

Module TCPConfiguration.
Record t := mk {
    Routers : gmap string TCPRouter.t;
    Services : gmap string TCPService.t
  }.
End TCPConfiguration.

Module UDPConfiguration.
Record t := mk {
    Routers : gmap string UDPRouter.t;
    Services : gmap string UDPService.t
  }.
End UDPConfiguration.

Module Configuration.
Record t := mk {
    HTTP : HTTPConfiguration.t;
    TCP : TCPConfiguration.t;
    UDP : UDPConfiguration.t
  }.
End Configuration.

End dynamic.

Import internal dynamic.

(** ** Address resolution *)

(** [getServiceIP]: the first reported address that is neither empty nor the
    loopback address; otherwise the name [<name>.<node>], with a warning. *)
Fixpoint firstValidIP (ips : list IP.t) : option string :=
  match ips with
  | [] => None
  | ip :: ips' =>
      if decide (IP.Address ip ≠ "" ∧ IP.Address ip ≠ "127.0.0.1")
      then Some (IP.Address ip)
      else firstValidIP ips'
  end.

Definition getServiceIP (service : internal.Service.t) (nodeName : string)
  : Logged string :=
  match firstValidIP (Service.IPs service) with
  | Some address => mret address
  | None =>
      _ ← logPrintf (WarnNoValidIP (Service.Name service) nodeName);
      mret (Service.Name service +:+ "." +:+ nodeName)
  end.

(** [buildServerURL]. *)
Definition buildServerURL (service : internal.Service.t) (server : Server.t)
    (nodeName : string) : Logged string :=
  let scheme := "http" in
  let port := "80" in
  let '(scheme, port) :=
    if decide (Server.Scheme server = "https") then ("https", "443")
    else (scheme, port) in
  let port := if decide (Server.Port server ≠ "") then Server.Port server else port in
  ip ← getServiceIP service nodeName;
  mret (scheme +:+ "://" +:+ ip +:+ ":" +:+ port).

(** [buildStreamServerAddress]. *)
Definition buildStreamServerAddress (service : internal.Service.t)
    (nodeName port : string) : Logged string :=
  ip ← getServiceIP service nodeName;
  mret (ip +:+ ":" +:+ port).

(** ** The provider *)

Section Provider.

(** Go leaves the order of [for k, v := range m] unspecified.  The order in
    which the runtime hands out the entries of a map is a parameter of the
    embedding: some enumeration of the entries, each exactly once. *)
Variable rangeMap : ∀ V, gmap string V → list (string * V).
Hypothesis rangeMap_perm :
  ∀ V (m : gmap string V), rangeMap V m ≡ₚ map_to_list m.

(** [parser.Decode(labels, config, "traefik", "traefik.http", "traefik.tcp",
    "traefik.udp")] of the paerser library: it fills the configuration it is
    handed in place and returns an error or nil.  The configuration it
    leaves behind and the error are its result here. *)
Variable Decode :
  gmap string string → Configuration.t → Configuration.t * option string.

(** The body of the first loop of [getDefinedElements]: the segment after
    the prefix of a matching key goes into the set [keys]. *)
Definition collectElement (prefix : string) (keys : gmap string ())
    (k : string) : gmap string () :=
  if strings.HasPrefix k prefix then
    let parts :=
      strings.Split (strings.slice_from k (String.length prefix)) "."%char in
    match parts with
    | part0 :: _ => <[part0 := ()]> keys
    | [] => keys
    end
  else keys.

(** [getDefinedElements]: the first loop fills the set [keys] from the
    keys of the labels, the second copies the set into a slice. *)
Definition getDefinedElements (labels : gmap string string)
    (proto elemType : string) : list string :=
  let prefix := "traefik." +:+ proto +:+ "." +:+ elemType +:+ "." in
  let keys := foldl (collectElement prefix) ∅ (rangeMap _ labels).*1 in
  (rangeMap _ keys).*1.

(** [fmt.Sprintf("%s-%d", service.Name, service.ID)]. *)
Definition defaultID (service : internal.Service.t) : string :=
  Service.Name service +:+ "-" +:+ pretty (Service.ID service).

(** *** HTTP *)

(** The body of the router loop of [buildHTTPConfiguration]. *)
Definition enrichRouter (service : internal.Service.t)
    (definedServices : list string)
    (routers : gmap string Router.t) (routerName : string)
  : gmap string Router.t :=
  match routers !! routerName with
  | None => routers
  | Some router =>
      let router :=
        if decide (Router.Service router = "" ∧ 0 < length definedServices)
        then Router.mk (definedServices !!! 0%nat)
                       (Router.Rule router) (Router.Priority router)
        else router in
      let router :=
        if decide (Router.Rule router = "")
        then Router.mk (Router.Service router)
                       ("Host(`" +:+ Service.Name service +:+ "`)")
                       (Router.Priority router)
        else router in
      let router :=
        match Router.Priority router with
        | None => Router.mk (Router.Service router) (Router.Rule router)
                            (Some 1%Z)
        | Some _ => router
        end in
      <[routerName := router]> routers
  end.

(** The body of the server loop of [buildHTTPConfiguration]. *)
Definition enrichServer (service : internal.Service.t) (nodeName : string)
    (server : Server.t) : Logged Server.t :=
  if decide (Server.URL server = "") then
    url ← buildServerURL service server nodeName;
    mret (Server.mk url (Server.Scheme server) (Server.Port server))
  else mret server.

(** The body of the service loop of [buildHTTPConfiguration]. *)
Definition enrichService (service : internal.Service.t) (nodeName : string)
    (services : gmap string Service.t) (serviceName : string)
  : Logged (gmap string Service.t) :=
  match services !! serviceName with
  | None => mret services
  | Some configService =>
      let lb :=
        match Service.LoadBalancer configService with
        | None => ServersLoadBalancer.mk None []
        | Some lb => lb
        end in
      let lb :=
        match ServersLoadBalancer.PassHostHeader lb with
        | None => ServersLoadBalancer.mk (Some true)
                                         (ServersLoadBalancer.Servers lb)
        | Some _ => lb
        end in
      let lb :=
        if decide (length (ServersLoadBalancer.Servers lb) = 0)
        then ServersLoadBalancer.mk (ServersLoadBalancer.PassHostHeader lb)
                                    [Server.mk "" "" ""]
        else lb in
      servers ← forEach (enrichServer service nodeName)
                        (ServersLoadBalancer.Servers lb);
      mret (<[serviceName :=
                Service.mk (Some (ServersLoadBalancer.mk
                  (ServersLoadBalancer.PassHostHeader lb) servers))]>
            services)
  end.

Definition buildHTTPConfiguration (httpConfig : HTTPConfiguration.t)
    (service : internal.Service.t) (nodeName : string)
  : Logged HTTPConfiguration.t :=
  let defaultID := defaultID service in
  let definedRouters := getDefinedElements (Service.Config service) "http" "routers" in
  let definedServices := getDefinedElements (Service.Config service) "http" "services" in
  let '(routers, definedRouters) :=
    if decide (length definedRouters = 0)
    then (<[defaultID := Router.mk "" "" None]> (HTTPConfiguration.Routers httpConfig),
          definedRouters ++ [defaultID])
    else (HTTPConfiguration.Routers httpConfig, definedRouters) in
  let '(services, definedServices) :=
    if decide (length definedServices = 0)
    then (<[defaultID := Service.mk None]> (HTTPConfiguration.Services httpConfig),
          definedServices ++ [defaultID])
    else (HTTPConfiguration.Services httpConfig, definedServices) in
  let routers := foldl (enrichRouter service definedServices) routers definedRouters in
  services ← forRange (enrichService service nodeName) definedServices services;
  mret (HTTPConfiguration.mk routers services
                             (HTTPConfiguration.Middlewares httpConfig)).

(** *** TCP *)

Definition enrichTCPRouter (definedServices : list string)
    (routers : gmap string TCPRouter.t) (routerName : string)
  : gmap string TCPRouter.t :=
  match routers !! routerName with
  | None => routers
  | Some router =>
      let router :=
        if decide (TCPRouter.Service router = "" ∧ 0 < length definedServices)
        then TCPRouter.mk (definedServices !!! 0%nat)
                          (TCPRouter.Rule router) (TCPRouter.Priority router)
        else router in
      let router :=
        match TCPRouter.Priority router with
        | None => TCPRouter.mk (TCPRouter.Service router)
                               (TCPRouter.Rule router) (Some 1%Z)
        | Some _ => router
        end in
      let router :=
        if decide (TCPRouter.Rule router = "")
        then TCPRouter.mk (TCPRouter.Service router) "HostSNI(`*`)"
                          (TCPRouter.Priority router)
        else router in
      <[routerName := router]> routers
  end.

(** The body of the server loop of [buildTCPConfiguration]. *)
Definition enrichTCPServer (service : internal.Service.t) (nodeName : string)
    (server : TCPServer.t) : Logged TCPServer.t :=
  if decide (TCPServer.Address server = "") then
    if decide (TCPServer.Port server = "") then
      _ ← logPrintf (WarnNoPort TCP (Service.Name service));
      mret server
    else
      address ← buildStreamServerAddress service nodeName (TCPServer.Port server);
      mret (TCPServer.mk address (TCPServer.Port server))
  else mret server.

(** The body of the service loop of [buildTCPConfiguration]. *)
Definition enrichTCPService (service : internal.Service.t) (nodeName : string)
    (services : gmap string TCPService.t) (serviceName : string)
  : Logged (gmap string TCPService.t) :=
  match services !! serviceName with
  | None => mret services
  | Some configService =>
      let lb :=
        match TCPService.LoadBalancer configService with
        | None => TCPServersLoadBalancer.mk []
        | Some lb => lb
        end in
      let lb :=
        if decide (length (TCPServersLoadBalancer.Servers lb) = 0)
        then TCPServersLoadBalancer.mk [TCPServer.mk "" ""]
        else lb in
      servers ← forEach (enrichTCPServer service nodeName)
                        (TCPServersLoadBalancer.Servers lb);
      mret (<[serviceName :=
                TCPService.mk (Some (TCPServersLoadBalancer.mk servers))]>
            services)
  end.

Definition buildTCPConfiguration (tcpConfig : TCPConfiguration.t)
    (service : internal.Service.t) (nodeName : string)
  : Logged TCPConfiguration.t :=
  let defaultID := defaultID service in
  let definedRouters := getDefinedElements (Service.Config service) "tcp" "routers" in
  let definedServices := getDefinedElements (Service.Config service) "tcp" "services" in
  let '(services, definedServices) :=
    if decide (0 < length definedRouters ∧ length definedServices = 0)
    then (<[defaultID := TCPService.mk None]> (TCPConfiguration.Services tcpConfig),
          definedServices ++ [defaultID])
    else (TCPConfiguration.Services tcpConfig, definedServices) in
  let routers :=
    foldl (enrichTCPRouter definedServices)
          (TCPConfiguration.Routers tcpConfig) definedRouters in
  services ← forRange (enrichTCPService service nodeName) definedServices services;
  mret (TCPConfiguration.mk routers services).

(** *** UDP *)

Definition enrichUDPRouter (definedServices : list string)
    (routers : gmap string UDPRouter.t) (routerName : string)
  : gmap string UDPRouter.t :=
  match routers !! routerName with
  | None => routers
  | Some router =>
      let router :=
        if decide (UDPRouter.Service router = "" ∧ 0 < length definedServices)
        then UDPRouter.mk (definedServices !!! 0%nat)
        else router in
      <[routerName := router]> routers
  end.

(** The body of the server loop of [buildUDPConfiguration]. *)
Definition enrichUDPServer (service : internal.Service.t) (nodeName : string)
    (server : UDPServer.t) : Logged UDPServer.t :=
  if decide (UDPServer.Address server = "") then
    if decide (UDPServer.Port server = "") then
      _ ← logPrintf (WarnNoPort UDP (Service.Name service));
      mret server
    else
      address ← buildStreamServerAddress service nodeName (UDPServer.Port server);
      mret (UDPServer.mk address (UDPServer.Port server))
  else mret server.

(** The body of the service loop of [buildUDPConfiguration]. *)
Definition enrichUDPService (service : internal.Service.t) (nodeName : string)
    (services : gmap string UDPService.t) (serviceName : string)
  : Logged (gmap string UDPService.t) :=
  match services !! serviceName with
  | None => mret services
  | Some configService =>
      let lb :=
        match UDPService.LoadBalancer configService with
        | None => UDPServersLoadBalancer.mk []
        | Some lb => lb
        end in
      let lb :=
        if decide (length (UDPServersLoadBalancer.Servers lb) = 0)
        then UDPServersLoadBalancer.mk [UDPServer.mk "" ""]
        else lb in
      servers ← forEach (enrichUDPServer service nodeName)
                        (UDPServersLoadBalancer.Servers lb);
      mret (<[serviceName :=
                UDPService.mk (Some (UDPServersLoadBalancer.mk servers))]>
            services)
  end.

Definition buildUDPConfiguration (udpConfig : UDPConfiguration.t)
    (service : internal.Service.t) (nodeName : string)
  : Logged UDPConfiguration.t :=
  let defaultID := defaultID service in
  let definedRouters := getDefinedElements (Service.Config service) "udp" "routers" in
  let definedServices := getDefinedElements (Service.Config service) "udp" "services" in
  let '(services, definedServices) :=
    if decide (0 < length definedRouters ∧ length definedServices = 0)
    then (<[defaultID := UDPService.mk None]> (UDPConfiguration.Services udpConfig),
          definedServices ++ [defaultID])
    else (UDPConfiguration.Services udpConfig, definedServices) in
  let routers :=
    foldl (enrichUDPRouter definedServices)
          (UDPConfiguration.Routers udpConfig) definedRouters in
  services ← forRange (enrichUDPService service nodeName) definedServices services;
  mret (UDPConfiguration.mk routers services).

(** *** The assembler *)

(** The body of the inner loop of [generateConfiguration]. *)
Definition processService (nodeName : string) (config : Configuration.t)
    (service : internal.Service.t) : Logged Configuration.t :=
  _ ← logPrintf (LogProcessing (Service.Name service) (Service.ID service) nodeName);
  let '(config, err) := Decode (Service.Config service) config in
  match err with
  | Some e =>
      _ ← logPrintf (LogDecodeError (Service.Name service) e);
      mret config
  | None =>
      http ← buildHTTPConfiguration (Configuration.HTTP config) service nodeName;
      tcp ← buildTCPConfiguration (Configuration.TCP config) service nodeName;
      udp ← buildUDPConfiguration (Configuration.UDP config) service nodeName;
      mret (Configuration.mk http tcp udp)
  end.

(** The configuration [generateConfiguration] starts from. *)
Definition emptyConfiguration : Configuration.t :=
  Configuration.mk (HTTPConfiguration.mk ∅ ∅ ∅)
                   (TCPConfiguration.mk ∅ ∅)
                   (UDPConfiguration.mk ∅ ∅).

(** The two nested loops of [generateConfiguration], from any
    configuration and over any sequence of nodes. *)
Definition processNodes (nodes : list (string * list internal.Service.t))
    (config : Configuration.t) : Logged Configuration.t :=
  forRange (λ config (entry : string * list internal.Service.t),
              forRange (processService entry.1) entry.2 config)
           nodes config.

Definition generateConfiguration
    (servicesMap : gmap string (list internal.Service.t))
  : Logged Configuration.t :=
  processNodes (rangeMap _ servicesMap) emptyConfiguration.

End Provider.

(** ** Scanning a node *)

(** [getIPsOfService]. *)
Definition getIPsOfService (client : ProxmoxClient.t) (nodeName : string)
    (vmID : N) (isContainer : bool) : Logged (result (list IP.t)) :=
  let fetched :=
    if isContainer
    then ProxmoxClient.GetContainerNetworkInterfaces client nodeName vmID
    else ProxmoxClient.GetVMNetworkInterfaces client nodeName vmID in
  match fetched with
  | Err e =>
      _ ← logPrintf (LogInterfacesError isContainer nodeName vmID e);
      mret (Err ((if isContainer
                  then "error getting container network interfaces: "
                  else "error getting VM network interfaces: ") +:+ e))
  | Ok rawIPs =>
      let filteredIPs :=
        filter (λ ip, (IP.AddressType ip = "ipv4" ∨ IP.AddressType ip = "inet")
                      ∧ IP.Address ip ≠ "127.0.0.1") rawIPs in
      _ ← (if decide (length filteredIPs = 0
                      ∧ ProxmoxClient.LogLevel client = LogLevelDebug)
           then logPrintf (LogNoValidIPs isContainer nodeName vmID)
           else mret ());
      mret (Ok filteredIPs)
  end.

(** The body of the loop of [scanServices] over the virtual machines. *)
Definition scanVM (client : ProxmoxClient.t) (nodeName : string)
    (services : list internal.Service.t) (vm : Guest.t)
  : Logged (list internal.Service.t) :=
  _ ← logPrintf (LogScanning false nodeName (Guest.Name vm) (Guest.VMID vm)
                             (Guest.Status vm));
  if decide (Guest.Status vm = "running") then
    match ProxmoxClient.GetVMConfig client nodeName (Guest.VMID vm) with
    | Err e =>
        _ ← logPrintf (LogConfigError false (Guest.VMID vm) e);
        mret services
    | Ok configMap =>
        _ ← (if decide (default "" (configMap !! "traefik.enable") ≠ "true")
             then logPrintf (LogSkipping false (Guest.Name vm) (Guest.VMID vm))
             else mret ());
        _ ← logPrintf (LogTraefikConfig false (Guest.Name vm) (Guest.VMID vm));
        let service := NewService (Guest.VMID vm) (Guest.Name vm) configMap in
        ips ← getIPsOfService client nodeName (Guest.VMID vm) false;
        let service :=
          match ips with
          | Ok ips => internal.Service.mk (Service.ID service) (Service.Name service)
                                          (Service.Config service) ips
          | Err _ => service
          end in
        mret (services ++ [service])
    end
  else mret services.

(** The body of the loop of [scanServices] over the containers. *)
Definition scanContainer (client : ProxmoxClient.t) (nodeName : string)
    (services : list internal.Service.t) (ct : Guest.t)
  : Logged (list internal.Service.t) :=
  _ ← logPrintf (LogScanning true nodeName (Guest.Name ct) (Guest.VMID ct)
                             (Guest.Status ct));
  if decide (Guest.Status ct = "running") then
    match ProxmoxClient.GetContainerConfig client nodeName (Guest.VMID ct) with
    | Err e =>
        _ ← logPrintf (LogConfigError true (Guest.VMID ct) e);
        mret services
    | Ok configMap =>
        if decide (default "" (configMap !! "traefik.enable") ≠ "true") then
          _ ← logPrintf (LogSkipping true (Guest.Name ct) (Guest.VMID ct));
          mret services
        else
          _ ← logPrintf (LogTraefikConfig true (Guest.Name ct) (Guest.VMID ct));
          let service := NewService (Guest.VMID ct) (Guest.Name ct) configMap in
          ips ← getIPsOfService client nodeName (Guest.VMID ct) true;
          let service :=
            match ips with
            | Ok ips => internal.Service.mk (Service.ID service) (Service.Name service)
                                            (Service.Config service) ips
            | Err _ => service
            end in
          mret (services ++ [service])
    end
  else mret services.

Definition scanServices (client : ProxmoxClient.t) (nodeName : string)
  : Logged (result (list internal.Service.t)) :=
  match ProxmoxClient.GetVirtualMachines client nodeName with
  | Err e =>
      mret (Err ("error scanning VMs on node " +:+ nodeName +:+ ": " +:+ e))
  | Ok vms =>
      services ← forRange (scanVM client nodeName) vms [];
      match ProxmoxClient.GetContainers client nodeName with
      | Err e =>
          mret (Err ("error scanning containers on node " +:+ nodeName
                     +:+ ": " +:+ e))
      | Ok cts =>
          services ← forRange (scanContainer client nodeName) cts services;
          mret (Ok services)
      end
  end.

(** [getServiceMap]. *)
Definition getServiceMap (client : ProxmoxClient.t)
  : Logged (result (gmap string (list internal.Service.t))) :=
  match ProxmoxClient.GetNodes client with
  | Err e => mret (Err ("error scanning nodes: " +:+ e))
  | Ok nodes =>
      servicesMap ←
        forRange (λ (servicesMap : gmap string (list internal.Service.t)) node,
                    services ← scanServices client node;
                    match services with
                    | Err e =>
                        _ ← logPrintf (LogNodeScanError node e);
                        mret servicesMap
                    | Ok services => mret (<[node := services]> servicesMap)
                    end)
                 nodes ∅;
      mret (Ok servicesMap)
  end.

(** ** The plugin configuration and its life cycle *)

Module Config.
Record t := mk {
  PollInterval : string;
  ApiEndpoint : string;
  ApiTokenId : string;
  ApiToken : string;
  ApiLogging : string;
  ApiValidateSSL : string
}.
End Config.

(** [CreateConfig]: the fields it does not set are empty strings. *)
Definition CreateConfig : Config.t :=
  Config.mk "30s" "" "" "" "info" "true".

Module ParserConfig.
Record t := mk {
  ApiEndpoint : string;
  TokenId : string;
  Token : string;
  LogLevel : string;
  ValidateSSL : bool
}.
End ParserConfig.

(** [newParserConfig]. *)
Definition newParserConfig (apiEndpoint tokenID token : string)
  : result ParserConfig.t :=
  if decide (apiEndpoint = "" ∨ tokenID = "" ∨ token = "")
  then Err "missing mandatory values: apiEndpoint, tokenID or token"
  else Ok (ParserConfig.mk apiEndpoint tokenID token "info" true).

(** [validateConfig]: the configuration comes by pointer and may be nil; the
    result is the error, [None] when there is none. *)
Definition validateConfig (config : option Config.t) : option string :=
  match config with
  | None => Some "configuration cannot be nil"
  | Some config =>
      if decide (Config.PollInterval config = "")
      then Some "poll interval must be set"
      else if decide (Config.ApiEndpoint config = "")
      then Some "API endpoint must be set"
      else if decide (Config.ApiTokenId config = "")
      then Some "API token ID must be set"
      else if decide (Config.ApiToken config = "")
      then Some "API token must be set"
      else None
  end.

(** [isBoolLabelEnabled]. *)
Definition isBoolLabelEnabled (labels : gmap string string) (label : string)
  : bool :=
  match labels !! label with
  | Some val => bool_decide (val = "true")
  | None => false
  end.

(** The provider; its [cancel] function is left out. *)
Module Provider.
Record t := mk {
  name : string;
  pollInterval : Z;
  client : ProxmoxClient.t
}.
End Provider.

(** The one line [logVersion] writes. *)
Inductive ConnectEvent :=
  | LogConnected (release : string).

(** [time.Second], in nanoseconds. *)
Definition Second : Z := 1000000000.

Section Lifecycle.

(** [time.ParseDuration], with the duration in nanoseconds. *)
Variable ParseDuration : string → result Z.
(** How [%v] prints a duration. *)
Variable formatDuration : Z → string.
(** [internal.NewProxmoxClient]. *)
Variable NewProxmoxClient :
  string → string → string → bool → string → ProxmoxClient.t.
(** [client.GetVersion], reduced to the release it reports. *)
Variable GetVersion : ProxmoxClient.t → result string.

Variable rangeMap : ∀ V, gmap string V → list (string * V).
Variable Decode :
  gmap string string → Configuration.t → Configuration.t * option string.

(** [newClient]. *)
Definition newClient (pc : ParserConfig.t) : ProxmoxClient.t :=
  NewProxmoxClient (ParserConfig.ApiEndpoint pc) (ParserConfig.TokenId pc)
                   (ParserConfig.Token pc) (ParserConfig.ValidateSSL pc)
                   (ParserConfig.LogLevel pc).

(** [logVersion]: the error or nil, and the line it logs. *)
Definition logVersion (client : ProxmoxClient.t)
  : option string * list ConnectEvent :=
  match GetVersion client with
  | Err e => (Some e, [])
  | Ok release => (None, [LogConnected release])
  end.

(** [New].  [validateConfig] rejects nil, so the configuration is there
    whenever its fields are read; the second case never arises. *)
Definition New (config : option Config.t) (name : string)
  : result Provider.t * list ConnectEvent :=
  match validateConfig config, config with
  | Some err, _ => (Err ("invalid configuration: " +:+ err), [])
  | None, None => (Err "invalid configuration: configuration cannot be nil", [])
  | None, Some config =>
      match ParseDuration (Config.PollInterval config) with
      | Err err => (Err ("invalid poll interval: " +:+ err), [])
      | Ok pi =>
          if decide (pi < 5 * Second)%Z
          then (Err ("poll interval must be at least 5 seconds, got "
                     +:+ formatDuration pi), [])
          else
            match newParserConfig (Config.ApiEndpoint config)
                                  (Config.ApiTokenId config)
                                  (Config.ApiToken config) with
            | Err err => (Err ("invalid parser config: " +:+ err), [])
            | Ok pc =>
                let pc := ParserConfig.mk (ParserConfig.ApiEndpoint pc)
                            (ParserConfig.TokenId pc) (ParserConfig.Token pc)
                            (Config.ApiLogging config)
                            (ParserConfig.ValidateSSL pc) in
                let pc := ParserConfig.mk (ParserConfig.ApiEndpoint pc)
                            (ParserConfig.TokenId pc) (ParserConfig.Token pc)
                            (ParserConfig.LogLevel pc)
                            (bool_decide (Config.ApiValidateSSL config = "true")) in
                let client := newClient pc in
                match logVersion client with
                | (Some err, log) =>
                    (Err ("failed to get Proxmox version: " +:+ err), log)
                | (None, log) => (Ok (Provider.mk name pi client), log)
                end
            end
      end
  end.

(** [updateConfiguration]: the payloads it sends on the channel, and the
    error or nil. *)
Definition updateConfiguration (p : Provider.t)
  : Logged (list Configuration.t * option string) :=
  servicesMap ← getServiceMap (Provider.client p);
  match servicesMap with
  | Err err => mret ([], Some ("error getting service map: " +:+ err))
  | Ok servicesMap =>
      configuration ← generateConfiguration rangeMap Decode servicesMap;
      mret ([configuration], None)
  end.

End Lifecycle.

(** ** Vocabulary of the statements *)

(** The byte [c] occurs in [s]. *)
Fixpoint occurs (c : ascii) (s : string) : Prop :=
  match s with
  | EmptyString => False
  | String a s' => a = c ∨ occurs c s'
  end.

(** The prefix under which the labels of one element type of one protocol
    live. *)
Definition labelPrefix (proto elemType : string) : string :=
  "traefik." +:+ proto +:+ "." +:+ elemType +:+ ".".

(** [id] is the first path segment of [rest]: it holds no dot, and [rest]
    is [id] alone or [id] followed by a dot and more. *)
Definition firstSegment (id rest : string) : Prop :=
  ¬ occurs "."%char id ∧ (rest = id ∨ ∃ tail, rest = id +:+ "." +:+ tail).

(** Some key of [labels] lies under the prefix of [proto] and [elemType]. *)
Definition hasLabels (labels : gmap string string) (proto elemType : string)
  : Prop :=
  ∃ k rest, is_Some (labels !! k) ∧ k = labelPrefix proto elemType +:+ rest.

(** Some key of [labels] under the prefix of [proto] and [elemType] has
    [id] as the first segment after the prefix. *)
Definition declares (labels : gmap string string) (proto elemType id : string)
  : Prop :=
  ∃ k rest, is_Some (labels !! k)
            ∧ k = labelPrefix proto elemType +:+ rest
            ∧ firstSegment id rest.

(** Server [i] of the TCP service under [k] is [server]. *)
Definition tcpServerAt (services : gmap string TCPService.t) (k : string)
    (i : nat) (server : TCPServer.t) : Prop :=
  ∃ configService lb,
    services !! k = Some configService
    ∧ TCPService.LoadBalancer configService = Some lb
    ∧ TCPServersLoadBalancer.Servers lb !! i = Some server.

(** Server [i] of the UDP service under [k] is [server]. *)
Definition udpServerAt (services : gmap string UDPService.t) (k : string)
    (i : nat) (server : UDPServer.t) : Prop :=
  ∃ configService lb,
    services !! k = Some configService
    ∧ UDPService.LoadBalancer configService = Some lb
    ∧ UDPServersLoadBalancer.Servers lb !! i = Some server.

(** [hasLabels], computed. *)
Definition hasLabelsb (labels : gmap string string) (proto elemType : string)
  : bool :=
  existsb (λ kv : string * string,
             strings.HasPrefix kv.1 (labelPrefix proto elemType))
          (map_to_list labels).

(** The workload [scanServices] appends for a guest whose labels it could
    read. *)
Definition scannedService (client : ProxmoxClient.t) (nodeName : string)
    (isContainer : bool) (guest : Guest.t) (configMap : gmap string string)
  : internal.Service.t :=
  match (getIPsOfService client nodeName (Guest.VMID guest) isContainer).1 with
  | Ok ips => internal.Service.mk (Guest.VMID guest) (Guest.Name guest)
                                  configMap ips
  | Err _ => NewService (Guest.VMID guest) (Guest.Name guest) configMap
  end.

(** What the router loop of [buildHTTPConfiguration] makes of a router it
    finds, given the service names at hand. *)
Definition httpRouterDefaults (service : internal.Service.t)
    (definedServices : list string) (router : Router.t) : Router.t :=
  Router.mk
    (if decide (Router.Service router = "" ∧ 0 < length definedServices)
     then definedServices !!! 0%nat else Router.Service router)
    (if decide (Router.Rule router = "")
     then "Host(`" +:+ Service.Name service +:+ "`)" else Router.Rule router)
    (Some (default 1%Z (Router.Priority router))).

(** The same for the router loops of [buildTCPConfiguration] and
    [buildUDPConfiguration]. *)
Definition tcpRouterDefaults (definedServices : list string)
    (router : TCPRouter.t) : TCPRouter.t :=
  TCPRouter.mk
    (if decide (TCPRouter.Service router = "" ∧ 0 < length definedServices)
     then definedServices !!! 0%nat else TCPRouter.Service router)
    (if decide (TCPRouter.Rule router = "")
     then "HostSNI(`*`)" else TCPRouter.Rule router)
    (Some (default 1%Z (TCPRouter.Priority router))).

Definition udpRouterDefaults (definedServices : list string)
    (router : UDPRouter.t) : UDPRouter.t :=
  UDPRouter.mk
    (if decide (UDPRouter.Service router = "" ∧ 0 < length definedServices)
     then definedServices !!! 0%nat else UDPRouter.Service router).

(** What the service loops make of a service they find. *)
Definition httpServiceDefaults (service : internal.Service.t)
    (nodeName : string) (configService : Service.t) : Service.t :=
  let lb := default (ServersLoadBalancer.mk None [])
                    (Service.LoadBalancer configService) in
  let servers := if decide (length (ServersLoadBalancer.Servers lb) = 0)
                 then [Server.mk "" "" ""]
                 else ServersLoadBalancer.Servers lb in
  Service.mk (Some (ServersLoadBalancer.mk
    (Some (default true (ServersLoadBalancer.PassHostHeader lb)))
    (map (λ server, (enrichServer service nodeName server).1) servers))).

Definition tcpServiceDefaults (service : internal.Service.t)
    (nodeName : string) (configService : TCPService.t) : TCPService.t :=
  let lb := default (TCPServersLoadBalancer.mk [])
                    (TCPService.LoadBalancer configService) in
  let servers := if decide (length (TCPServersLoadBalancer.Servers lb) = 0)
                 then [TCPServer.mk "" ""]
                 else TCPServersLoadBalancer.Servers lb in
  TCPService.mk (Some (TCPServersLoadBalancer.mk
    (map (λ server, (enrichTCPServer service nodeName server).1) servers))).

Definition udpServiceDefaults (service : internal.Service.t)
    (nodeName : string) (configService : UDPService.t) : UDPService.t :=
  let lb := default (UDPServersLoadBalancer.mk [])
                    (UDPService.LoadBalancer configService) in
  let servers := if decide (length (UDPServersLoadBalancer.Servers lb) = 0)
                 then [UDPServer.mk "" ""]
                 else UDPServersLoadBalancer.Servers lb in
  UDPService.mk (Some (UDPServersLoadBalancer.mk
    (map (λ server, (enrichUDPServer service nodeName server).1) servers))).

(** Server [i] of the HTTP service under [k] is [server]. *)
Definition httpServerAt (services : gmap string Service.t) (k : string)
    (i : nat) (server : Server.t) : Prop :=
  ∃ configService lb,
    services !! k = Some configService
    ∧ Service.LoadBalancer configService = Some lb
    ∧ ServersLoadBalancer.Servers lb !! i = Some server.

(** The workload a running virtual machine contributes to the list of its
    node, if any. *)
Definition listedVM (client : ProxmoxClient.t) (nodeName : string)
    (vm : Guest.t) : option internal.Service.t :=
  if decide (Guest.Status vm = "running") then
    match ProxmoxClient.GetVMConfig client nodeName (Guest.VMID vm) with
    | Ok configMap => Some (scannedService client nodeName false vm configMap)
    | Err _ => None
    end
  else None.

(** The workload a running container contributes to the list of its node,
    if any. *)
Definition listedContainer (client : ProxmoxClient.t) (nodeName : string)
    (ct : Guest.t) : option internal.Service.t :=
  if decide (Guest.Status ct = "running") then
    match ProxmoxClient.GetContainerConfig client nodeName (Guest.VMID ct) with
    | Ok configMap =>
        if decide (configMap !! "traefik.enable" = Some "true")
        then Some (scannedService client nodeName true ct configMap)
        else None
    | Err _ => None
    end
  else None.

(** An address [getServiceIP] can return for a scanned workload: of an IPv4
    family, not empty and not the loopback address. *)
Definition usableIP (ip : IP.t) : Prop :=
  (IP.AddressType ip = "ipv4" ∨ IP.AddressType ip = "inet")
  ∧ IP.Address ip ≠ "" ∧ IP.Address ip ≠ "127.0.0.1".

(** Every router, service and middleware key of [config] is a key of
    [config']. *)
Definition keysKept (config config' : Configuration.t) : Prop :=
  dom (HTTPConfiguration.Routers (Configuration.HTTP config))
  ⊆ dom (HTTPConfiguration.Routers (Configuration.HTTP config'))
  ∧ dom (HTTPConfiguration.Services (Configuration.HTTP config))
    ⊆ dom (HTTPConfiguration.Services (Configuration.HTTP config'))
  ∧ dom (HTTPConfiguration.Middlewares (Configuration.HTTP config))
    ⊆ dom (HTTPConfiguration.Middlewares (Configuration.HTTP config'))
  ∧ dom (TCPConfiguration.Routers (Configuration.TCP config))
    ⊆ dom (TCPConfiguration.Routers (Configuration.TCP config'))
  ∧ dom (TCPConfiguration.Services (Configuration.TCP config))
    ⊆ dom (TCPConfiguration.Services (Configuration.TCP config'))
  ∧ dom (UDPConfiguration.Routers (Configuration.UDP config))
    ⊆ dom (UDPConfiguration.Routers (Configuration.UDP config'))
  ∧ dom (UDPConfiguration.Services (Configuration.UDP config))
    ⊆ dom (UDPConfiguration.Services (Configuration.UDP config')).

(** ** Sample inputs *)

(** The order of [map_to_list] as the order of iteration. *)
Definition sampleRange : ∀ V, gmap string V → list (string * V) :=
  λ V m, map_to_list m.

(** A decoder that rejects a router priority that is not a number and
    otherwise writes nothing. *)
Definition sampleDecode (labels : gmap string string)
    (config : Configuration.t) : Configuration.t * option string :=
  if decide (labels !! "traefik.http.routers.bad.priority" = Some "high")
  then (config, Some "invalid priority")
  else (config, None).

Definition webWorkload : internal.Service.t :=
  internal.Service.mk 100 "web" {[ "traefik.enable" := "true" ]}
    [IP.mk "127.0.0.1" "ipv4"; IP.mk "10.0.0.5" "ipv4"].

Definition dbWorkload : internal.Service.t :=
  internal.Service.mk 101 "db"
    {[ "traefik.enable" := "true";
       "traefik.tcp.routers.foo.rule" := "HostSNI(`*`)";
       "traefik.udp.routers.dns.service" := "" ]}
    [].

Definition badWorkload : internal.Service.t :=
  internal.Service.mk 102 "bad"
    {[ "traefik.enable" := "true";
       "traefik.http.routers.bad.priority" := "high" ]}
    [].

Definition sshWorkload : internal.Service.t :=
  internal.Service.mk 103 "ssh"
    {[ "traefik.enable" := "true";
       "traefik.tcp.services.ssh.loadbalancer.server.port" := "2222";
       "traefik.udp.services.ssh.loadbalancer.server.port" := "2222" ]}
    [IP.mk "10.0.0.9" "ipv4"].

Definition sampleTCP : TCPConfiguration.t :=
  TCPConfiguration.mk
    {[ "foo" := TCPRouter.mk "" "" None ]}
    {[ "ssh" := TCPService.mk (Some (TCPServersLoadBalancer.mk
                  [TCPServer.mk "10.0.0.9:22" "2222"; TCPServer.mk "" ""])) ]}.

Definition sampleUDP : UDPConfiguration.t :=
  UDPConfiguration.mk
    {[ "dns" := UDPRouter.mk "" ]}
    {[ "ssh" := UDPService.mk (Some (UDPServersLoadBalancer.mk
                  [UDPServer.mk "10.0.0.9:22" "2222"; UDPServer.mk "" ""])) ]}.

(** A node "pve" with two running virtual machines and two running
    containers; one of each has "traefik.enable" set to "false"; no guest
    agent answers. *)
Definition sampleClient : ProxmoxClient.t :=
  ProxmoxClient.mk
    (Ok ["pve"])
    (λ _, Ok [Guest.mk 100 "web" "running"; Guest.mk 102 "app" "running"])
    (λ _, Ok [Guest.mk 200 "ct" "running"; Guest.mk 201 "cache" "running"])
    (λ _ id, if decide (id = 100%N)
             then Ok {[ "traefik.enable" := "false" ]}
             else Ok {[ "traefik.enable" := "true" ]})
    (λ _ id, if decide (id = 200%N)
             then Ok {[ "traefik.enable" := "false" ]}
             else Ok {[ "traefik.enable" := "true" ]})
    (λ _ _, Err "guest agent is not running")
    (λ _ _, Err "guest agent is not running")
    "info".

Definition apiWorkload : internal.Service.t :=
  internal.Service.mk 104 "api"
    {[ "traefik.enable" := "true";
       "traefik.http.routers.myrouter.rule" := "Host(`a.example`)";
       "traefik.http.services.mysvc.loadbalancer.server.port" := "8080" ]}
    [IP.mk "10.0.0.8" "ipv4"].

Definition sampleHTTP : HTTPConfiguration.t :=
  HTTPConfiguration.mk
    {[ "myrouter" := Router.mk "" "Host(`a.example`)" None ]}
    {[ "mysvc" := Service.mk (Some (ServersLoadBalancer.mk None
                    [Server.mk "" "" "8080"])) ]}
    ∅.

(** [sampleClient] with a guest agent that reports an IPv6 address, the
    loopback address and one more IPv4 address, in this order. *)
Definition agentClient : ProxmoxClient.t :=
  ProxmoxClient.mk
    (ProxmoxClient.GetNodes sampleClient)
    (ProxmoxClient.GetVirtualMachines sampleClient)
    (ProxmoxClient.GetContainers sampleClient)
    (ProxmoxClient.GetVMConfig sampleClient)
    (ProxmoxClient.GetContainerConfig sampleClient)
    (λ _ _, Ok [IP.mk "fe80::1" "ipv6"; IP.mk "127.0.0.1" "ipv4";
                IP.mk "10.0.0.7" "ipv4"])
    (ProxmoxClient.GetContainerNetworkInterfaces sampleClient)
    "info".

(** [sampleClient] with a listing of the containers that fails. *)
Definition brokenClient : ProxmoxClient.t :=
  ProxmoxClient.mk
    (ProxmoxClient.GetNodes sampleClient)
    (ProxmoxClient.GetVirtualMachines sampleClient)
    (λ _, Err "timeout")
    (ProxmoxClient.GetVMConfig sampleClient)
    (ProxmoxClient.GetContainerConfig sampleClient)
    (ProxmoxClient.GetVMNetworkInterfaces sampleClient)
    (ProxmoxClient.GetContainerNetworkInterfaces sampleClient)
    "info".

(** The order of [map_to_list], reversed. *)
Definition reverseRange : ∀ V, gmap string V → list (string * V) :=
  λ V m, reverse (map_to_list m).

Definition sampleConfig : Config.t :=
  Config.mk "30s" "https://pve.example:8006" "root@pam!traefik" "secret"
            "debug" "false".

Definition sampleParseDuration (s : string) : result Z :=
  if decide (s = "30s") then Ok (30 * Second)%Z else Err "invalid duration".

Definition sampleProvider : Provider.t :=
  Provider.mk "proxmox" (30 * Second)%Z brokenClient.

(** A workload whose labels name the router of [webWorkload] and carry a
    priority that is not a number. *)
Definition clashWorkload : internal.Service.t :=
  internal.Service.mk 105 "clash"
    {[ "traefik.enable" := "true";
       "traefik.http.routers.web-100.rule" := "Host(`other`)";
       "traefik.http.routers.web-100.priority" := "high" ]}
    [].

(** A decoder that fills the configuration label by label: for the labels of
    [clashWorkload] it has written the router "web-100" with its rule when
    it rejects the priority; other labels it accepts without writing. *)
Definition overwritingDecode (labels : gmap string string)
    (config : Configuration.t) : Configuration.t * option string :=
  if decide (labels !! "traefik.http.routers.web-100.priority" = Some "high")
  then
    (Configuration.mk
       (HTTPConfiguration.mk
          (<["web-100" :=
               Router.mk ""
                 (default "" (labels !! "traefik.http.routers.web-100.rule"))
                 None]>
             (HTTPConfiguration.Routers (Configuration.HTTP config)))
          (HTTPConfiguration.Services (Configuration.HTTP config))
          (HTTPConfiguration.Middlewares (Configuration.HTTP config)))
       (Configuration.TCP config) (Configuration.UDP config),
     Some "invalid priority")
  else (config, None).

(** A workload with two routers and one service, and a configuration that
    holds the three. *)
Definition pairWorkload : internal.Service.t :=
  internal.Service.mk 106 "pair"
    {[ "traefik.enable" := "true";
       "traefik.http.routers.a.rule" := "Host(`a.example`)";
       "traefik.http.routers.b.rule" := "Host(`b.example`)";
       "traefik.http.services.s.loadbalancer.server.port" := "8080" ]}
    [IP.mk "10.0.0.6" "ipv4"].

Definition pairHTTP : HTTPConfiguration.t :=
  HTTPConfiguration.mk
    {[ "a" := Router.mk "" "Host(`a.example`)" None;
       "b" := Router.mk "" "Host(`b.example`)" None ]}
    {[ "s" := Service.mk (Some (ServersLoadBalancer.mk None
                [Server.mk "" "" "8080"])) ]}
    ∅.

(** Unfold the writer operations. *)
Ltac logged :=
  unfold mbind, mret, Logged_bind, Logged_ret, logPrintf in *; cbn in *.

(** * Properties *)

(** ** The writer effect and the loops *)

Lemma bind_fst {A B} (m : Logged A) (f : A → Logged B) :
  (m ≫= f).1 = (f m.1).1.
Proof. done. Qed.

Lemma bind_snd {A B} (m : Logged A) (f : A → Logged B) :
  (m ≫= f).2 = m.2 ++ (f m.1).2.
Proof. done. Qed.

Lemma forEach_fst {A} (f : A → Logged A) (xs : list A) :
  (forEach f xs).1 = map (λ x, (f x).1) xs.
Proof.
  induction xs as [|x xs IH]; [done|].
  cbn. rewrite !bind_fst. cbn. by rewrite IH.
Qed.

Lemma forEach_length {A} (f : A → Logged A) (xs : list A) :
  length (forEach f xs).1 = length xs.
Proof. by rewrite forEach_fst, length_map. Qed.

Lemma forEach_lookup {A} (f : A → Logged A) (xs : list A) (i : nat) :
  (forEach f xs).1 !! i = (λ x, (f x).1) <$> xs !! i.
Proof. by rewrite forEach_fst, list_lookup_fmap. Qed.

Lemma forRange_app {A S} (f : S → A → Logged S) (xs ys : list A) (s : S) :
  forRange f (xs ++ ys) s
  = (let r := forRange f xs s in
     let r' := forRange f ys r.1 in (r'.1, r.2 ++ r'.2)).
Proof.
  revert s. induction xs as [|x xs IH]; intros s; cbn.
  - by destruct (forRange f ys s).
  - unfold mbind, Logged_bind. rewrite IH. cbn. by rewrite app_assoc.
Qed.

Lemma forRange_cons_fst {A S} (f : S → A → Logged S) (x : A) (xs : list A) (s : S) :
  (forRange f (x :: xs) s).1 = (forRange f xs (f s x).1).1.
Proof. done. Qed.

Lemma forRange_invariant {A S} (P : S → Prop) (f : S → A → Logged S)
    (xs : list A) (s : S) :
  (∀ s x, x ∈ xs → P s → P (f s x).1) → P s → P (forRange f xs s).1.
Proof.
  revert s. induction xs as [|x xs IH]; intros s Hstep Hs; [done|].
  rewrite forRange_cons_fst. apply IH.
  - intros s' y Hy. apply Hstep. by right.
  - apply Hstep; [by left | done].
Qed.

Lemma foldl_invariant {A S} (P : S → Prop) (f : S → A → S)
    (xs : list A) (s : S) :
  (∀ s x, x ∈ xs → P s → P (f s x)) → P s → P (foldl f s xs).
Proof.
  revert s. induction xs as [|x xs IH]; intros s Hstep Hs; [done|].
  cbn. apply IH.
  - intros s' y Hy. apply Hstep. by right.
  - apply Hstep; [by left | done].
Qed.

(** ** Strings *)

Section StringFacts.

#[local] Arguments String.append !_ _ / : simpl nomatch.

Lemma HasPrefix_cons (a c : ascii) (s p : string) :
  strings.HasPrefix (String a s) (String c p)
  = if decide (a = c) then strings.HasPrefix s p else false.
Proof. done. Qed.

Lemma HasPrefix_app (p rest : string) :
  strings.HasPrefix (p +:+ rest) p = true.
Proof.
  induction p as [|c p IH]; [done|].
  change (String c p +:+ rest) with (String c (p +:+ rest)).
  rewrite HasPrefix_cons. by rewrite decide_True.
Qed.

Lemma HasPrefix_inv (s p : string) :
  strings.HasPrefix s p = true → ∃ rest, s = p +:+ rest.
Proof.
  revert s. induction p as [|c p IH]; intros s.
  - intros _. by exists s.
  - destruct s as [|a s]; [done|].
    rewrite HasPrefix_cons.
    case_decide; [|done]. subst a.
    intros [rest ->]%IH. by exists rest.
Qed.

Lemma slice_from_app (p rest : string) :
  strings.slice_from (p +:+ rest) (String.length p) = rest.
Proof. induction p as [|c p IH]; cbn; done. Qed.

Lemma Split_nonempty (s : string) (sep : ascii) : strings.Split s sep ≠ [].
Proof.
  destruct s as [|c s]; cbn; [done|].
  case_decide; [done|]. by destruct (strings.Split s sep).
Qed.

(** The head of [Split s "."] is the first segment of [s]. *)
Lemma Split_head_firstSegment (s : string) :
  ∃ part0 parts, strings.Split s "."%char = part0 :: parts
                 ∧ firstSegment part0 s.
Proof.
  induction s as [|c s (part0 & parts & Hsplit & Hno & Hshape)]; cbn.
  - exists "", []. split; [done|]. split; [by intros []|by left].
  - case_decide as Hc.
    + subst c. exists "", (strings.Split s "."%char).
      split; [done|]. split; [by intros []|]. right. by exists s.
    + rewrite Hsplit. exists (String c part0), parts.
      split; [done|]. split.
      * cbn. intros [?|?]; [done|by apply Hno].
      * destruct Hshape as [->|[tail ->]]; [by left|right; by exists tail].
Qed.

Lemma firstSegment_nil_r (id : string) : firstSegment id "" → id = "".
Proof.
  intros [_ [?|[tail Ht]]]; [done|].
  destruct id; [done|]. cbn in Ht. by simplify_eq.
Qed.

Lemma firstSegment_cons_inv (id : string) (c : ascii) (rest : string) :
  firstSegment id (String c rest) →
  (id = "" ∧ c = "."%char)
  ∨ ∃ id', id = String c id' ∧ c ≠ "."%char ∧ firstSegment id' rest.
Proof.
  intros [Hno Hs]. destruct id as [|a id].
  - left. split; [done|].
    destruct Hs as [?|[tail Ht]]; [done|]. cbn in Ht. by simplify_eq.
  - right. exists id.
    assert (a = c) as ->.
    { destruct Hs as [Ht|[tail Ht]]; cbn in Ht; by simplify_eq. }
    split; [done|]. split; [intros ->; apply Hno; by left|].
    split; [intros ?; apply Hno; by right|].
    destruct Hs as [Ht|[tail Ht]]; cbn in Ht; simplify_eq;
      [by left|right; by exists tail].
Qed.

Lemma firstSegment_unique (id id' rest : string) :
  firstSegment id rest → firstSegment id' rest → id = id'.
Proof.
  revert id id'. induction rest as [|c rest IH]; intros id id' H H'.
  - apply firstSegment_nil_r in H, H'. congruence.
  - apply firstSegment_cons_inv in H, H'.
    destruct H as [[-> Hc]|(i & -> & Hc & H)],
             H' as [[-> Hc']|(i' & -> & Hc' & H')]; try done.
    f_equal. by apply IH.
Qed.

End StringFacts.

(** ** Element discovery *)

Lemma collectElement_dom (prefix : string) (keys : gmap string ())
    (k id : string) :
  id ∈ dom (collectElement prefix keys k)
  ↔ id ∈ dom keys ∨ ∃ rest, k = prefix +:+ rest ∧ firstSegment id rest.
Proof.
  unfold collectElement.
  destruct (strings.HasPrefix k prefix) eqn:Hp.
  - apply HasPrefix_inv in Hp as [rest ->].
    rewrite slice_from_app.
    destruct (Split_head_firstSegment rest) as (part0 & parts & -> & Hseg).
    rewrite dom_insert_L, elem_of_union, elem_of_singleton.
    split.
    + intros [->|?]; [right; by exists rest|by left].
    + intros [?|(rest' & Heq & Hseg')]; [by right|left].
      apply (inj (String.app prefix)) in Heq. subst rest'.
      by eapply firstSegment_unique.
  - split; [by left|].
    intros [?|(rest & -> & _)]; [done|].
    by rewrite HasPrefix_app in Hp.
Qed.

Lemma collect_dom (prefix : string) (ks : list string)
    (keys : gmap string ()) (id : string) :
  id ∈ dom (foldl (collectElement prefix) keys ks)
  ↔ id ∈ dom keys
    ∨ ∃ k rest, k ∈ ks ∧ k = prefix +:+ rest ∧ firstSegment id rest.
Proof.
  revert keys. induction ks as [|k ks IH]; intros keys; cbn.
  - split; [by left|]. intros [?|(? & ? & []%elem_of_nil & _)]. done.
  - rewrite IH, collectElement_dom. split.
    + intros [[?|(rest & ? & ?)]|(k' & rest & ? & ? & ?)].
      * by left.
      * right. exists k, rest. split; [by left|done].
      * right. exists k', rest. split; [by right|done].
    + intros [?|(k' & rest & [->|?]%elem_of_cons & ? & ?)].
      * left. by left.
      * left. right. by exists rest.
      * right. by exists k', rest.
Qed.

Section Discovery.

Variable rangeMap : ∀ V, gmap string V → list (string * V).
Hypothesis rangeMap_perm :
  ∀ V (m : gmap string V), rangeMap V m ≡ₚ map_to_list m.

Lemma rangeMap_keys {V} (m : gmap string V) (k : string) :
  k ∈ (rangeMap V m).*1 ↔ is_Some (m !! k).
Proof.
  rewrite rangeMap_perm, list_elem_of_fmap. split.
  - intros ([k' v] & -> & Hkv%elem_of_map_to_list). by exists v.
  - intros [v Hv]. exists (k, v). by rewrite elem_of_map_to_list.
Qed.

Lemma rangeMap_keys_NoDup {V} (m : gmap string V) :
  NoDup (rangeMap V m).*1.
Proof. rewrite rangeMap_perm. apply NoDup_fst_map_to_list. Qed.

Lemma getDefinedElements_declares (labels : gmap string string)
    (proto elemType id : string) :
  id ∈ getDefinedElements rangeMap labels proto elemType
  ↔ declares labels proto elemType id.
Proof.
  unfold getDefinedElements, declares, labelPrefix.
  rewrite rangeMap_keys, <-elem_of_dom, collect_dom, dom_empty_L.
  split.
  - intros [[]%elem_of_empty|(k & rest & Hk%rangeMap_keys & ? & ?)].
    by exists k, rest.
  - intros (k & rest & Hk%rangeMap_keys & ? & ?). right. by exists k, rest.
Qed.

Lemma getDefinedElements_NoDup (labels : gmap string string)
    (proto elemType : string) :
  NoDup (getDefinedElements rangeMap labels proto elemType).
Proof. apply rangeMap_keys_NoDup. Qed.

Lemma hasLabels_declares (labels : gmap string string)
    (proto elemType : string) :
  hasLabels labels proto elemType ↔ ∃ id, declares labels proto elemType id.
Proof.
  split.
  - intros (k & rest & Hk & ->).
    destruct (Split_head_firstSegment rest) as (id & _ & _ & Hseg).
    exists id. by exists (labelPrefix proto elemType +:+ rest), rest.
  - intros (id & k & rest & Hk & -> & _). by eexists _, rest.
Qed.

Lemma getDefinedElements_nil (labels : gmap string string)
    (proto elemType : string) :
  getDefinedElements rangeMap labels proto elemType = []
  ↔ ¬ hasLabels labels proto elemType.
Proof.
  rewrite hasLabels_declares. split.
  - intros Hnil [id Hid%getDefinedElements_declares].
    rewrite Hnil in Hid. by apply elem_of_nil in Hid.
  - intros Hno.
    destruct (getDefinedElements rangeMap labels proto elemType)
      as [|id ids] eqn:Heq; [done|].
    destruct Hno. exists id. apply getDefinedElements_declares.
    rewrite Heq. by left.
Qed.

End Discovery.

(** ** Address resolution *)

Lemma firstValidIP_first (pre post : list IP.t) (ip : IP.t) :
  Forall (λ x, IP.Address x = "" ∨ IP.Address x = "127.0.0.1") pre →
  IP.Address ip ≠ "" → IP.Address ip ≠ "127.0.0.1" →
  firstValidIP (pre ++ ip :: post) = Some (IP.Address ip).
Proof.
  intros Hpre Hne Hlo. induction Hpre as [|x pre Hx _ IH]; cbn.
  - by rewrite decide_True.
  - rewrite decide_False; [done|]. intros [? ?]. by destruct Hx.
Qed.

Lemma firstValidIP_none (ips : list IP.t) :
  Forall (λ x, IP.Address x = "" ∨ IP.Address x = "127.0.0.1") ips →
  firstValidIP ips = None.
Proof.
  induction 1 as [|x ips Hx _ IH]; cbn; [done|].
  rewrite decide_False; [done|]. intros [? ?]. by destruct Hx.
Qed.

(** C3: [getServiceIP] returns the first reported address that is neither
    empty nor "127.0.0.1"; when the list holds no such address (the empty
    list included) it returns "<name>.<node>", and what marks the fallback is
    one warning line next to the returned string, not an error. *)
Theorem getServiceIP_first_valid_or_hostname
    (service : internal.Service.t) (nodeName : string) :
  (∀ pre ip post,
     Service.IPs service = pre ++ ip :: post →
     Forall (λ x, IP.Address x = "" ∨ IP.Address x = "127.0.0.1") pre →
     IP.Address ip ≠ "" → IP.Address ip ≠ "127.0.0.1" →
     getServiceIP service nodeName = (IP.Address ip, []))
  ∧ (Forall (λ x, IP.Address x = "" ∨ IP.Address x = "127.0.0.1")
            (Service.IPs service) →
     getServiceIP service nodeName
     = (Service.Name service +:+ "." +:+ nodeName,
        [WarnNoValidIP (Service.Name service) nodeName])).
Proof.
  unfold getServiceIP. split.
  - intros pre ip post -> Hpre Hne Hlo.
    by rewrite firstValidIP_first.
  - intros Hall. by rewrite firstValidIP_none.
Qed.

(** C4: [buildServerURL] yields "<scheme>://<host>:<port>" with the host of
    [getServiceIP]; the scheme is "https" exactly when the scheme hint is
    "https" and "http" for every other hint; the port is the port hint when
    that is not empty, and otherwise "443" under "https" and "80" under
    "http". *)
Theorem buildServerURL_scheme_port (service : internal.Service.t)
    (server : Server.t) (nodeName : string) :
  let host := (getServiceIP service nodeName).1 in
  let url := (buildServerURL service server nodeName).1 in
  (Server.Scheme server ≠ "https" → Server.Port server = "" →
   url = "http://" +:+ host +:+ ":80")
  ∧ (Server.Scheme server = "https" → Server.Port server = "" →
     url = "https://" +:+ host +:+ ":443")
  ∧ (Server.Scheme server ≠ "https" → Server.Port server ≠ "" →
     url = "http://" +:+ host +:+ ":" +:+ Server.Port server)
  ∧ (Server.Scheme server = "https" → Server.Port server ≠ "" →
     url = "https://" +:+ host +:+ ":" +:+ Server.Port server)
  ∧ (buildServerURL service server nodeName).2
    = (getServiceIP service nodeName).2.
Proof.
  unfold buildServerURL.
  repeat split; try intros Hs Hp;
    repeat case_decide; try done; logged; by rewrite ?app_nil_r.
Qed.

(** ** HTTP defaults *)

Lemma enrichRouter_fresh (service : internal.Service.t) (first : string)
    (definedServices : list string) (routers : gmap string Router.t)
    (name : string) :
  enrichRouter service (first :: definedServices)
               (<[name := Router.mk "" "" None]> routers) name
  = <[name := Router.mk first ("Host(`" +:+ Service.Name service +:+ "`)")
                        (Some 1%Z)]> routers.
Proof.
  unfold enrichRouter. rewrite lookup_insert_eq. cbn.
  rewrite (decide_True (P := _ ∧ _)) by (split; [done|lia]). cbn.
  rewrite decide_True by done. cbn.
  by rewrite insert_insert_eq.
Qed.

Lemma enrichService_fresh (service : internal.Service.t) (nodeName : string)
    (services : gmap string Service.t) (name : string) :
  enrichService service nodeName (<[name := Service.mk None]> services) name
  = (<[name := Service.mk (Some (ServersLoadBalancer.mk (Some true)
       [Server.mk ("http://" +:+ (getServiceIP service nodeName).1 +:+ ":80")
                  "" ""]))]> services,
     (getServiceIP service nodeName).2).
Proof.
  unfold enrichService. rewrite lookup_insert_eq. cbn.
  rewrite decide_True by done. cbn.
  unfold enrichServer. cbn. rewrite decide_True by done.
  unfold buildServerURL. cbn.
  rewrite decide_False by done. rewrite decide_False by (by intros []).
  logged. by rewrite insert_insert_eq, !app_nil_r.
Qed.

Section HTTPDefaults.

Variable rangeMap : ∀ V, gmap string V → list (string * V).
Hypothesis rangeMap_perm :
  ∀ V (m : gmap string V), rangeMap V m ≡ₚ map_to_list m.

(** C1: for a workload without HTTP router labels and without HTTP service
    labels, [buildHTTPConfiguration] changes the HTTP configuration by one
    router and one service, both under "<name>-<id>": the router has rule
    Host(`<name>`), priority 1 and that service as its service; the service
    has pass-host-header true and one server, with no scheme or port hint
    and the URL "http://<resolved-host>:80".  Every other router, service
    and middleware is as before. *)
Theorem buildHTTPConfiguration_defaults (httpConfig : HTTPConfiguration.t)
    (service : internal.Service.t) (nodeName : string) :
  ¬ hasLabels (Service.Config service) "http" "routers" →
  ¬ hasLabels (Service.Config service) "http" "services" →
  let out := (buildHTTPConfiguration rangeMap httpConfig service nodeName).1 in
  let host := (getServiceIP service nodeName).1 in
  HTTPConfiguration.Routers out
  = <[defaultID service :=
        Router.mk (defaultID service)
                  ("Host(`" +:+ Service.Name service +:+ "`)") (Some 1%Z)]>
      (HTTPConfiguration.Routers httpConfig)
  ∧ HTTPConfiguration.Services out
    = <[defaultID service :=
          Service.mk (Some (ServersLoadBalancer.mk (Some true)
            [Server.mk ("http://" +:+ host +:+ ":80") "" ""]))]>
        (HTTPConfiguration.Services httpConfig)
  ∧ HTTPConfiguration.Middlewares out
    = HTTPConfiguration.Middlewares httpConfig.
Proof.
  intros Hr%(getDefinedElements_nil rangeMap rangeMap_perm)
         Hs%(getDefinedElements_nil rangeMap rangeMap_perm).
  unfold buildHTTPConfiguration. rewrite Hr, Hs.
  rewrite !decide_True by done. cbn -[enrichRouter enrichService forRange].
  rewrite bind_fst, forRange_cons_fst.
  rewrite enrichRouter_fresh, enrichService_fresh. done.
Qed.

End HTTPDefaults.

(** ** TCP and UDP: the default service *)

Lemma enrichTCPRouter_dom (definedServices : list string)
    (routers : gmap string TCPRouter.t) (routerName : string) :
  dom (enrichTCPRouter definedServices routers routerName) = dom routers.
Proof.
  unfold enrichTCPRouter.
  destruct (routers !! routerName) eqn:Hr; [|done].
  apply dom_insert_lookup_L. by rewrite Hr.
Qed.

Lemma enrichUDPRouter_dom (definedServices : list string)
    (routers : gmap string UDPRouter.t) (routerName : string) :
  dom (enrichUDPRouter definedServices routers routerName) = dom routers.
Proof.
  unfold enrichUDPRouter.
  destruct (routers !! routerName) eqn:Hr; [|done].
  apply dom_insert_lookup_L. by rewrite Hr.
Qed.

Lemma enrichTCPService_dom (service : internal.Service.t) (nodeName : string)
    (services : gmap string TCPService.t) (serviceName : string) :
  dom (enrichTCPService service nodeName services serviceName).1 = dom services.
Proof.
  unfold enrichTCPService.
  destruct (services !! serviceName) eqn:Hs; [|done].
  rewrite bind_fst. cbn. apply dom_insert_lookup_L. by rewrite Hs.
Qed.

Lemma enrichUDPService_dom (service : internal.Service.t) (nodeName : string)
    (services : gmap string UDPService.t) (serviceName : string) :
  dom (enrichUDPService service nodeName services serviceName).1 = dom services.
Proof.
  unfold enrichUDPService.
  destruct (services !! serviceName) eqn:Hs; [|done].
  rewrite bind_fst. cbn. apply dom_insert_lookup_L. by rewrite Hs.
Qed.

Lemma enrichTCPService_fresh (service : internal.Service.t) (nodeName : string)
    (services : gmap string TCPService.t) (name : string) :
  enrichTCPService service nodeName (<[name := TCPService.mk None]> services) name
  = (<[name := TCPService.mk (Some (TCPServersLoadBalancer.mk
                                      [TCPServer.mk "" ""]))]> services,
     [WarnNoPort TCP (Service.Name service)]).
Proof.
  unfold enrichTCPService. rewrite lookup_insert_eq. cbn.
  rewrite decide_True by done. cbn.
  unfold enrichTCPServer. cbn. rewrite !decide_True by done.
  logged. by rewrite insert_insert_eq.
Qed.

Lemma enrichUDPService_fresh (service : internal.Service.t) (nodeName : string)
    (services : gmap string UDPService.t) (name : string) :
  enrichUDPService service nodeName (<[name := UDPService.mk None]> services) name
  = (<[name := UDPService.mk (Some (UDPServersLoadBalancer.mk
                                      [UDPServer.mk "" ""]))]> services,
     [WarnNoPort UDP (Service.Name service)]).
Proof.
  unfold enrichUDPService. rewrite lookup_insert_eq. cbn.
  rewrite decide_True by done. cbn.
  unfold enrichUDPServer. cbn. rewrite !decide_True by done.
  logged. by rewrite insert_insert_eq.
Qed.

Section StreamDefaults.

Variable rangeMap : ∀ V, gmap string V → list (string * V).
Hypothesis rangeMap_perm :
  ∀ V (m : gmap string V), rangeMap V m ≡ₚ map_to_list m.

Lemma buildTCPConfiguration_created (tcpConfig : TCPConfiguration.t)
    (service : internal.Service.t) (nodeName : string) :
  0 < length (getDefinedElements rangeMap (Service.Config service) "tcp" "routers")
  ∧ length (getDefinedElements rangeMap (Service.Config service) "tcp" "services") = 0 →
  TCPConfiguration.Services
    (buildTCPConfiguration rangeMap tcpConfig service nodeName).1
  = <[defaultID service :=
        TCPService.mk (Some (TCPServersLoadBalancer.mk [TCPServer.mk "" ""]))]>
      (TCPConfiguration.Services tcpConfig).
Proof.
  intros Hcond. unfold buildTCPConfiguration.
  rewrite decide_True by done.
  destruct Hcond as [_ ->%nil_length_inv].
  cbn -[enrichTCPService forRange].
  by rewrite bind_fst, forRange_cons_fst, enrichTCPService_fresh.
Qed.

Lemma buildTCPConfiguration_not_created (tcpConfig : TCPConfiguration.t)
    (service : internal.Service.t) (nodeName : string) :
  ¬ (0 < length (getDefinedElements rangeMap (Service.Config service) "tcp" "routers")
     ∧ length (getDefinedElements rangeMap (Service.Config service) "tcp" "services") = 0) →
  dom (TCPConfiguration.Services
         (buildTCPConfiguration rangeMap tcpConfig service nodeName).1)
  = dom (TCPConfiguration.Services tcpConfig).
Proof.
  intros Hcond. unfold buildTCPConfiguration.
  rewrite decide_False by done.
  cbn -[enrichTCPService forRange]. rewrite bind_fst.
  apply (forRange_invariant
           (λ s, dom s = dom (TCPConfiguration.Services tcpConfig))); [|done].
  intros s x _ <-. apply enrichTCPService_dom.
Qed.

Lemma buildTCPConfiguration_routers_dom (tcpConfig : TCPConfiguration.t)
    (service : internal.Service.t) (nodeName : string) :
  dom (TCPConfiguration.Routers
         (buildTCPConfiguration rangeMap tcpConfig service nodeName).1)
  = dom (TCPConfiguration.Routers tcpConfig).
Proof.
  unfold buildTCPConfiguration.
  case_decide; cbn -[enrichTCPService forRange]; rewrite bind_fst; cbn;
    (apply (foldl_invariant
              (λ r, dom r = dom (TCPConfiguration.Routers tcpConfig)));
     [|done]);
    intros r x _ <-; apply enrichTCPRouter_dom.
Qed.

Lemma buildTCPConfiguration_no_labels (tcpConfig : TCPConfiguration.t)
    (service : internal.Service.t) (nodeName : string) :
  ¬ hasLabels (Service.Config service) "tcp" "routers" →
  ¬ hasLabels (Service.Config service) "tcp" "services" →
  buildTCPConfiguration rangeMap tcpConfig service nodeName = (tcpConfig, []).
Proof.
  intros Hr%(getDefinedElements_nil rangeMap rangeMap_perm)
         Hs%(getDefinedElements_nil rangeMap rangeMap_perm).
  unfold buildTCPConfiguration. rewrite Hr, Hs.
  rewrite decide_False by (cbn; lia).
  by destruct tcpConfig.
Qed.

Lemma buildUDPConfiguration_created (udpConfig : UDPConfiguration.t)
    (service : internal.Service.t) (nodeName : string) :
  0 < length (getDefinedElements rangeMap (Service.Config service) "udp" "routers")
  ∧ length (getDefinedElements rangeMap (Service.Config service) "udp" "services") = 0 →
  UDPConfiguration.Services
    (buildUDPConfiguration rangeMap udpConfig service nodeName).1
  = <[defaultID service :=
        UDPService.mk (Some (UDPServersLoadBalancer.mk [UDPServer.mk "" ""]))]>
      (UDPConfiguration.Services udpConfig).
Proof.
  intros Hcond. unfold buildUDPConfiguration.
  rewrite decide_True by done.
  destruct Hcond as [_ ->%nil_length_inv].
  cbn -[enrichUDPService forRange].
  by rewrite bind_fst, forRange_cons_fst, enrichUDPService_fresh.
Qed.

Lemma buildUDPConfiguration_not_created (udpConfig : UDPConfiguration.t)
    (service : internal.Service.t) (nodeName : string) :
  ¬ (0 < length (getDefinedElements rangeMap (Service.Config service) "udp" "routers")
     ∧ length (getDefinedElements rangeMap (Service.Config service) "udp" "services") = 0) →
  dom (UDPConfiguration.Services
         (buildUDPConfiguration rangeMap udpConfig service nodeName).1)
  = dom (UDPConfiguration.Services udpConfig).
Proof.
  intros Hcond. unfold buildUDPConfiguration.
  rewrite decide_False by done.
  cbn -[enrichUDPService forRange]. rewrite bind_fst.
  apply (forRange_invariant
           (λ s, dom s = dom (UDPConfiguration.Services udpConfig))); [|done].
  intros s x _ <-. apply enrichUDPService_dom.
Qed.

Lemma buildUDPConfiguration_routers_dom (udpConfig : UDPConfiguration.t)
    (service : internal.Service.t) (nodeName : string) :
  dom (UDPConfiguration.Routers
         (buildUDPConfiguration rangeMap udpConfig service nodeName).1)
  = dom (UDPConfiguration.Routers udpConfig).
Proof.
  unfold buildUDPConfiguration.
  case_decide; cbn -[enrichUDPService forRange]; rewrite bind_fst; cbn;
    (apply (foldl_invariant
              (λ r, dom r = dom (UDPConfiguration.Routers udpConfig)));
     [|done]);
    intros r x _ <-; apply enrichUDPRouter_dom.
Qed.

Lemma buildUDPConfiguration_no_labels (udpConfig : UDPConfiguration.t)
    (service : internal.Service.t) (nodeName : string) :
  ¬ hasLabels (Service.Config service) "udp" "routers" →
  ¬ hasLabels (Service.Config service) "udp" "services" →
  buildUDPConfiguration rangeMap udpConfig service nodeName = (udpConfig, []).
Proof.
  intros Hr%(getDefinedElements_nil rangeMap rangeMap_perm)
         Hs%(getDefinedElements_nil rangeMap rangeMap_perm).
  unfold buildUDPConfiguration. rewrite Hr, Hs.
  rewrite decide_False by (cbn; lia).
  by destruct udpConfig.
Qed.

End StreamDefaults.

Lemma NoDup_only (l : list string) (a : string) :
  NoDup l → (∀ x, x ∈ l ↔ x = a) → l = [a].
Proof.
  intros Hnd Hl. destruct l as [|x l].
  - assert (a ∈ @nil string) as []%elem_of_nil by by apply Hl.
  - assert (x = a) as -> by (apply Hl; by left).
    destruct l as [|y l]; [done|].
    assert (y = a) as -> by (apply Hl; right; by left).
    apply NoDup_cons in Hnd as [Hin _]. destruct Hin. by left.
Qed.

Lemma firstSegment_myrouter (tail : string) :
  firstSegment "myrouter" ("myrouter." +:+ tail).
Proof.
  split; [|right; by exists tail].
  cbn. intros H. repeat (destruct H as [H|H]; [done|]). done.
Qed.

Section Claims.

Variable rangeMap : ∀ V, gmap string V → list (string * V).
Hypothesis rangeMap_perm :
  ∀ V (m : gmap string V), rangeMap V m ≡ₚ map_to_list m.

(** C5: [getDefinedElements] returns, each once, exactly the first path
    segments that follow "traefik.<protocol>.<elementType>." in the keys
    of the labels, however many keys share a segment and whatever the
    order in which the runtime walks the two maps; the two keys
    "traefik.http.routers.myrouter.rule" and
    "traefik.http.routers.myrouter.service" yield "myrouter" alone. *)
Theorem getDefinedElements_first_segments (labels : gmap string string)
    (proto elemType : string) :
  (∀ id, id ∈ getDefinedElements rangeMap labels proto elemType
         ↔ declares labels proto elemType id)
  ∧ NoDup (getDefinedElements rangeMap labels proto elemType)
  ∧ (∀ rule service : string,
       getDefinedElements rangeMap
         {[ "traefik.http.routers.myrouter.rule" := rule;
            "traefik.http.routers.myrouter.service" := service ]}
         "http" "routers"
       = ["myrouter"]).
Proof.
  split; [|split].
  - intros id. by apply getDefinedElements_declares.
  - by apply getDefinedElements_NoDup.
  - intros rule service. apply NoDup_only.
    { by apply getDefinedElements_NoDup. }
    intros id. rewrite getDefinedElements_declares by done. split.
    + intros (k & rest & [v Hk] & Hrest & Hseg).
      apply lookup_insert_Some in Hk as [[<- _]|[_ Hk]].
      * vm_compute in Hrest. simplify_eq.
        eapply firstSegment_unique; [done|].
        apply (firstSegment_myrouter "rule").
      * apply lookup_singleton_Some in Hk as [<- _].
        vm_compute in Hrest. simplify_eq.
        eapply firstSegment_unique; [done|].
        apply (firstSegment_myrouter "service").
    + intros ->.
      exists "traefik.http.routers.myrouter.rule", "myrouter.rule".
      split; [|split; [done|apply (firstSegment_myrouter "rule")]].
      exists rule. apply lookup_insert_eq.
Qed.

(** C2: [buildTCPConfiguration] puts a default service under
    "<name>-<id>" exactly when the labels of the workload yield at least
    one TCP router identifier and no TCP service identifier: then the
    services are the former ones with a fresh service under that key;
    otherwise no key is added to the services.  No router key is ever
    added, and a workload with no TCP router label and no TCP service label
    leaves the TCP configuration as it was, without a log line.  The same
    holds of [buildUDPConfiguration]. *)
Theorem stream_default_service_iff (tcpConfig : TCPConfiguration.t)
    (udpConfig : UDPConfiguration.t) (service : internal.Service.t)
    (nodeName : string) :
  let labels := Service.Config service in
  let discovered proto elemType :=
    length (getDefinedElements rangeMap labels proto elemType) in
  let tcp := buildTCPConfiguration rangeMap tcpConfig service nodeName in
  let udp := buildUDPConfiguration rangeMap udpConfig service nodeName in
  ((0 < discovered "tcp" "routers" ∧ discovered "tcp" "services" = 0 →
    TCPConfiguration.Services tcp.1
    = <[defaultID service :=
          TCPService.mk (Some (TCPServersLoadBalancer.mk [TCPServer.mk "" ""]))]>
        (TCPConfiguration.Services tcpConfig))
   ∧ (¬ (0 < discovered "tcp" "routers" ∧ discovered "tcp" "services" = 0) →
      dom (TCPConfiguration.Services tcp.1)
      = dom (TCPConfiguration.Services tcpConfig))
   ∧ (defaultID service ∉ dom (TCPConfiguration.Services tcpConfig) →
      (defaultID service ∈ dom (TCPConfiguration.Services tcp.1)
       ↔ 0 < discovered "tcp" "routers" ∧ discovered "tcp" "services" = 0))
   ∧ dom (TCPConfiguration.Routers tcp.1)
     = dom (TCPConfiguration.Routers tcpConfig)
   ∧ (¬ hasLabels labels "tcp" "routers" →
      ¬ hasLabels labels "tcp" "services" →
      tcp = (tcpConfig, [])))
  ∧
  ((0 < discovered "udp" "routers" ∧ discovered "udp" "services" = 0 →
    UDPConfiguration.Services udp.1
    = <[defaultID service :=
          UDPService.mk (Some (UDPServersLoadBalancer.mk [UDPServer.mk "" ""]))]>
        (UDPConfiguration.Services udpConfig))
   ∧ (¬ (0 < discovered "udp" "routers" ∧ discovered "udp" "services" = 0) →
      dom (UDPConfiguration.Services udp.1)
      = dom (UDPConfiguration.Services udpConfig))
   ∧ (defaultID service ∉ dom (UDPConfiguration.Services udpConfig) →
      (defaultID service ∈ dom (UDPConfiguration.Services udp.1)
       ↔ 0 < discovered "udp" "routers" ∧ discovered "udp" "services" = 0))
   ∧ dom (UDPConfiguration.Routers udp.1)
     = dom (UDPConfiguration.Routers udpConfig)
   ∧ (¬ hasLabels labels "udp" "routers" →
      ¬ hasLabels labels "udp" "services" →
      udp = (udpConfig, []))).
Proof.
  intros labels discovered tcp udp. subst labels discovered tcp udp.
  split.
  - split; [apply buildTCPConfiguration_created|].
    split; [apply buildTCPConfiguration_not_created|].
    split; [|split;
      [apply buildTCPConfiguration_routers_dom
      |by apply buildTCPConfiguration_no_labels]].
    intros Hfresh. split.
    + intros Hin.
      destruct (decide (0 < length (getDefinedElements rangeMap
                  (Service.Config service) "tcp" "routers")
                ∧ length (getDefinedElements rangeMap
                  (Service.Config service) "tcp" "services") = 0))
        as [|Hno]; [done|].
      apply (buildTCPConfiguration_not_created rangeMap tcpConfig _ nodeName) in Hno.
      rewrite Hno in Hin. done.
    + intros Hcond.
      rewrite (buildTCPConfiguration_created rangeMap tcpConfig _ nodeName Hcond).
      rewrite dom_insert_L. apply elem_of_union_l. by apply elem_of_singleton.
  - split; [apply buildUDPConfiguration_created|].
    split; [apply buildUDPConfiguration_not_created|].
    split; [|split;
      [apply buildUDPConfiguration_routers_dom
      |by apply buildUDPConfiguration_no_labels]].
    intros Hfresh. split.
    + intros Hin.
      destruct (decide (0 < length (getDefinedElements rangeMap
                  (Service.Config service) "udp" "routers")
                ∧ length (getDefinedElements rangeMap
                  (Service.Config service) "udp" "services") = 0))
        as [|Hno]; [done|].
      apply (buildUDPConfiguration_not_created rangeMap udpConfig _ nodeName) in Hno.
      rewrite Hno in Hin. done.
    + intros Hcond.
      rewrite (buildUDPConfiguration_created rangeMap udpConfig _ nodeName Hcond).
      rewrite dom_insert_L. apply elem_of_union_l. by apply elem_of_singleton.
Qed.

End Claims.


(** ** TCP and UDP: servers that enrichment leaves alone *)

Lemma enrichTCPServer_address_set (service : internal.Service.t)
    (nodeName : string) (server : TCPServer.t) :
  TCPServer.Address server ≠ "" →
  enrichTCPServer service nodeName server = (server, []).
Proof. intros Ha. unfold enrichTCPServer. by rewrite decide_False. Qed.

Lemma enrichTCPServer_no_port (service : internal.Service.t)
    (nodeName : string) (server : TCPServer.t) :
  TCPServer.Address server = "" → TCPServer.Port server = "" →
  enrichTCPServer service nodeName server
  = (server, [WarnNoPort TCP (Service.Name service)]).
Proof. intros Ha Hp. unfold enrichTCPServer. by rewrite !decide_True. Qed.

Lemma enrichTCPServer_kept (service : internal.Service.t)
    (nodeName : string) (server : TCPServer.t) :
  TCPServer.Address server ≠ "" ∨ TCPServer.Port server = "" →
  (enrichTCPServer service nodeName server).1 = server.
Proof.
  intros Hkeep. destruct (decide (TCPServer.Address server = "")) as [Ha|Ha].
  - destruct Hkeep as [?|Hp]; [done|]. by rewrite enrichTCPServer_no_port.
  - by rewrite enrichTCPServer_address_set.
Qed.

Lemma enrichTCPService_keeps (service : internal.Service.t) (nodeName : string)
    (services : gmap string TCPService.t) (serviceName k : string) (i : nat)
    (server : TCPServer.t) :
  TCPServer.Address server ≠ "" ∨ TCPServer.Port server = "" →
  tcpServerAt services k i server →
  tcpServerAt (enrichTCPService service nodeName services serviceName).1
              k i server.
Proof.
  intros Hkeep (configService & lb & Hk & Hlb & Hi).
  unfold enrichTCPService.
  destruct (services !! serviceName) as [configService'|] eqn:Hname;
    [|by exists configService, lb].
  rewrite bind_fst. cbn.
  destruct (decide (serviceName = k)) as [->|Hne].
  - rewrite Hk in Hname. injection Hname as <-. rewrite Hlb.
    rewrite decide_False
      by (apply lookup_lt_Some in Hi; lia).
    eexists _, _. split; [apply lookup_insert_eq|]. split; [done|]. cbn.
    rewrite forEach_lookup, Hi. cbn. f_equal.
    by apply enrichTCPServer_kept.
  - exists configService, lb. by rewrite lookup_insert_ne.
Qed.

Lemma enrichUDPServer_address_set (service : internal.Service.t)
    (nodeName : string) (server : UDPServer.t) :
  UDPServer.Address server ≠ "" →
  enrichUDPServer service nodeName server = (server, []).
Proof. intros Ha. unfold enrichUDPServer. by rewrite decide_False. Qed.

Lemma enrichUDPServer_no_port (service : internal.Service.t)
    (nodeName : string) (server : UDPServer.t) :
  UDPServer.Address server = "" → UDPServer.Port server = "" →
  enrichUDPServer service nodeName server
  = (server, [WarnNoPort UDP (Service.Name service)]).
Proof. intros Ha Hp. unfold enrichUDPServer. by rewrite !decide_True. Qed.

Lemma enrichUDPServer_kept (service : internal.Service.t)
    (nodeName : string) (server : UDPServer.t) :
  UDPServer.Address server ≠ "" ∨ UDPServer.Port server = "" →
  (enrichUDPServer service nodeName server).1 = server.
Proof.
  intros Hkeep. destruct (decide (UDPServer.Address server = "")) as [Ha|Ha].
  - destruct Hkeep as [?|Hp]; [done|]. by rewrite enrichUDPServer_no_port.
  - by rewrite enrichUDPServer_address_set.
Qed.

Lemma enrichUDPService_keeps (service : internal.Service.t) (nodeName : string)
    (services : gmap string UDPService.t) (serviceName k : string) (i : nat)
    (server : UDPServer.t) :
  UDPServer.Address server ≠ "" ∨ UDPServer.Port server = "" →
  udpServerAt services k i server →
  udpServerAt (enrichUDPService service nodeName services serviceName).1
              k i server.
Proof.
  intros Hkeep (configService & lb & Hk & Hlb & Hi).
  unfold enrichUDPService.
  destruct (services !! serviceName) as [configService'|] eqn:Hname;
    [|by exists configService, lb].
  rewrite bind_fst. cbn.
  destruct (decide (serviceName = k)) as [->|Hne].
  - rewrite Hk in Hname. injection Hname as <-. rewrite Hlb.
    rewrite decide_False
      by (apply lookup_lt_Some in Hi; lia).
    eexists _, _. split; [apply lookup_insert_eq|]. split; [done|]. cbn.
    rewrite forEach_lookup, Hi. cbn. f_equal.
    by apply enrichUDPServer_kept.
  - exists configService, lb. by rewrite lookup_insert_ne.
Qed.

Section StreamServers.

Variable rangeMap : ∀ V, gmap string V → list (string * V).

Lemma buildTCPConfiguration_keeps (tcpConfig : TCPConfiguration.t)
    (service : internal.Service.t) (nodeName k : string) (i : nat)
    (server : TCPServer.t) :
  TCPServer.Address server ≠ "" ∨ TCPServer.Port server = "" →
  ¬ (k = defaultID service
     ∧ 0 < length (getDefinedElements rangeMap (Service.Config service) "tcp" "routers")
     ∧ length (getDefinedElements rangeMap (Service.Config service) "tcp" "services") = 0) →
  tcpServerAt (TCPConfiguration.Services tcpConfig) k i server →
  tcpServerAt (TCPConfiguration.Services
                 (buildTCPConfiguration rangeMap tcpConfig service nodeName).1)
              k i server.
Proof.
  intros Hkeep Hk Hat. unfold buildTCPConfiguration.
  case_decide as Hcond; cbn -[enrichTCPService forRange]; rewrite bind_fst;
    cbn -[enrichTCPService forRange];
    apply (forRange_invariant (λ s, tcpServerAt s k i server));
    try (intros s x _; by apply enrichTCPService_keeps); [|done].
  destruct Hat as (configService & lb & ? & ? & ?).
  exists configService, lb. rewrite lookup_insert_ne; [done|].
  intros <-. by destruct Hk.
Qed.

Lemma buildUDPConfiguration_keeps (udpConfig : UDPConfiguration.t)
    (service : internal.Service.t) (nodeName k : string) (i : nat)
    (server : UDPServer.t) :
  UDPServer.Address server ≠ "" ∨ UDPServer.Port server = "" →
  ¬ (k = defaultID service
     ∧ 0 < length (getDefinedElements rangeMap (Service.Config service) "udp" "routers")
     ∧ length (getDefinedElements rangeMap (Service.Config service) "udp" "services") = 0) →
  udpServerAt (UDPConfiguration.Services udpConfig) k i server →
  udpServerAt (UDPConfiguration.Services
                 (buildUDPConfiguration rangeMap udpConfig service nodeName).1)
              k i server.
Proof.
  intros Hkeep Hk Hat. unfold buildUDPConfiguration.
  case_decide as Hcond; cbn -[enrichUDPService forRange]; rewrite bind_fst;
    cbn -[enrichUDPService forRange];
    apply (forRange_invariant (λ s, udpServerAt s k i server));
    try (intros s x _; by apply enrichUDPService_keeps); [|done].
  destruct Hat as (configService & lb & ? & ? & ?).
  exists configService, lb. rewrite lookup_insert_ne; [done|].
  intros <-. by destruct Hk.
Qed.

End StreamServers.

Section StreamClaims.

Variable rangeMap : ∀ V, gmap string V → list (string * V).

(** C7: a TCP server whose Address is not empty comes out of enrichment as
    it went in, whatever its port hint: the body of the server loop returns
    it untouched and logs nothing; the service loop, over any list of service
    names, leaves it at its place in its service; and so does
    [buildTCPConfiguration], unless the service it sits in is the one the
    default service replaces.  The same holds of UDP servers. *)
Theorem stream_address_never_overwritten (service : internal.Service.t)
    (nodeName : string) :
  (∀ server : TCPServer.t,
     TCPServer.Address server ≠ "" →
     enrichTCPServer service nodeName server = (server, [])
     ∧ (∀ names services k i,
          tcpServerAt services k i server →
          tcpServerAt
            (forRange (enrichTCPService service nodeName) names services).1
            k i server)
     ∧ (∀ tcpConfig k i,
          ¬ (k = defaultID service
             ∧ 0 < length (getDefinedElements rangeMap
                             (Service.Config service) "tcp" "routers")
             ∧ length (getDefinedElements rangeMap
                         (Service.Config service) "tcp" "services") = 0) →
          tcpServerAt (TCPConfiguration.Services tcpConfig) k i server →
          tcpServerAt
            (TCPConfiguration.Services
               (buildTCPConfiguration rangeMap tcpConfig service nodeName).1)
            k i server))
  ∧ (∀ server : UDPServer.t,
       UDPServer.Address server ≠ "" →
       enrichUDPServer service nodeName server = (server, [])
       ∧ (∀ names services k i,
            udpServerAt services k i server →
            udpServerAt
              (forRange (enrichUDPService service nodeName) names services).1
              k i server)
       ∧ (∀ udpConfig k i,
            ¬ (k = defaultID service
               ∧ 0 < length (getDefinedElements rangeMap
                               (Service.Config service) "udp" "routers")
               ∧ length (getDefinedElements rangeMap
                           (Service.Config service) "udp" "services") = 0) →
            udpServerAt (UDPConfiguration.Services udpConfig) k i server →
            udpServerAt
              (UDPConfiguration.Services
                 (buildUDPConfiguration rangeMap udpConfig service nodeName).1)
              k i server)).
Proof.
  split; intros server Ha.
  - split; [by apply enrichTCPServer_address_set|]. split.
    + intros names services k i Hat.
      apply (forRange_invariant (λ s, tcpServerAt s k i server)); [|done].
      intros s x _. apply enrichTCPService_keeps. by left.
    + intros tcpConfig k i. apply buildTCPConfiguration_keeps. by left.
  - split; [by apply enrichUDPServer_address_set|]. split.
    + intros names services k i Hat.
      apply (forRange_invariant (λ s, udpServerAt s k i server)); [|done].
      intros s x _. apply enrichUDPService_keeps. by left.
    + intros udpConfig k i. apply buildUDPConfiguration_keeps. by left.
Qed.


End StreamClaims.

(** ** The assembler *)

Section Assembler.

Variable rangeMap : ∀ V, gmap string V → list (string * V).
Variable Decode :
  gmap string string → Configuration.t → Configuration.t * option string.

Lemma processService_decode_error (nodeName : string)
    (config config' : Configuration.t) (service : internal.Service.t)
    (e : string) :
  Decode (Service.Config service) config = (config', Some e) →
  processService rangeMap Decode nodeName config service
  = (config',
     [LogProcessing (Service.Name service) (Service.ID service) nodeName;
      LogDecodeError (Service.Name service) e]).
Proof. intros Hd. unfold processService. rewrite Hd. done. Qed.

Lemma processService_decoded (nodeName : string)
    (config config' : Configuration.t) (service : internal.Service.t) :
  Decode (Service.Config service) config = (config', None) →
  let http := buildHTTPConfiguration rangeMap (Configuration.HTTP config')
                                     service nodeName in
  let tcp := buildTCPConfiguration rangeMap (Configuration.TCP config')
                                   service nodeName in
  let udp := buildUDPConfiguration rangeMap (Configuration.UDP config')
                                   service nodeName in
  processService rangeMap Decode nodeName config service
  = (Configuration.mk http.1 tcp.1 udp.1,
     LogProcessing (Service.Name service) (Service.ID service) nodeName
       :: http.2 ++ tcp.2 ++ udp.2).
Proof.
  intros Hd. unfold processService. rewrite Hd.
  logged. by rewrite app_nil_r.
Qed.

Lemma processNodes_app (nodes nodes' : list (string * list internal.Service.t))
    (config : Configuration.t) :
  processNodes rangeMap Decode (nodes ++ nodes') config
  = (let r := processNodes rangeMap Decode nodes config in
     let r' := processNodes rangeMap Decode nodes' r.1 in
     (r'.1, r.2 ++ r'.2)).
Proof. apply forRange_app. Qed.

Lemma processNodes_cons (nodeName : string)
    (services : list internal.Service.t)
    (nodes : list (string * list internal.Service.t))
    (config : Configuration.t) :
  processNodes rangeMap Decode ((nodeName, services) :: nodes) config
  = (let r := forRange (processService rangeMap Decode nodeName) services
                       config in
     let r' := processNodes rangeMap Decode nodes r.1 in
     (r'.1, r.2 ++ r'.2)).
Proof. done. Qed.

(** C9, as amended: when the decoder fails on the labels of one workload,
    [generateConfiguration] logs the failure, runs none of the three passes
    for that workload and goes on with the next workload, and then the next
    nodes, from the configuration the decoder left behind.  The assembler
    itself neither rolls that configuration back nor changes it: it is the
    configuration built from the workloads before exactly as far as the
    failing decoder did not write to it, and it carries whatever the decoder
    wrote before it failed.  When the decoder succeeds, the HTTP, the TCP
    and the UDP pass run in that order, each on its own part of the decoded
    configuration. *)
Theorem generateConfiguration_decode_failure_skips_workload :
  (∀ (nodesBefore nodesAfter : list (string * list internal.Service.t))
     (nodeName : string) (before after : list internal.Service.t)
     (service : internal.Service.t) (config config' : Configuration.t)
     (e : string),
     let b0 := processNodes rangeMap Decode nodesBefore config in
     let b1 := forRange (processService rangeMap Decode nodeName) before b0.1 in
     Decode (Service.Config service) b1.1 = (config', Some e) →
     let a1 := forRange (processService rangeMap Decode nodeName) after config' in
     let a0 := processNodes rangeMap Decode nodesAfter a1.1 in
     processService rangeMap Decode nodeName b1.1 service
     = (config',
        [LogProcessing (Service.Name service) (Service.ID service) nodeName;
         LogDecodeError (Service.Name service) e])
     ∧ (config' = b1.1 →
        (processService rangeMap Decode nodeName b1.1 service).1 = b1.1)
     ∧ processNodes rangeMap Decode
         (nodesBefore ++ (nodeName, before ++ service :: after) :: nodesAfter)
         config
       = (a0.1,
          b0.2 ++ b1.2
          ++ [LogProcessing (Service.Name service) (Service.ID service) nodeName;
              LogDecodeError (Service.Name service) e]
          ++ a1.2 ++ a0.2))
  ∧ (∀ (nodeName : string) (service : internal.Service.t)
       (config config' : Configuration.t),
       Decode (Service.Config service) config = (config', None) →
       let http := buildHTTPConfiguration rangeMap (Configuration.HTTP config')
                                          service nodeName in
       let tcp := buildTCPConfiguration rangeMap (Configuration.TCP config')
                                        service nodeName in
       let udp := buildUDPConfiguration rangeMap (Configuration.UDP config')
                                        service nodeName in
       processService rangeMap Decode nodeName config service
       = (Configuration.mk http.1 tcp.1 udp.1,
          LogProcessing (Service.Name service) (Service.ID service) nodeName
            :: http.2 ++ tcp.2 ++ udp.2)).
Proof.
  split.
  - intros nodesBefore nodesAfter nodeName before after service config config'
           e b0 b1 Hd a1 a0.
    pose proof (processService_decode_error nodeName _ _ _ _ Hd) as Hstep.
    split; [done|]. split; [intros ->; by rewrite Hstep|].
    rewrite processNodes_app. cbv zeta.
    rewrite processNodes_cons. cbv zeta.
    rewrite forRange_app. cbv zeta.
    cbn -[processService forRange processNodes].
    fold b0. fold b1.
    change (forRange (processService rangeMap Decode nodeName)
                     (service :: after) b1.1)
      with (processService rangeMap Decode nodeName b1.1 service
            ≫= forRange (processService rangeMap Decode nodeName) after).
    unfold mbind, Logged_bind. rewrite Hstep.
    cbn -[processService forRange processNodes].
    fold a1. fold a0. f_equal.
    by rewrite <-!app_assoc.
  - intros nodeName service config config'.
    apply processService_decoded.
Qed.

End Assembler.

(** ** Scanning a node *)

Lemma getIPsOfService_error (client : ProxmoxClient.t) (nodeName : string)
    (vmID : N) (isContainer : bool) (e : string) :
  (if isContainer
   then ProxmoxClient.GetContainerNetworkInterfaces client nodeName vmID
   else ProxmoxClient.GetVMNetworkInterfaces client nodeName vmID) = Err e →
  ∃ e', (getIPsOfService client nodeName vmID isContainer).1 = Err e'.
Proof. intros Hf. unfold getIPsOfService. rewrite Hf. by eexists. Qed.

Lemma scanVM_running (client : ProxmoxClient.t) (nodeName : string)
    (services : list internal.Service.t) (vm : Guest.t)
    (configMap : gmap string string) :
  Guest.Status vm = "running" →
  ProxmoxClient.GetVMConfig client nodeName (Guest.VMID vm) = Ok configMap →
  (scanVM client nodeName services vm).1
  = services ++ [scannedService client nodeName false vm configMap].
Proof.
  intros Hrun Hcfg. unfold scanVM, scannedService.
  rewrite decide_True by done. rewrite Hcfg.
  rewrite !bind_fst.
  by destruct (getIPsOfService client nodeName (Guest.VMID vm) false).1.
Qed.

Lemma scanContainer_running (client : ProxmoxClient.t) (nodeName : string)
    (services : list internal.Service.t) (ct : Guest.t)
    (configMap : gmap string string) :
  Guest.Status ct = "running" →
  ProxmoxClient.GetContainerConfig client nodeName (Guest.VMID ct)
  = Ok configMap →
  (scanContainer client nodeName services ct).1
  = if decide (default "" (configMap !! "traefik.enable") ≠ "true")
    then services
    else services ++ [scannedService client nodeName true ct configMap].
Proof.
  intros Hrun Hcfg. unfold scanContainer, scannedService.
  rewrite decide_True by done. rewrite Hcfg.
  rewrite !bind_fst. case_decide; [done|].
  rewrite !bind_fst.
  by destruct (getIPsOfService client nodeName (Guest.VMID ct) true).1.
Qed.

Lemma scanVM_extends (client : ProxmoxClient.t) (nodeName : string)
    (services : list internal.Service.t) (vm : Guest.t) :
  ∃ more, (scanVM client nodeName services vm).1 = services ++ more.
Proof.
  unfold scanVM. rewrite bind_fst.
  case_decide; [|exists []; by rewrite app_nil_r].
  destruct (ProxmoxClient.GetVMConfig client nodeName (Guest.VMID vm));
    rewrite !bind_fst; [by eexists|exists []; by rewrite app_nil_r].
Qed.

Lemma scanContainer_extends (client : ProxmoxClient.t) (nodeName : string)
    (services : list internal.Service.t) (ct : Guest.t) :
  ∃ more, (scanContainer client nodeName services ct).1 = services ++ more.
Proof.
  unfold scanContainer. rewrite bind_fst.
  case_decide; [|exists []; by rewrite app_nil_r].
  destruct (ProxmoxClient.GetContainerConfig client nodeName (Guest.VMID ct));
    [|rewrite !bind_fst; exists []; by rewrite app_nil_r].
  case_decide; rewrite !bind_fst;
    [exists []; by rewrite app_nil_r|by eexists].
Qed.

Lemma forRange_extends {A} (f : list internal.Service.t → A → Logged (list internal.Service.t))
    (xs : list A) (services : list internal.Service.t) :
  (∀ s x, ∃ more, (f s x).1 = s ++ more) →
  ∃ more, (forRange f xs services).1 = services ++ more.
Proof.
  intros Hf. revert services.
  induction xs as [|x xs IH]; intros services.
  - exists []. by rewrite app_nil_r.
  - rewrite forRange_cons_fst.
    destruct (Hf services x) as [more ->].
    destruct (IH (services ++ more)) as [more' ->].
    exists (more ++ more'). by rewrite app_assoc.
Qed.

Lemma forRange_scanned {A} (f : list internal.Service.t → A → Logged (list internal.Service.t))
    (xs : list A) (x : A) (services : list internal.Service.t)
    (scanned : internal.Service.t) :
  (∀ s x, ∃ more, (f s x).1 = s ++ more) →
  (∀ s, (f s x).1 = s ++ [scanned]) →
  x ∈ xs →
  scanned ∈ (forRange f xs services).1.
Proof.
  intros Hf Hx (pre & post & ->)%list_elem_of_split.
  rewrite forRange_app. cbv zeta. cbn [fst].
  rewrite forRange_cons_fst, Hx.
  destruct (forRange_extends f post
              ((forRange f pre services).1 ++ [scanned]) Hf) as [more ->].
  rewrite !elem_of_app, list_elem_of_singleton. auto.
Qed.

Lemma scanServices_ok (client : ProxmoxClient.t) (nodeName : string)
    (vms cts : list Guest.t) :
  ProxmoxClient.GetVirtualMachines client nodeName = Ok vms →
  ProxmoxClient.GetContainers client nodeName = Ok cts →
  (scanServices client nodeName).1
  = Ok (forRange (scanContainer client nodeName) cts
          (forRange (scanVM client nodeName) vms []).1).1.
Proof.
  intros Hvms Hcts. unfold scanServices. rewrite Hvms, bind_fst, Hcts.
  by rewrite bind_fst.
Qed.

Lemma scanServices_vm_scanned (client : ProxmoxClient.t) (nodeName : string)
    (vms cts : list Guest.t) (vm : Guest.t) (configMap : gmap string string) :
  ProxmoxClient.GetVirtualMachines client nodeName = Ok vms →
  ProxmoxClient.GetContainers client nodeName = Ok cts →
  vm ∈ vms →
  Guest.Status vm = "running" →
  ProxmoxClient.GetVMConfig client nodeName (Guest.VMID vm) = Ok configMap →
  ∃ services,
    (scanServices client nodeName).1 = Ok services
    ∧ scannedService client nodeName false vm configMap ∈ services.
Proof.
  intros Hvms Hcts Hin Hrun Hcfg.
  eexists. split; [by apply scanServices_ok|].
  destruct (forRange_extends (scanContainer client nodeName) cts
              (forRange (scanVM client nodeName) vms []).1
              (scanContainer_extends client nodeName)) as [more ->].
  apply elem_of_app. left.
  apply (forRange_scanned _ vms vm); [apply scanVM_extends| |done].
  intros s. by apply scanVM_running.
Qed.

Lemma scanServices_container_scanned (client : ProxmoxClient.t)
    (nodeName : string) (vms cts : list Guest.t) (ct : Guest.t)
    (configMap : gmap string string) :
  ProxmoxClient.GetVirtualMachines client nodeName = Ok vms →
  ProxmoxClient.GetContainers client nodeName = Ok cts →
  ct ∈ cts →
  Guest.Status ct = "running" →
  ProxmoxClient.GetContainerConfig client nodeName (Guest.VMID ct)
  = Ok configMap →
  configMap !! "traefik.enable" = Some "true" →
  ∃ services,
    (scanServices client nodeName).1 = Ok services
    ∧ scannedService client nodeName true ct configMap ∈ services.
Proof.
  intros Hvms Hcts Hin Hrun Hcfg Hen.
  eexists. split; [by apply scanServices_ok|].
  apply (forRange_scanned _ cts ct); [apply scanContainer_extends| |done].
  intros s. rewrite (scanContainer_running _ _ _ _ configMap) by done.
  rewrite Hen. by rewrite decide_False by (by intros []).
Qed.

Lemma getServiceIP_no_addresses (service : internal.Service.t)
    (nodeName : string) :
  Service.IPs service = [] →
  getServiceIP service nodeName
  = (Service.Name service +:+ "." +:+ nodeName,
     [WarnNoValidIP (Service.Name service) nodeName]).
Proof. intros Hips. unfold getServiceIP. by rewrite Hips. Qed.

Lemma scannedService_interfaces_error (client : ProxmoxClient.t)
    (nodeName : string) (isContainer : bool) (guest : Guest.t)
    (configMap : gmap string string) (e : string) :
  (if isContainer
   then ProxmoxClient.GetContainerNetworkInterfaces client nodeName
                                                    (Guest.VMID guest)
   else ProxmoxClient.GetVMNetworkInterfaces client nodeName
                                             (Guest.VMID guest)) = Err e →
  scannedService client nodeName isContainer guest configMap
  = NewService (Guest.VMID guest) (Guest.Name guest) configMap.
Proof.
  intros Hf. unfold scannedService.
  by destruct (getIPsOfService_error _ _ _ _ _ Hf) as [e' ->].
Qed.

Lemma fallback_endpoints (service : internal.Service.t) (nodeName : string) :
  Service.IPs service = [] →
  (∀ port,
     (buildStreamServerAddress service nodeName port).1
     = (Service.Name service +:+ "." +:+ nodeName) +:+ ":" +:+ port)
  ∧ (∀ server, ∃ scheme port,
       (buildServerURL service server nodeName).1
       = scheme +:+ "://" +:+ (Service.Name service +:+ "." +:+ nodeName)
         +:+ ":" +:+ port).
Proof.
  intros Hips. split.
  - intros port. unfold buildStreamServerAddress.
    by rewrite bind_fst, getServiceIP_no_addresses.
  - intros server. unfold buildServerURL.
    destruct (decide (Server.Scheme server = "https"));
      eexists _, _; by rewrite bind_fst, getServiceIP_no_addresses.
Qed.

(** C10: a running virtual machine or container whose labels map
    "traefik.enable" to "true" stays in the list [scanServices] returns
    when its network addresses cannot be fetched: the list holds the workload
    with its id, name and labels and with no address, so [getServiceIP]
    answers "<name>.<node>" for it and every URL and stream address built for
    it has that host. *)
Theorem scanServices_keeps_workload_without_addresses
    (client : ProxmoxClient.t) (nodeName : string) (vms cts : list Guest.t) :
  ProxmoxClient.GetVirtualMachines client nodeName = Ok vms →
  ProxmoxClient.GetContainers client nodeName = Ok cts →
  (∀ i vm configMap e,
     vms !! i = Some vm →
     Guest.Status vm = "running" →
     ProxmoxClient.GetVMConfig client nodeName (Guest.VMID vm) = Ok configMap →
     configMap !! "traefik.enable" = Some "true" →
     ProxmoxClient.GetVMNetworkInterfaces client nodeName (Guest.VMID vm)
     = Err e →
     let service := NewService (Guest.VMID vm) (Guest.Name vm) configMap in
     (∃ services, (scanServices client nodeName).1 = Ok services
                  ∧ service ∈ services)
     ∧ Service.IPs service = []
     ∧ getServiceIP service nodeName
       = (Guest.Name vm +:+ "." +:+ nodeName,
          [WarnNoValidIP (Guest.Name vm) nodeName])
     ∧ (∀ port,
          (buildStreamServerAddress service nodeName port).1
          = (Guest.Name vm +:+ "." +:+ nodeName) +:+ ":" +:+ port)
     ∧ (∀ server, ∃ scheme port,
          (buildServerURL service server nodeName).1
          = scheme +:+ "://" +:+ (Guest.Name vm +:+ "." +:+ nodeName)
            +:+ ":" +:+ port))
  ∧ (∀ i ct configMap e,
       cts !! i = Some ct →
       Guest.Status ct = "running" →
       ProxmoxClient.GetContainerConfig client nodeName (Guest.VMID ct)
       = Ok configMap →
       configMap !! "traefik.enable" = Some "true" →
       ProxmoxClient.GetContainerNetworkInterfaces client nodeName
                                                    (Guest.VMID ct) = Err e →
       let service := NewService (Guest.VMID ct) (Guest.Name ct) configMap in
       (∃ services, (scanServices client nodeName).1 = Ok services
                    ∧ service ∈ services)
       ∧ Service.IPs service = []
       ∧ getServiceIP service nodeName
         = (Guest.Name ct +:+ "." +:+ nodeName,
            [WarnNoValidIP (Guest.Name ct) nodeName])
       ∧ (∀ port,
            (buildStreamServerAddress service nodeName port).1
            = (Guest.Name ct +:+ "." +:+ nodeName) +:+ ":" +:+ port)
       ∧ (∀ server, ∃ scheme port,
            (buildServerURL service server nodeName).1
            = scheme +:+ "://" +:+ (Guest.Name ct +:+ "." +:+ nodeName)
              +:+ ":" +:+ port)).
Proof.
  intros Hvms Hcts. split.
  - intros i vm configMap e Hi%list_elem_of_lookup_2 Hrun Hcfg Hen Hif service.
    split; [|split; [done|split; [done|by apply fallback_endpoints]]].
    subst service.
    rewrite <-(scannedService_interfaces_error client nodeName false _ _ e Hif).
    by eapply scanServices_vm_scanned.
  - intros i ct configMap e Hi%list_elem_of_lookup_2 Hrun Hcfg Hen Hif service.
    split; [|split; [done|split; [done|by apply fallback_endpoints]]].
    subst service.
    rewrite <-(scannedService_interfaces_error client nodeName true _ _ e Hif).
    by eapply scanServices_container_scanned.
Qed.

(** What the enable gate does on each of the two paths of [scanServices]:
    a running container whose labels do not map "traefik.enable" to "true"
    adds nothing to the list, a running virtual machine in the same state
    is appended all the same. *)
Lemma scanContainer_gate (client : ProxmoxClient.t) (nodeName : string)
    (services : list internal.Service.t) (ct : Guest.t)
    (configMap : gmap string string) :
  Guest.Status ct = "running" →
  ProxmoxClient.GetContainerConfig client nodeName (Guest.VMID ct)
  = Ok configMap →
  default "" (configMap !! "traefik.enable") ≠ "true" →
  (scanContainer client nodeName services ct).1 = services.
Proof.
  intros Hrun Hcfg Hen.
  rewrite (scanContainer_running _ _ _ _ configMap) by done.
  by rewrite decide_True.
Qed.

Lemma scanVM_gate_not_applied (client : ProxmoxClient.t) (nodeName : string)
    (services : list internal.Service.t) (vm : Guest.t)
    (configMap : gmap string string) :
  Guest.Status vm = "running" →
  ProxmoxClient.GetVMConfig client nodeName (Guest.VMID vm) = Ok configMap →
  default "" (configMap !! "traefik.enable") ≠ "true" →
  (scanVM client nodeName services vm).1
  = services ++ [scannedService client nodeName false vm configMap]
  ∧ LogSkipping false (Guest.Name vm) (Guest.VMID vm)
    ∈ (scanVM client nodeName services vm).2.
Proof.
  intros Hrun Hcfg Hen. split; [by apply scanVM_running|].
  unfold scanVM. rewrite decide_True by done. rewrite Hcfg.
  rewrite decide_True by done. logged.
  right. by left.
Qed.

(** C6, on the code: the node of [sampleClient] has the running virtual
    machine "web" and the running container "ct", both with "traefik.enable"
    set to "false".  The container is left out of the list [scanServices]
    returns; the virtual machine is in it, although the scan logs that it
    skips it. *)
Theorem scanServices_vm_without_enable_is_listed :
  (scanServices sampleClient "pve").1
  = Ok [NewService 100 "web" {[ "traefik.enable" := "false" ]};
        NewService 102 "app" {[ "traefik.enable" := "true" ]};
        NewService 201 "cache" {[ "traefik.enable" := "true" ]}]
  ∧ LogSkipping false "web" 100 ∈ (scanServices sampleClient "pve").2
  ∧ LogSkipping true "ct" 200 ∈ (scanServices sampleClient "pve").2.
Proof.
  split; [by vm_compute|].
  split; vm_compute; repeat constructor.
Qed.

(** ** The statements at the sample inputs *)

Lemma sampleRange_perm :
  ∀ V (m : gmap string V), sampleRange V m ≡ₚ map_to_list m.
Proof. done. Qed.

Lemma hasLabelsb_false (labels : gmap string string) (proto elemType : string) :
  hasLabelsb labels proto elemType = false → ¬ hasLabels labels proto elemType.
Proof.
  intros Hb (k & rest & [v Hk] & ->).
  apply not_true_iff_false in Hb. apply Hb.
  apply existsb_exists. exists (labelPrefix proto elemType +:+ rest, v).
  split; [|apply HasPrefix_app].
  apply list_elem_of_In. by apply elem_of_map_to_list.
Qed.

Lemma buildHTTPConfiguration_defaults_witness :
  let out := (buildHTTPConfiguration sampleRange
                (HTTPConfiguration.mk ∅ ∅ ∅) webWorkload "pve").1 in
  HTTPConfiguration.Routers out
  = {[ "web-100" := Router.mk "web-100" "Host(`web`)" (Some 1%Z) ]}
  ∧ HTTPConfiguration.Services out
    = {[ "web-100" :=
           Service.mk (Some (ServersLoadBalancer.mk (Some true)
             [Server.mk "http://10.0.0.5:80" "" ""])) ]}
  ∧ HTTPConfiguration.Middlewares out = ∅.
Proof.
  apply (buildHTTPConfiguration_defaults sampleRange sampleRange_perm
           (HTTPConfiguration.mk ∅ ∅ ∅) webWorkload "pve").
  - apply hasLabelsb_false. vm_compute. reflexivity.
  - apply hasLabelsb_false. vm_compute. reflexivity.
Defined.

Lemma stream_default_service_iff_witness :
  TCPConfiguration.Services
    (buildTCPConfiguration sampleRange sampleTCP dbWorkload "pve").1
  = <["db-101" := TCPService.mk (Some (TCPServersLoadBalancer.mk
                                         [TCPServer.mk "" ""]))]>
      (TCPConfiguration.Services sampleTCP)
  ∧ buildTCPConfiguration sampleRange sampleTCP webWorkload "pve"
    = (sampleTCP, [])
  ∧ buildUDPConfiguration sampleRange sampleUDP webWorkload "pve"
    = (sampleUDP, []).
Proof.
  pose proof (stream_default_service_iff sampleRange sampleRange_perm
                sampleTCP sampleUDP dbWorkload "pve")
    as [(Hcreated & _) _].
  pose proof (stream_default_service_iff sampleRange sampleRange_perm
                sampleTCP sampleUDP webWorkload "pve")
    as [(_ & _ & _ & _ & Htcp) (_ & _ & _ & _ & Hudp)].
  split; [|split].
  - apply Hcreated. vm_compute. split; [lia|reflexivity].
  - apply Htcp; apply hasLabelsb_false; vm_compute; reflexivity.
  - apply Hudp; apply hasLabelsb_false; vm_compute; reflexivity.
Defined.

Lemma getServiceIP_first_valid_or_hostname_witness :
  getServiceIP webWorkload "pve" = ("10.0.0.5", [])
  ∧ getServiceIP dbWorkload "pve" = ("db.pve", [WarnNoValidIP "db" "pve"]).
Proof.
  split.
  - apply (proj1 (getServiceIP_first_valid_or_hostname webWorkload "pve")
             [IP.mk "127.0.0.1" "ipv4"] (IP.mk "10.0.0.5" "ipv4") []).
    + reflexivity.
    + constructor; [right; reflexivity|constructor].
    + vm_compute. discriminate.
    + vm_compute. discriminate.
  - apply (proj2 (getServiceIP_first_valid_or_hostname dbWorkload "pve")).
    constructor.
Defined.

Lemma buildServerURL_scheme_port_witness :
  (buildServerURL webWorkload (Server.mk "" "https" "") "pve").1
  = "https://10.0.0.5:443"
  ∧ (buildServerURL webWorkload (Server.mk "" "" "8080") "pve").1
    = "http://10.0.0.5:8080".
Proof.
  pose proof (buildServerURL_scheme_port webWorkload
                (Server.mk "" "https" "") "pve") as (_ & Hhttps & _).
  pose proof (buildServerURL_scheme_port webWorkload
                (Server.mk "" "" "8080") "pve") as (_ & _ & Hport & _).
  split.
  - apply Hhttps; reflexivity.
  - apply Hport; vm_compute; discriminate.
Defined.

Lemma getDefinedElements_first_segments_witness :
  getDefinedElements sampleRange
    {[ "traefik.http.routers.myrouter.rule" := "Host(`a.example`)";
       "traefik.http.routers.myrouter.service" := "mysvc" ]}
    "http" "routers"
  = ["myrouter"]
  ∧ NoDup (getDefinedElements sampleRange (Service.Config dbWorkload)
                              "tcp" "routers").
Proof.
  pose proof (getDefinedElements_first_segments sampleRange sampleRange_perm
                (Service.Config dbWorkload) "tcp" "routers")
    as (_ & Hnodup & Hexample).
  split; [apply Hexample|apply Hnodup].
Defined.

Lemma stream_address_never_overwritten_witness :
  tcpServerAt
    (TCPConfiguration.Services
       (buildTCPConfiguration sampleRange sampleTCP sshWorkload "pve").1)
    "ssh" 0 (TCPServer.mk "10.0.0.9:22" "2222")
  ∧ udpServerAt
      (UDPConfiguration.Services
         (buildUDPConfiguration sampleRange sampleUDP sshWorkload "pve").1)
      "ssh" 0 (UDPServer.mk "10.0.0.9:22" "2222").
Proof.
  pose proof (stream_address_never_overwritten sampleRange sshWorkload "pve")
    as [Htcp Hudp].
  split.
  - apply (Htcp (TCPServer.mk "10.0.0.9:22" "2222")).
    + vm_compute. discriminate.
    + intros [Hk _]. vm_compute in Hk. discriminate.
    + eexists _, _. repeat split; reflexivity.
  - apply (Hudp (UDPServer.mk "10.0.0.9:22" "2222")).
    + vm_compute. discriminate.
    + intros [Hk _]. vm_compute in Hk. discriminate.
    + eexists _, _. repeat split; reflexivity.
Defined.


Lemma generateConfiguration_decode_failure_skips_workload_witness :
  let b0 := processNodes sampleRange overwritingDecode [] emptyConfiguration in
  let b1 := forRange (processService sampleRange overwritingDecode "pve")
                     [webWorkload] b0.1 in
  let config' := (overwritingDecode (Service.Config clashWorkload) b1.1).1 in
  let a1 := forRange (processService sampleRange overwritingDecode "pve")
                     [dbWorkload] config' in
  let a0 := processNodes sampleRange overwritingDecode [] a1.1 in
  processNodes sampleRange overwritingDecode
    ([] ++ ("pve", [webWorkload] ++ clashWorkload :: [dbWorkload]) :: [])
    emptyConfiguration
  = (a0.1,
     b0.2 ++ b1.2
     ++ [LogProcessing "clash" 105 "pve";
         LogDecodeError "clash" "invalid priority"]
     ++ a1.2 ++ a0.2).
Proof.
  intros b0 b1 config' a1 a0.
  apply (proj1 (generateConfiguration_decode_failure_skips_workload
                  sampleRange overwritingDecode)
           [] [] "pve" [webWorkload] [dbWorkload] clashWorkload
           emptyConfiguration config' "invalid priority").
  vm_compute. reflexivity.
Defined.

(** C9, as first stated, fails: with a decoder that writes the rule of a
    router before it rejects the priority, the workload "clash" fails to
    decode and the router "web-100", built from the workload "web" before
    it, is not left as it was. *)
Lemma generateConfiguration_decode_failure_overwrites :
  let before :=
    (forRange (processService sampleRange overwritingDecode "pve")
              [webWorkload] emptyConfiguration).1 in
  let after :=
    (processService sampleRange overwritingDecode "pve" before
                    clashWorkload).1 in
  (overwritingDecode (Service.Config clashWorkload) before).2
  = Some "invalid priority"
  ∧ HTTPConfiguration.Routers (Configuration.HTTP before) !! "web-100"
    = Some (Router.mk "web-100" "Host(`web`)" (Some 1%Z))
  ∧ HTTPConfiguration.Routers (Configuration.HTTP after) !! "web-100"
    = Some (Router.mk "" "Host(`other`)" None)
  ∧ after ≠ before.
Proof.
  cbv zeta. split; [by vm_compute|]. split; [by vm_compute|].
  split; [by vm_compute|].
  intros Heq.
  apply (f_equal (λ c, HTTPConfiguration.Routers (Configuration.HTTP c)
                       !! "web-100")) in Heq.
  vm_compute in Heq. discriminate.
Qed.

Lemma scanServices_keeps_workload_without_addresses_witness :
  (∃ services, (scanServices sampleClient "pve").1 = Ok services
               ∧ NewService 102 "app" {[ "traefik.enable" := "true" ]}
                 ∈ services)
  ∧ (∃ services, (scanServices sampleClient "pve").1 = Ok services
                 ∧ NewService 201 "cache" {[ "traefik.enable" := "true" ]}
                   ∈ services).
Proof.
  pose proof (scanServices_keeps_workload_without_addresses sampleClient "pve"
                [Guest.mk 100 "web" "running"; Guest.mk 102 "app" "running"]
                [Guest.mk 200 "ct" "running"; Guest.mk 201 "cache" "running"]
                eq_refl eq_refl) as [Hvm Hct].
  split.
  - apply (Hvm 1%nat (Guest.mk 102 "app" "running")
             {[ "traefik.enable" := "true" ]} "guest agent is not running");
      reflexivity.
  - apply (Hct 1%nat (Guest.mk 201 "cache" "running")
             {[ "traefik.enable" := "true" ]} "guest agent is not running");
      reflexivity.
Defined.

(** * Further properties *)

(** ** Loops that rewrite one map entry per step *)

Lemma alter_lookup_Some {A} (f : A → A) (m : gmap string A) (k : string) (x : A) :
  m !! k = Some x → alter f k m = <[k := f x]> m.
Proof.
  intros Hk. apply map_eq. intros j.
  rewrite lookup_alter, lookup_insert.
  case_decide; [subst; by rewrite Hk|done].
Qed.

Lemma alter_lookup_None {A} (f : A → A) (m : gmap string A) (k : string) :
  m !! k = None → alter f k m = m.
Proof.
  intros Hk. apply map_eq. intros j.
  rewrite lookup_alter. case_decide; [subst; by rewrite Hk|done].
Qed.

Lemma foldl_alter_lookup {A} (f : A → A) (names : list string)
    (m : gmap string A) (k : string) :
  (∀ x, f (f x) = f x) →
  foldl (λ m name, alter f name m) m names !! k
  = if decide (k ∈ names) then f <$> m !! k else m !! k.
Proof.
  intros Hf. revert m. induction names as [|name names IH]; intros m; cbn.
  - rewrite decide_False; [done|]. apply not_elem_of_nil.
  - rewrite IH, lookup_alter.
    destruct (decide (k ∈ names)) as [Hin|Hin].
    + rewrite (decide_True (P := k ∈ name :: names)) by (by right).
      case_decide; [subst name|done].
      destruct (m !! k) as [x|]; [|done].
      change (Some (f (f x)) = Some (f x)). by rewrite Hf.
    + destruct (decide (name = k)) as [->|Hne].
      * by rewrite (decide_True (P := k ∈ k :: names)) by (by left).
      * rewrite (decide_False (P := k ∈ name :: names)); [done|].
        intros [->|?]%elem_of_cons; done.
Qed.

Lemma forRange_fst_foldl {A S} (f : S → A → Logged S) (g : S → A → S)
    (xs : list A) (s : S) :
  (∀ s x, (f s x).1 = g s x) → (forRange f xs s).1 = foldl g s xs.
Proof.
  intros Hfg. revert s. induction xs as [|x xs IH]; intros s; [done|].
  by rewrite forRange_cons_fst, IH, Hfg.
Qed.

Lemma foldl_ext_fun {A S} (f g : S → A → S) (xs : list A) (s : S) :
  (∀ s x, f s x = g s x) → foldl f s xs = foldl g s xs.
Proof.
  intros Hfg. revert s. induction xs as [|x xs IH]; intros s; [done|].
  cbn. by rewrite IH, Hfg.
Qed.

(** ** The loop bodies as rewrites of one entry *)

Lemma enrichRouter_alter (service : internal.Service.t)
    (definedServices : list string) (routers : gmap string Router.t)
    (routerName : string) :
  enrichRouter service definedServices routers routerName
  = alter (httpRouterDefaults service definedServices) routerName routers.
Proof.
  unfold enrichRouter.
  destruct (routers !! routerName) as [router|] eqn:Hr;
    [|by rewrite alter_lookup_None].
  rewrite (alter_lookup_Some _ _ _ router) by done. f_equal.
  unfold httpRouterDefaults. destruct router as [svc rule prio]. cbn.
  repeat case_decide; destruct prio; cbn; repeat case_decide; done.
Qed.

Lemma enrichTCPRouter_alter (definedServices : list string)
    (routers : gmap string TCPRouter.t) (routerName : string) :
  enrichTCPRouter definedServices routers routerName
  = alter (tcpRouterDefaults definedServices) routerName routers.
Proof.
  unfold enrichTCPRouter.
  destruct (routers !! routerName) as [router|] eqn:Hr;
    [|by rewrite alter_lookup_None].
  rewrite (alter_lookup_Some _ _ _ router) by done. f_equal.
  unfold tcpRouterDefaults. destruct router as [svc rule prio]. cbn.
  repeat case_decide; destruct prio; cbn; repeat case_decide; done.
Qed.

Lemma enrichUDPRouter_alter (definedServices : list string)
    (routers : gmap string UDPRouter.t) (routerName : string) :
  enrichUDPRouter definedServices routers routerName
  = alter (udpRouterDefaults definedServices) routerName routers.
Proof.
  unfold enrichUDPRouter.
  destruct (routers !! routerName) as [router|] eqn:Hr;
    [|by rewrite alter_lookup_None].
  rewrite (alter_lookup_Some _ _ _ router) by done. f_equal.
  unfold udpRouterDefaults. destruct router as [svc]. cbn.
  by case_decide.
Qed.

Lemma enrichService_alter (service : internal.Service.t) (nodeName : string)
    (services : gmap string Service.t) (serviceName : string) :
  (enrichService service nodeName services serviceName).1
  = alter (httpServiceDefaults service nodeName) serviceName services.
Proof.
  unfold enrichService.
  destruct (services !! serviceName) as [configService|] eqn:Hs;
    [|by rewrite alter_lookup_None].
  rewrite (alter_lookup_Some _ _ _ configService) by done.
  rewrite bind_fst. cbn. f_equal.
  unfold httpServiceDefaults. rewrite forEach_fst.
  destruct configService as [[[[b|] servers]|]]; cbn;
    repeat case_decide; cbn in *; try done; try lia.
Qed.

Lemma enrichTCPService_alter (service : internal.Service.t) (nodeName : string)
    (services : gmap string TCPService.t) (serviceName : string) :
  (enrichTCPService service nodeName services serviceName).1
  = alter (tcpServiceDefaults service nodeName) serviceName services.
Proof.
  unfold enrichTCPService.
  destruct (services !! serviceName) as [configService|] eqn:Hs;
    [|by rewrite alter_lookup_None].
  rewrite (alter_lookup_Some _ _ _ configService) by done.
  rewrite bind_fst. cbn. f_equal.
  unfold tcpServiceDefaults. rewrite forEach_fst.
  destruct configService as [[[servers]|]]; cbn;
    repeat case_decide; cbn in *; try done; try lia.
Qed.

Lemma enrichUDPService_alter (service : internal.Service.t) (nodeName : string)
    (services : gmap string UDPService.t) (serviceName : string) :
  (enrichUDPService service nodeName services serviceName).1
  = alter (udpServiceDefaults service nodeName) serviceName services.
Proof.
  unfold enrichUDPService.
  destruct (services !! serviceName) as [configService|] eqn:Hs;
    [|by rewrite alter_lookup_None].
  rewrite (alter_lookup_Some _ _ _ configService) by done.
  rewrite bind_fst. cbn. f_equal.
  unfold udpServiceDefaults. rewrite forEach_fst.
  destruct configService as [[[servers]|]]; cbn;
    repeat case_decide; cbn in *; try done; try lia.
Qed.

(** ** What resolution returns is never empty *)

Lemma append_cons_ne (s t : string) (c : ascii) : s +:+ String c t ≠ "".
Proof. by destruct s. Qed.

Lemma firstValidIP_Some (ips : list IP.t) (address : string) :
  firstValidIP ips = Some address →
  address ≠ "" ∧ address ≠ "127.0.0.1"
  ∧ ∃ ip, ip ∈ ips ∧ IP.Address ip = address.
Proof.
  induction ips as [|ip ips IH]; cbn; [done|].
  case_decide as Hvalid.
  - intros [= <-]. destruct Hvalid. repeat split; [done..|].
    exists ip. split; [by left|done].
  - intros (? & ? & ip' & ? & ?)%IH. repeat split; [done..|].
    exists ip'. split; [by right|done].
Qed.

Lemma firstValidIP_None (ips : list IP.t) :
  firstValidIP ips = None →
  Forall (λ x, IP.Address x = "" ∨ IP.Address x = "127.0.0.1") ips.
Proof.
  induction ips as [|ip ips IH]; cbn; [by constructor|].
  case_decide as Hvalid; [done|]. intros Hnone.
  constructor; [|by apply IH].
  destruct (decide (IP.Address ip = "")); [by left|right].
  destruct (decide (IP.Address ip = "127.0.0.1")); [done|].
  destruct Hvalid. done.
Qed.

Lemma getServiceIP_ne (service : internal.Service.t) (nodeName : string) :
  (getServiceIP service nodeName).1 ≠ "".
Proof.
  unfold getServiceIP.
  destruct (firstValidIP (Service.IPs service)) as [address|] eqn:Hfirst.
  - by apply firstValidIP_Some in Hfirst as [? _].
  - cbn. apply append_cons_ne.
Qed.

Lemma buildServerURL_ne (service : internal.Service.t) (server : Server.t)
    (nodeName : string) :
  (buildServerURL service server nodeName).1 ≠ "".
Proof.
  unfold buildServerURL. case_decide; rewrite bind_fst; cbn; done.
Qed.

Lemma buildStreamServerAddress_ne (service : internal.Service.t)
    (nodeName port : string) :
  (buildStreamServerAddress service nodeName port).1 ≠ "".
Proof.
  unfold buildStreamServerAddress. rewrite bind_fst. cbn.
  apply append_cons_ne.
Qed.

(** ** The loop bodies reach a fixed point in one step *)

Lemma enrichServer_settled (service : internal.Service.t) (nodeName : string)
    (server : Server.t) :
  Server.URL (enrichServer service nodeName server).1 ≠ "".
Proof.
  unfold enrichServer. case_decide; [|done].
  rewrite bind_fst. cbn. apply buildServerURL_ne.
Qed.

Lemma enrichServer_kept (service : internal.Service.t) (nodeName : string)
    (server : Server.t) :
  Server.URL server ≠ "" → enrichServer service nodeName server = (server, []).
Proof. intros Hurl. unfold enrichServer. by rewrite decide_False. Qed.

Lemma enrichServer_idem (service : internal.Service.t) (nodeName : string)
    (server : Server.t) :
  (enrichServer service nodeName (enrichServer service nodeName server).1).1
  = (enrichServer service nodeName server).1.
Proof. rewrite enrichServer_kept; [done|apply enrichServer_settled]. Qed.

Lemma enrichTCPServer_settled (service : internal.Service.t)
    (nodeName : string) (server : TCPServer.t) :
  TCPServer.Address (enrichTCPServer service nodeName server).1 ≠ ""
  ∨ TCPServer.Port (enrichTCPServer service nodeName server).1 = "".
Proof.
  unfold enrichTCPServer. case_decide; [|by left].
  case_decide; [by right|left].
  rewrite bind_fst. cbn. apply buildStreamServerAddress_ne.
Qed.

Lemma enrichTCPServer_idem (service : internal.Service.t) (nodeName : string)
    (server : TCPServer.t) :
  (enrichTCPServer service nodeName (enrichTCPServer service nodeName server).1).1
  = (enrichTCPServer service nodeName server).1.
Proof. apply enrichTCPServer_kept, enrichTCPServer_settled. Qed.

Lemma enrichUDPServer_settled (service : internal.Service.t)
    (nodeName : string) (server : UDPServer.t) :
  UDPServer.Address (enrichUDPServer service nodeName server).1 ≠ ""
  ∨ UDPServer.Port (enrichUDPServer service nodeName server).1 = "".
Proof.
  unfold enrichUDPServer. case_decide; [|by left].
  case_decide; [by right|left].
  rewrite bind_fst. cbn. apply buildStreamServerAddress_ne.
Qed.

Lemma enrichUDPServer_idem (service : internal.Service.t) (nodeName : string)
    (server : UDPServer.t) :
  (enrichUDPServer service nodeName (enrichUDPServer service nodeName server).1).1
  = (enrichUDPServer service nodeName server).1.
Proof. apply enrichUDPServer_kept, enrichUDPServer_settled. Qed.

Lemma map_idem {A} (f : A → A) (xs : list A) :
  (∀ x, f (f x) = f x) → map f (map f xs) = map f xs.
Proof.
  intros Hf. induction xs as [|x xs IH]; [done|]. cbn. by rewrite Hf, IH.
Qed.

Lemma httpRouterDefaults_idem (service : internal.Service.t)
    (definedServices : list string) (router : Router.t) :
  httpRouterDefaults service definedServices
    (httpRouterDefaults service definedServices router)
  = httpRouterDefaults service definedServices router.
Proof.
  destruct router as [svc rule prio]. unfold httpRouterDefaults. cbn.
  f_equal; repeat case_decide; try done; tauto.
Qed.

Lemma tcpRouterDefaults_idem (definedServices : list string)
    (router : TCPRouter.t) :
  tcpRouterDefaults definedServices (tcpRouterDefaults definedServices router)
  = tcpRouterDefaults definedServices router.
Proof.
  destruct router as [svc rule prio]. unfold tcpRouterDefaults. cbn.
  f_equal; repeat case_decide; try done; tauto.
Qed.

Lemma udpRouterDefaults_idem (definedServices : list string)
    (router : UDPRouter.t) :
  udpRouterDefaults definedServices (udpRouterDefaults definedServices router)
  = udpRouterDefaults definedServices router.
Proof.
  destruct router as [svc]. unfold udpRouterDefaults. cbn.
  f_equal; repeat case_decide; try done; tauto.
Qed.

Lemma httpServiceDefaults_idem (service : internal.Service.t)
    (nodeName : string) (configService : Service.t) :
  httpServiceDefaults service nodeName
    (httpServiceDefaults service nodeName configService)
  = httpServiceDefaults service nodeName configService.
Proof.
  unfold httpServiceDefaults. cbn.
  set (lb := default _ (Service.LoadBalancer configService)).
  set (servers := if decide (length (ServersLoadBalancer.Servers lb) = 0) then _ else _).
  assert (servers ≠ []) as Hne.
  { subst servers. case_decide as Hlen; [done|].
    intros Hnil. by rewrite Hnil in Hlen. }
  rewrite decide_False by (rewrite length_map; by destruct servers).
  do 3 f_equal. apply map_idem. intros server. apply enrichServer_idem.
Qed.

Lemma tcpServiceDefaults_idem (service : internal.Service.t)
    (nodeName : string) (configService : TCPService.t) :
  tcpServiceDefaults service nodeName
    (tcpServiceDefaults service nodeName configService)
  = tcpServiceDefaults service nodeName configService.
Proof.
  unfold tcpServiceDefaults. cbn.
  set (lb := default _ (TCPService.LoadBalancer configService)).
  set (servers := if decide (length (TCPServersLoadBalancer.Servers lb) = 0) then _ else _).
  assert (servers ≠ []) as Hne.
  { subst servers. case_decide as Hlen; [done|].
    intros Hnil. by rewrite Hnil in Hlen. }
  rewrite decide_False by (rewrite length_map; by destruct servers).
  do 3 f_equal. apply map_idem. intros server. apply enrichTCPServer_idem.
Qed.

Lemma udpServiceDefaults_idem (service : internal.Service.t)
    (nodeName : string) (configService : UDPService.t) :
  udpServiceDefaults service nodeName
    (udpServiceDefaults service nodeName configService)
  = udpServiceDefaults service nodeName configService.
Proof.
  unfold udpServiceDefaults. cbn.
  set (lb := default _ (UDPService.LoadBalancer configService)).
  set (servers := if decide (length (UDPServersLoadBalancer.Servers lb) = 0) then _ else _).
  assert (servers ≠ []) as Hne.
  { subst servers. case_decide as Hlen; [done|].
    intros Hnil. by rewrite Hnil in Hlen. }
  rewrite decide_False by (rewrite length_map; by destruct servers).
  do 3 f_equal. apply map_idem. intros server. apply enrichUDPServer_idem.
Qed.

(** ** The three passes, entry by entry *)

Lemma head_lookup_total (names : list string) (d : string) :
  (if decide (length names = 0) then names ++ [d] else names) !!! 0%nat
  = default d (head names).
Proof.
  destruct names; [by rewrite decide_True|by rewrite decide_False].
Qed.

Lemma default_names_length (names : list string) (d : string) :
  0 < length (if decide (length names = 0) then names ++ [d] else names).
Proof.
  destruct names; [rewrite decide_True by done|rewrite decide_False by done];
    cbn; lia.
Qed.

Section Passes.

Variable rangeMap : ∀ V, gmap string V → list (string * V).

Lemma buildHTTPConfiguration_fst (httpConfig : HTTPConfiguration.t)
    (service : internal.Service.t) (nodeName : string) :
  let dR := getDefinedElements rangeMap (Service.Config service) "http" "routers" in
  let dS := getDefinedElements rangeMap (Service.Config service) "http" "services" in
  let namesS := if decide (length dS = 0) then dS ++ [defaultID service] else dS in
  (buildHTTPConfiguration rangeMap httpConfig service nodeName).1
  = HTTPConfiguration.mk
      (foldl (λ m name, alter (httpRouterDefaults service namesS) name m)
         (if decide (length dR = 0)
          then <[defaultID service := Router.mk "" "" None]>
                 (HTTPConfiguration.Routers httpConfig)
          else HTTPConfiguration.Routers httpConfig)
         (if decide (length dR = 0) then dR ++ [defaultID service] else dR))
      (foldl (λ m name, alter (httpServiceDefaults service nodeName) name m)
         (if decide (length dS = 0)
          then <[defaultID service := Service.mk None]>
                 (HTTPConfiguration.Services httpConfig)
          else HTTPConfiguration.Services httpConfig)
         namesS)
      (HTTPConfiguration.Middlewares httpConfig).
Proof.
  intros dR dS namesS. subst namesS. unfold buildHTTPConfiguration.
  fold dR. fold dS.
  destruct (decide (length dR = 0)), (decide (length dS = 0));
    cbn -[enrichRouter enrichService forRange]; rewrite bind_fst;
    cbn -[enrichRouter enrichService forRange]; f_equal;
    first [ apply foldl_ext_fun; intros; apply enrichRouter_alter
          | apply forRange_fst_foldl; intros; apply enrichService_alter ].
Qed.

Lemma buildTCPConfiguration_fst (tcpConfig : TCPConfiguration.t)
    (service : internal.Service.t) (nodeName : string) :
  let dR := getDefinedElements rangeMap (Service.Config service) "tcp" "routers" in
  let dS := getDefinedElements rangeMap (Service.Config service) "tcp" "services" in
  let created := 0 < length dR ∧ length dS = 0 in
  let namesS := if decide created then dS ++ [defaultID service] else dS in
  (buildTCPConfiguration rangeMap tcpConfig service nodeName).1
  = TCPConfiguration.mk
      (foldl (λ m name, alter (tcpRouterDefaults namesS) name m)
         (TCPConfiguration.Routers tcpConfig) dR)
      (foldl (λ m name, alter (tcpServiceDefaults service nodeName) name m)
         (if decide created
          then <[defaultID service := TCPService.mk None]>
                 (TCPConfiguration.Services tcpConfig)
          else TCPConfiguration.Services tcpConfig)
         namesS).
Proof.
  intros dR dS created namesS. subst created namesS.
  unfold buildTCPConfiguration. fold dR. fold dS.
  destruct (decide (0 < length dR ∧ length dS = 0));
    cbn -[enrichTCPRouter enrichTCPService forRange]; rewrite bind_fst;
    cbn -[enrichTCPRouter enrichTCPService forRange]; f_equal;
    first [ apply foldl_ext_fun; intros; apply enrichTCPRouter_alter
          | apply forRange_fst_foldl; intros; apply enrichTCPService_alter ].
Qed.

Lemma buildUDPConfiguration_fst (udpConfig : UDPConfiguration.t)
    (service : internal.Service.t) (nodeName : string) :
  let dR := getDefinedElements rangeMap (Service.Config service) "udp" "routers" in
  let dS := getDefinedElements rangeMap (Service.Config service) "udp" "services" in
  let created := 0 < length dR ∧ length dS = 0 in
  let namesS := if decide created then dS ++ [defaultID service] else dS in
  (buildUDPConfiguration rangeMap udpConfig service nodeName).1
  = UDPConfiguration.mk
      (foldl (λ m name, alter (udpRouterDefaults namesS) name m)
         (UDPConfiguration.Routers udpConfig) dR)
      (foldl (λ m name, alter (udpServiceDefaults service nodeName) name m)
         (if decide created
          then <[defaultID service := UDPService.mk None]>
                 (UDPConfiguration.Services udpConfig)
          else UDPConfiguration.Services udpConfig)
         namesS).
Proof.
  intros dR dS created namesS. subst created namesS.
  unfold buildUDPConfiguration. fold dR. fold dS.
  destruct (decide (0 < length dR ∧ length dS = 0));
    cbn -[enrichUDPRouter enrichUDPService forRange]; rewrite bind_fst;
    cbn -[enrichUDPRouter enrichUDPService forRange]; f_equal;
    first [ apply foldl_ext_fun; intros; apply enrichUDPRouter_alter
          | apply forRange_fst_foldl; intros; apply enrichUDPService_alter ].
Qed.

End Passes.

Lemma elem_of_length_pos {A} (x : A) (xs : list A) : x ∈ xs → 0 < length xs.
Proof. destruct xs; [by intros ?%elem_of_nil|cbn; lia]. Qed.

Lemma foldl_alter_is_Some {A} (f : A → A) (names : list string)
    (m : gmap string A) (k : string) :
  is_Some (m !! k) → is_Some (foldl (λ m name, alter f name m) m names !! k).
Proof.
  revert m. induction names as [|name names IH]; intros m Hk; [done|].
  cbn. apply IH. rewrite lookup_alter. case_decide; [subst|done].
  by apply fmap_is_Some.
Qed.

Lemma foldl_alter_notin {A} (f : A → A) (names : list string)
    (m : gmap string A) (k : string) :
  k ∉ names → foldl (λ m name, alter f name m) m names !! k = m !! k.
Proof.
  revert m. induction names as [|name names IH]; intros m Hk; [done|].
  cbn. rewrite IH by (intros ?; apply Hk; by right).
  rewrite lookup_alter_ne; [done|]. intros ->. apply Hk. by left.
Qed.

Section PassEntries.

Variable rangeMap : ∀ V, gmap string V → list (string * V).
Hypothesis rangeMap_perm :
  ∀ V (m : gmap string V), rangeMap V m ≡ₚ map_to_list m.

(** X1: a router that the labels of the workload declare and that the HTTP
    configuration holds comes out of [buildHTTPConfiguration] with only its
    unset fields filled: an empty service becomes the first discovered
    service name, or "<name>-<id>" when no service was discovered; an empty
    rule becomes Host(`<name>`); a missing priority becomes 1.  What the
    operator set stays. *)
Theorem buildHTTPConfiguration_router_fields (httpConfig : HTTPConfiguration.t)
    (service : internal.Service.t) (nodeName k : string) (router : Router.t) :
  declares (Service.Config service) "http" "routers" k →
  HTTPConfiguration.Routers httpConfig !! k = Some router →
  HTTPConfiguration.Routers
    (buildHTTPConfiguration rangeMap httpConfig service nodeName).1 !! k
  = Some (Router.mk
      (if decide (Router.Service router = "")
       then default (defaultID service)
              (head (getDefinedElements rangeMap (Service.Config service)
                                        "http" "services"))
       else Router.Service router)
      (if decide (Router.Rule router = "")
       then "Host(`" +:+ Service.Name service +:+ "`)"
       else Router.Rule router)
      (Some (default 1%Z (Router.Priority router)))).
Proof.
  intros Hk%(getDefinedElements_declares rangeMap rangeMap_perm) Hrouter.
  rewrite buildHTTPConfiguration_fst. cbn.
  rewrite foldl_alter_lookup by apply httpRouterDefaults_idem.
  pose proof (elem_of_length_pos _ _ Hk) as Hlen.
  rewrite !(decide_False (P := length (getDefinedElements rangeMap
              (Service.Config service) "http" "routers") = 0)) by lia.
  rewrite decide_True by done. rewrite Hrouter. cbn.
  unfold httpRouterDefaults. rewrite head_lookup_total.
  f_equal. f_equal.
  pose proof (default_names_length
    (getDefinedElements rangeMap (Service.Config service) "http" "services")
    (defaultID service)).
  repeat case_decide; try done; tauto.
Qed.

(** X2: a service that the labels of the workload declare and that the HTTP
    configuration holds comes out of [buildHTTPConfiguration] with a load
    balancer whose pass-host-header flag is set (true unless the operator set
    it), with at least one server, and with no server left without a URL; a
    server that had a URL is unchanged, one that had none gets the URL of
    [buildServerURL] and keeps its hints. *)
Theorem buildHTTPConfiguration_service_fields
    (httpConfig : HTTPConfiguration.t) (service : internal.Service.t)
    (nodeName k : string) (configService : Service.t) :
  declares (Service.Config service) "http" "services" k →
  HTTPConfiguration.Services httpConfig !! k = Some configService →
  ∃ lb,
    HTTPConfiguration.Services
      (buildHTTPConfiguration rangeMap httpConfig service nodeName).1 !! k
    = Some (Service.mk (Some lb))
    ∧ ServersLoadBalancer.PassHostHeader lb
      = Some (default true (Service.LoadBalancer configService
                            ≫= ServersLoadBalancer.PassHostHeader))
    ∧ ServersLoadBalancer.Servers lb ≠ []
    ∧ Forall (λ server, Server.URL server ≠ "")
             (ServersLoadBalancer.Servers lb)
    ∧ (∀ lb0 i server,
         Service.LoadBalancer configService = Some lb0 →
         ServersLoadBalancer.Servers lb0 !! i = Some server →
         ServersLoadBalancer.Servers lb !! i
         = Some (if decide (Server.URL server = "")
                 then Server.mk (buildServerURL service server nodeName).1
                                (Server.Scheme server) (Server.Port server)
                 else server)).
Proof.
  intros Hk%(getDefinedElements_declares rangeMap rangeMap_perm) Hsvc.
  rewrite buildHTTPConfiguration_fst. cbn.
  rewrite foldl_alter_lookup by apply httpServiceDefaults_idem.
  pose proof (elem_of_length_pos _ _ Hk) as Hlen.
  rewrite !(decide_False (P := length (getDefinedElements rangeMap
              (Service.Config service) "http" "services") = 0)) by lia.
  rewrite decide_True by done. rewrite Hsvc. cbn.
  eexists. split; [reflexivity|]. cbn.
  split; [by destruct configService as [[[]|]]|].
  split.
  { case_decide as Hlen0; [done|]. intros Hnil%fmap_nil_inv.
    by rewrite Hnil in Hlen0. }
  split.
  { apply Forall_fmap, Forall_forall. intros server _.
    apply enrichServer_settled. }
  intros lb0 i server Hlb Hi. rewrite Hlb. cbn.
  rewrite decide_False by (apply lookup_lt_Some in Hi; lia).
  rewrite list_lookup_fmap, Hi. cbn. f_equal.
  unfold enrichServer. case_decide; [by rewrite bind_fst|done].
Qed.

(** X3: [buildHTTPConfiguration] touches nothing but the entries of this
    workload: a router or service under a key that the labels do not declare
    is as before, unless the key is "<name>-<id>" and the default is created
    there; the middlewares are as before; no router or service key is
    lost. *)
Theorem buildHTTPConfiguration_frame (httpConfig : HTTPConfiguration.t)
    (service : internal.Service.t) (nodeName : string) :
  let labels := Service.Config service in
  let out := (buildHTTPConfiguration rangeMap httpConfig service nodeName).1 in
  (∀ k, ¬ declares labels "http" "routers" k →
        k ≠ defaultID service ∨ hasLabels labels "http" "routers" →
        HTTPConfiguration.Routers out !! k
        = HTTPConfiguration.Routers httpConfig !! k)
  ∧ (∀ k, ¬ declares labels "http" "services" k →
          k ≠ defaultID service ∨ hasLabels labels "http" "services" →
          HTTPConfiguration.Services out !! k
          = HTTPConfiguration.Services httpConfig !! k)
  ∧ HTTPConfiguration.Middlewares out
    = HTTPConfiguration.Middlewares httpConfig
  ∧ dom (HTTPConfiguration.Routers httpConfig)
    ⊆ dom (HTTPConfiguration.Routers out)
  ∧ dom (HTTPConfiguration.Services httpConfig)
    ⊆ dom (HTTPConfiguration.Services out).
Proof.
  intros labels out. subst labels out.
  rewrite buildHTTPConfiguration_fst. cbn.
  set (dR := getDefinedElements rangeMap (Service.Config service)
                                "http" "routers").
  set (dS := getDefinedElements rangeMap (Service.Config service)
                                "http" "services").
  split; [|split; [|split; [done|split]]].
  - intros k Hk Hor.
    rewrite <-(getDefinedElements_declares rangeMap rangeMap_perm) in Hk.
    fold dR in Hk.
    destruct (decide (length dR = 0)) as [Hlen|Hlen].
    + apply nil_length_inv in Hlen.
      destruct Hor as [Hne|Hhas];
        [|by apply (getDefinedElements_nil rangeMap rangeMap_perm) in Hlen].
      rewrite Hlen. cbn. rewrite lookup_alter_ne by done.
      by rewrite lookup_insert_ne.
    + by apply foldl_alter_notin.
  - intros k Hk Hor.
    rewrite <-(getDefinedElements_declares rangeMap rangeMap_perm) in Hk.
    fold dS in Hk.
    destruct (decide (length dS = 0)) as [Hlen|Hlen].
    + apply nil_length_inv in Hlen.
      destruct Hor as [Hne|Hhas];
        [|by apply (getDefinedElements_nil rangeMap rangeMap_perm) in Hlen].
      rewrite Hlen. cbn. rewrite lookup_alter_ne by done.
      by rewrite lookup_insert_ne.
    + by apply foldl_alter_notin.
  - intros k Hk%elem_of_dom. apply elem_of_dom, foldl_alter_is_Some.
    destruct (decide (length dR = 0)); [|done].
    rewrite lookup_insert. case_decide; [by eexists|done].
  - intros k Hk%elem_of_dom. apply elem_of_dom, foldl_alter_is_Some.
    destruct (decide (length dS = 0)); [|done].
    rewrite lookup_insert. case_decide; [by eexists|done].
Qed.

End PassEntries.

Section StreamEntries.

Variable rangeMap : ∀ V, gmap string V → list (string * V).
Hypothesis rangeMap_perm :
  ∀ V (m : gmap string V), rangeMap V m ≡ₚ map_to_list m.

Lemma buildTCPConfiguration_router_lookup (tcpConfig : TCPConfiguration.t)
    (service : internal.Service.t) (nodeName k : string) (router : TCPRouter.t) :
  declares (Service.Config service) "tcp" "routers" k →
  TCPConfiguration.Routers tcpConfig !! k = Some router →
  TCPConfiguration.Routers
    (buildTCPConfiguration rangeMap tcpConfig service nodeName).1 !! k
  = Some (TCPRouter.mk
      (if decide (TCPRouter.Service router = "")
       then default (defaultID service)
              (head (getDefinedElements rangeMap (Service.Config service)
                                        "tcp" "services"))
       else TCPRouter.Service router)
      (if decide (TCPRouter.Rule router = "")
       then "HostSNI(`*`)" else TCPRouter.Rule router)
      (Some (default 1%Z (TCPRouter.Priority router)))).
Proof.
  intros Hk%(getDefinedElements_declares rangeMap rangeMap_perm) Hrouter.
  rewrite buildTCPConfiguration_fst. cbn.
  rewrite foldl_alter_lookup by apply tcpRouterDefaults_idem.
  pose proof (elem_of_length_pos _ _ Hk) as Hlen.
  rewrite decide_True by done. rewrite Hrouter. cbn.
  unfold tcpRouterDefaults. f_equal.
  destruct (getDefinedElements rangeMap (Service.Config service)
                               "tcp" "services") as [|first rest].
  - rewrite !(decide_True (P := _ ∧ length [] = 0)) by done. cbn.
    f_equal; repeat case_decide; try done; cbn in *; exfalso; intuition lia.
  - rewrite !(decide_False (P := _ ∧ length (first :: rest) = 0))
      by (by intros [_ ?]). cbn.
    f_equal; repeat case_decide; try done; cbn in *; exfalso; intuition lia.
Qed.

Lemma buildTCPConfiguration_service_lookup (tcpConfig : TCPConfiguration.t)
    (service : internal.Service.t) (nodeName k : string)
    (configService : TCPService.t) :
  declares (Service.Config service) "tcp" "services" k →
  TCPConfiguration.Services tcpConfig !! k = Some configService →
  ∃ lb,
    TCPConfiguration.Services
      (buildTCPConfiguration rangeMap tcpConfig service nodeName).1 !! k
    = Some (TCPService.mk (Some lb))
    ∧ TCPServersLoadBalancer.Servers lb ≠ []
    ∧ Forall (λ server, TCPServer.Address server ≠ ""
                        ∨ TCPServer.Port server = "")
             (TCPServersLoadBalancer.Servers lb)
    ∧ (∀ lb0 i server,
         TCPService.LoadBalancer configService = Some lb0 →
         TCPServersLoadBalancer.Servers lb0 !! i = Some server →
         TCPServersLoadBalancer.Servers lb !! i
         = Some (if decide (TCPServer.Address server = ""
                            ∧ TCPServer.Port server ≠ "")
                 then TCPServer.mk
                        ((getServiceIP service nodeName).1 +:+ ":"
                         +:+ TCPServer.Port server)
                        (TCPServer.Port server)
                 else server)).
Proof.
  intros Hk%(getDefinedElements_declares rangeMap rangeMap_perm) Hsvc.
  rewrite buildTCPConfiguration_fst. cbn.
  rewrite foldl_alter_lookup by apply tcpServiceDefaults_idem.
  pose proof (elem_of_length_pos _ _ Hk) as Hlen.
  rewrite !(decide_False (P := _ ∧ length (getDefinedElements rangeMap
              (Service.Config service) "tcp" "services") = 0)) by lia.
  rewrite decide_True by done. rewrite Hsvc. cbn.
  eexists. split; [reflexivity|]. cbn.
  split.
  { case_decide as Hlen0; [done|]. intros Hnil%fmap_nil_inv.
    by rewrite Hnil in Hlen0. }
  split.
  { apply Forall_fmap, Forall_forall. intros server _.
    apply enrichTCPServer_settled. }
  intros lb0 i server Hlb Hi. rewrite Hlb. cbn.
  rewrite decide_False by (apply lookup_lt_Some in Hi; lia).
  rewrite list_lookup_fmap, Hi. cbn. f_equal.
  unfold enrichTCPServer, buildStreamServerAddress.
  repeat case_decide; try done; try tauto.
Qed.

Lemma buildTCPConfiguration_frame_lookup (tcpConfig : TCPConfiguration.t)
    (service : internal.Service.t) (nodeName : string) :
  let labels := Service.Config service in
  let out := (buildTCPConfiguration rangeMap tcpConfig service nodeName).1 in
  (∀ k, ¬ declares labels "tcp" "routers" k →
        TCPConfiguration.Routers out !! k
        = TCPConfiguration.Routers tcpConfig !! k)
  ∧ (∀ k, ¬ declares labels "tcp" "services" k →
          k ≠ defaultID service ∨ ¬ hasLabels labels "tcp" "routers"
          ∨ hasLabels labels "tcp" "services" →
          TCPConfiguration.Services out !! k
          = TCPConfiguration.Services tcpConfig !! k)
  ∧ dom (TCPConfiguration.Services tcpConfig)
    ⊆ dom (TCPConfiguration.Services out).
Proof.
  intros labels out. subst labels out.
  rewrite buildTCPConfiguration_fst. cbn.
  set (dR := getDefinedElements rangeMap (Service.Config service)
                                "tcp" "routers").
  set (dS := getDefinedElements rangeMap (Service.Config service)
                                "tcp" "services").
  split; [|split].
  - intros k Hk.
    rewrite <-(getDefinedElements_declares rangeMap rangeMap_perm) in Hk.
    by apply foldl_alter_notin.
  - intros k Hk Hor.
    rewrite <-(getDefinedElements_declares rangeMap rangeMap_perm) in Hk.
    fold dS in Hk.
    destruct (decide (0 < length dR ∧ length dS = 0)) as [[HR HS]|Hno].
    + apply nil_length_inv in HS.
      destruct Hor as [Hne|[Hno|Hhas]].
      * rewrite HS. cbn. rewrite lookup_alter_ne by done.
        by rewrite lookup_insert_ne.
      * apply (getDefinedElements_nil rangeMap rangeMap_perm) in Hno.
        fold dR in Hno. rewrite Hno in HR. cbn in HR. lia.
      * by apply (getDefinedElements_nil rangeMap rangeMap_perm) in HS.
    + by apply foldl_alter_notin.
  - intros k Hk%elem_of_dom. apply elem_of_dom, foldl_alter_is_Some.
    destruct (decide (0 < length dR ∧ length dS = 0)); [|done].
    rewrite lookup_insert. case_decide; [by eexists|done].
Qed.

Lemma buildUDPConfiguration_router_lookup (udpConfig : UDPConfiguration.t)
    (service : internal.Service.t) (nodeName k : string) (router : UDPRouter.t) :
  declares (Service.Config service) "udp" "routers" k →
  UDPConfiguration.Routers udpConfig !! k = Some router →
  UDPConfiguration.Routers
    (buildUDPConfiguration rangeMap udpConfig service nodeName).1 !! k
  = Some (UDPRouter.mk
      (if decide (UDPRouter.Service router = "")
       then default (defaultID service)
              (head (getDefinedElements rangeMap (Service.Config service)
                                        "udp" "services"))
       else UDPRouter.Service router)).
Proof.
  intros Hk%(getDefinedElements_declares rangeMap rangeMap_perm) Hrouter.
  rewrite buildUDPConfiguration_fst. cbn.
  rewrite foldl_alter_lookup by apply udpRouterDefaults_idem.
  pose proof (elem_of_length_pos _ _ Hk) as Hlen.
  rewrite decide_True by done. rewrite Hrouter. cbn.
  unfold udpRouterDefaults. f_equal.
  destruct (getDefinedElements rangeMap (Service.Config service)
                               "udp" "services") as [|first rest].
  - rewrite !(decide_True (P := _ ∧ length [] = 0)) by done. cbn.
    f_equal; repeat case_decide; try done; cbn in *; exfalso; intuition lia.
  - rewrite !(decide_False (P := _ ∧ length (first :: rest) = 0))
      by (by intros [_ ?]). cbn.
    f_equal; repeat case_decide; try done; cbn in *; exfalso; intuition lia.
Qed.

Lemma buildUDPConfiguration_service_lookup (udpConfig : UDPConfiguration.t)
    (service : internal.Service.t) (nodeName k : string)
    (configService : UDPService.t) :
  declares (Service.Config service) "udp" "services" k →
  UDPConfiguration.Services udpConfig !! k = Some configService →
  ∃ lb,
    UDPConfiguration.Services
      (buildUDPConfiguration rangeMap udpConfig service nodeName).1 !! k
    = Some (UDPService.mk (Some lb))
    ∧ UDPServersLoadBalancer.Servers lb ≠ []
    ∧ Forall (λ server, UDPServer.Address server ≠ ""
                        ∨ UDPServer.Port server = "")
             (UDPServersLoadBalancer.Servers lb)
    ∧ (∀ lb0 i server,
         UDPService.LoadBalancer configService = Some lb0 →
         UDPServersLoadBalancer.Servers lb0 !! i = Some server →
         UDPServersLoadBalancer.Servers lb !! i
         = Some (if decide (UDPServer.Address server = ""
                            ∧ UDPServer.Port server ≠ "")
                 then UDPServer.mk
                        ((getServiceIP service nodeName).1 +:+ ":"
                         +:+ UDPServer.Port server)
                        (UDPServer.Port server)
                 else server)).
Proof.
  intros Hk%(getDefinedElements_declares rangeMap rangeMap_perm) Hsvc.
  rewrite buildUDPConfiguration_fst. cbn.
  rewrite foldl_alter_lookup by apply udpServiceDefaults_idem.
  pose proof (elem_of_length_pos _ _ Hk) as Hlen.
  rewrite !(decide_False (P := _ ∧ length (getDefinedElements rangeMap
              (Service.Config service) "udp" "services") = 0)) by lia.
  rewrite decide_True by done. rewrite Hsvc. cbn.
  eexists. split; [reflexivity|]. cbn.
  split.
  { case_decide as Hlen0; [done|]. intros Hnil%fmap_nil_inv.
    by rewrite Hnil in Hlen0. }
  split.
  { apply Forall_fmap, Forall_forall. intros server _.
    apply enrichUDPServer_settled. }
  intros lb0 i server Hlb Hi. rewrite Hlb. cbn.
  rewrite decide_False by (apply lookup_lt_Some in Hi; lia).
  rewrite list_lookup_fmap, Hi. cbn. f_equal.
  unfold enrichUDPServer, buildStreamServerAddress.
  repeat case_decide; try done; try tauto.
Qed.

Lemma buildUDPConfiguration_frame_lookup (udpConfig : UDPConfiguration.t)
    (service : internal.Service.t) (nodeName : string) :
  let labels := Service.Config service in
  let out := (buildUDPConfiguration rangeMap udpConfig service nodeName).1 in
  (∀ k, ¬ declares labels "udp" "routers" k →
        UDPConfiguration.Routers out !! k
        = UDPConfiguration.Routers udpConfig !! k)
  ∧ (∀ k, ¬ declares labels "udp" "services" k →
          k ≠ defaultID service ∨ ¬ hasLabels labels "udp" "routers"
          ∨ hasLabels labels "udp" "services" →
          UDPConfiguration.Services out !! k
          = UDPConfiguration.Services udpConfig !! k)
  ∧ dom (UDPConfiguration.Services udpConfig)
    ⊆ dom (UDPConfiguration.Services out).
Proof.
  intros labels out. subst labels out.
  rewrite buildUDPConfiguration_fst. cbn.
  set (dR := getDefinedElements rangeMap (Service.Config service)
                                "udp" "routers").
  set (dS := getDefinedElements rangeMap (Service.Config service)
                                "udp" "services").
  split; [|split].
  - intros k Hk.
    rewrite <-(getDefinedElements_declares rangeMap rangeMap_perm) in Hk.
    by apply foldl_alter_notin.
  - intros k Hk Hor.
    rewrite <-(getDefinedElements_declares rangeMap rangeMap_perm) in Hk.
    fold dS in Hk.
    destruct (decide (0 < length dR ∧ length dS = 0)) as [[HR HS]|Hno].
    + apply nil_length_inv in HS.
      destruct Hor as [Hne|[Hno|Hhas]].
      * rewrite HS. cbn. rewrite lookup_alter_ne by done.
        by rewrite lookup_insert_ne.
      * apply (getDefinedElements_nil rangeMap rangeMap_perm) in Hno.
        fold dR in Hno. rewrite Hno in HR. cbn in HR. lia.
      * by apply (getDefinedElements_nil rangeMap rangeMap_perm) in HS.
    + by apply foldl_alter_notin.
  - intros k Hk%elem_of_dom. apply elem_of_dom, foldl_alter_is_Some.
    destruct (decide (0 < length dR ∧ length dS = 0)); [|done].
    rewrite lookup_insert. case_decide; [by eexists|done].
Qed.

End StreamEntries.

Section PassClaims.

Variable rangeMap : ∀ V, gmap string V → list (string * V).
Hypothesis rangeMap_perm :
  ∀ V (m : gmap string V), rangeMap V m ≡ₚ map_to_list m.

(** X4: a TCP router that the labels declare and that the configuration
    holds comes out of [buildTCPConfiguration] with an empty service replaced
    by the first discovered TCP service name, or by "<name>-<id>" when no
    service was discovered, an empty rule replaced by HostSNI(`*`) and a
    missing priority replaced by 1; a UDP router comes out of
    [buildUDPConfiguration] with its service filled in the same way.  What
    the operator set stays. *)
Theorem stream_router_fields (service : internal.Service.t)
    (nodeName k : string) :
  (∀ tcpConfig router,
     declares (Service.Config service) "tcp" "routers" k →
     TCPConfiguration.Routers tcpConfig !! k = Some router →
     TCPConfiguration.Routers
       (buildTCPConfiguration rangeMap tcpConfig service nodeName).1 !! k
     = Some (TCPRouter.mk
         (if decide (TCPRouter.Service router = "")
          then default (defaultID service)
                 (head (getDefinedElements rangeMap (Service.Config service)
                                           "tcp" "services"))
          else TCPRouter.Service router)
         (if decide (TCPRouter.Rule router = "")
          then "HostSNI(`*`)" else TCPRouter.Rule router)
         (Some (default 1%Z (TCPRouter.Priority router)))))
  ∧ (∀ udpConfig router,
       declares (Service.Config service) "udp" "routers" k →
       UDPConfiguration.Routers udpConfig !! k = Some router →
       UDPConfiguration.Routers
         (buildUDPConfiguration rangeMap udpConfig service nodeName).1 !! k
       = Some (UDPRouter.mk
           (if decide (UDPRouter.Service router = "")
            then default (defaultID service)
                   (head (getDefinedElements rangeMap (Service.Config service)
                                             "udp" "services"))
            else UDPRouter.Service router))).
Proof.
  split.
  - intros tcpConfig router. by apply buildTCPConfiguration_router_lookup.
  - intros udpConfig router. by apply buildUDPConfiguration_router_lookup.
Qed.

(** X5: a TCP service that the labels declare and that the configuration
    holds comes out of [buildTCPConfiguration] with a load balancer that has
    at least one server, and no server with a port hint is left without an
    address: a server with an empty address and a port hint gets
    "<resolved-host>:<port>" and keeps its hint, every other server is
    unchanged.  The same holds of UDP services. *)
Theorem stream_service_fields (service : internal.Service.t)
    (nodeName k : string) :
  (∀ tcpConfig configService,
     declares (Service.Config service) "tcp" "services" k →
     TCPConfiguration.Services tcpConfig !! k = Some configService →
     ∃ lb,
       TCPConfiguration.Services
         (buildTCPConfiguration rangeMap tcpConfig service nodeName).1 !! k
       = Some (TCPService.mk (Some lb))
       ∧ TCPServersLoadBalancer.Servers lb ≠ []
       ∧ Forall (λ server, TCPServer.Address server ≠ ""
                           ∨ TCPServer.Port server = "")
                (TCPServersLoadBalancer.Servers lb)
       ∧ (∀ lb0 i server,
            TCPService.LoadBalancer configService = Some lb0 →
            TCPServersLoadBalancer.Servers lb0 !! i = Some server →
            TCPServersLoadBalancer.Servers lb !! i
            = Some (if decide (TCPServer.Address server = ""
                               ∧ TCPServer.Port server ≠ "")
                    then TCPServer.mk
                           ((getServiceIP service nodeName).1 +:+ ":"
                            +:+ TCPServer.Port server)
                           (TCPServer.Port server)
                    else server)))
  ∧ (∀ udpConfig configService,
       declares (Service.Config service) "udp" "services" k →
       UDPConfiguration.Services udpConfig !! k = Some configService →
       ∃ lb,
         UDPConfiguration.Services
           (buildUDPConfiguration rangeMap udpConfig service nodeName).1 !! k
         = Some (UDPService.mk (Some lb))
         ∧ UDPServersLoadBalancer.Servers lb ≠ []
         ∧ Forall (λ server, UDPServer.Address server ≠ ""
                             ∨ UDPServer.Port server = "")
                  (UDPServersLoadBalancer.Servers lb)
         ∧ (∀ lb0 i server,
              UDPService.LoadBalancer configService = Some lb0 →
              UDPServersLoadBalancer.Servers lb0 !! i = Some server →
              UDPServersLoadBalancer.Servers lb !! i
              = Some (if decide (UDPServer.Address server = ""
                                 ∧ UDPServer.Port server ≠ "")
                      then UDPServer.mk
                             ((getServiceIP service nodeName).1 +:+ ":"
                              +:+ UDPServer.Port server)
                             (UDPServer.Port server)
                      else server))).
Proof.
  split.
  - intros tcpConfig configService.
    by apply buildTCPConfiguration_service_lookup.
  - intros udpConfig configService.
    by apply buildUDPConfiguration_service_lookup.
Qed.

(** X6: [buildTCPConfiguration] and [buildUDPConfiguration] touch nothing
    but the entries of this workload: a router under a key that the labels do
    not declare is as before, and so is a service under such a key, unless
    the key is "<name>-<id>" and the default service is created there; no
    service key is lost. *)
Theorem stream_frame (service : internal.Service.t) (nodeName : string) :
  let labels := Service.Config service in
  (∀ tcpConfig,
     let out := (buildTCPConfiguration rangeMap tcpConfig service nodeName).1 in
     (∀ k, ¬ declares labels "tcp" "routers" k →
           TCPConfiguration.Routers out !! k
           = TCPConfiguration.Routers tcpConfig !! k)
     ∧ (∀ k, ¬ declares labels "tcp" "services" k →
             k ≠ defaultID service ∨ ¬ hasLabels labels "tcp" "routers"
             ∨ hasLabels labels "tcp" "services" →
             TCPConfiguration.Services out !! k
             = TCPConfiguration.Services tcpConfig !! k)
     ∧ dom (TCPConfiguration.Services tcpConfig)
       ⊆ dom (TCPConfiguration.Services out))
  ∧ (∀ udpConfig,
       let out := (buildUDPConfiguration rangeMap udpConfig service nodeName).1 in
       (∀ k, ¬ declares labels "udp" "routers" k →
             UDPConfiguration.Routers out !! k
             = UDPConfiguration.Routers udpConfig !! k)
       ∧ (∀ k, ¬ declares labels "udp" "services" k →
               k ≠ defaultID service ∨ ¬ hasLabels labels "udp" "routers"
               ∨ hasLabels labels "udp" "services" →
               UDPConfiguration.Services out !! k
               = UDPConfiguration.Services udpConfig !! k)
       ∧ dom (UDPConfiguration.Services udpConfig)
         ⊆ dom (UDPConfiguration.Services out)).
Proof.
  split.
  - intros tcpConfig. by apply buildTCPConfiguration_frame_lookup.
  - intros udpConfig. by apply buildUDPConfiguration_frame_lookup.
Qed.

End PassClaims.

(** ** What resolution returns *)

(** X8: the host [getServiceIP] returns is never the empty string: it is
    the address of a reported entry, then neither empty nor "127.0.0.1" and
    without a log line, or it is "<name>.<node>" with the warning; so no URL
    of [buildServerURL] and no address of [buildStreamServerAddress] is
    empty. *)
Theorem getServiceIP_never_empty (service : internal.Service.t)
    (nodeName : string) :
  let host := (getServiceIP service nodeName).1 in
  host ≠ ""
  ∧ ((∃ ip, ip ∈ Service.IPs service ∧ IP.Address ip = host
            ∧ host ≠ "127.0.0.1"
            ∧ (getServiceIP service nodeName).2 = [])
     ∨ (host = Service.Name service +:+ "." +:+ nodeName
        ∧ (getServiceIP service nodeName).2
          = [WarnNoValidIP (Service.Name service) nodeName]))
  ∧ (∀ server, (buildServerURL service server nodeName).1 ≠ "")
  ∧ (∀ port, (buildStreamServerAddress service nodeName port).1 ≠ "").
Proof.
  cbn. split; [apply getServiceIP_ne|].
  split; [|split; intros; [apply buildServerURL_ne
                          |apply buildStreamServerAddress_ne]].
  unfold getServiceIP.
  destruct (firstValidIP (Service.IPs service)) as [address|] eqn:Hfirst.
  - left. apply firstValidIP_Some in Hfirst as (_ & ? & ip & ? & ?).
    by exists ip.
  - by right.
Qed.

(** ** Scanning a node, guest by guest *)

Lemma scanVM_listed (client : ProxmoxClient.t) (nodeName : string)
    (services : list internal.Service.t) (vm : Guest.t) :
  (scanVM client nodeName services vm).1
  = services ++ option_list (listedVM client nodeName vm).
Proof.
  unfold listedVM. case_decide as Hrun.
  - destruct (ProxmoxClient.GetVMConfig client nodeName (Guest.VMID vm))
      as [configMap|e] eqn:Hcfg.
    + by apply scanVM_running.
    + unfold scanVM. rewrite decide_True by done. rewrite Hcfg.
      rewrite !bind_fst. cbn. by rewrite app_nil_r.
  - unfold scanVM. rewrite decide_False by done. rewrite bind_fst. cbn.
    by rewrite app_nil_r.
Qed.

Lemma gate_iff (configMap : gmap string string) :
  default "" (configMap !! "traefik.enable") ≠ "true"
  ↔ configMap !! "traefik.enable" ≠ Some "true".
Proof.
  destruct (configMap !! "traefik.enable") as [v|]; cbn; [|done].
  split; intros Hne ?; apply Hne; congruence.
Qed.

Lemma scanContainer_listed (client : ProxmoxClient.t) (nodeName : string)
    (services : list internal.Service.t) (ct : Guest.t) :
  (scanContainer client nodeName services ct).1
  = services ++ option_list (listedContainer client nodeName ct).
Proof.
  unfold listedContainer. case_decide as Hrun.
  - destruct (ProxmoxClient.GetContainerConfig client nodeName (Guest.VMID ct))
      as [configMap|e] eqn:Hcfg.
    + rewrite (scanContainer_running _ _ _ _ configMap) by done.
      destruct (decide (configMap !! "traefik.enable" = Some "true"))
        as [Hen|Hen].
      * rewrite decide_False; [done|]. rewrite gate_iff.
        intros Hne. by apply Hne.
      * rewrite decide_True by (by rewrite gate_iff). cbn.
        by rewrite app_nil_r.
    + unfold scanContainer. rewrite decide_True by done. rewrite Hcfg.
      rewrite !bind_fst. cbn. by rewrite app_nil_r.
  - unfold scanContainer. rewrite decide_False by done. rewrite bind_fst. cbn.
    by rewrite app_nil_r.
Qed.

Lemma forRange_listed {A}
    (f : list internal.Service.t → A → Logged (list internal.Service.t))
    (listed : A → option internal.Service.t) (xs : list A)
    (services : list internal.Service.t) :
  (∀ s x, (f s x).1 = s ++ option_list (listed x)) →
  (forRange f xs services).1 = services ++ omap listed xs.
Proof.
  intros Hf. revert services.
  induction xs as [|x xs IH]; intros services.
  - cbn. by rewrite app_nil_r.
  - rewrite forRange_cons_fst, IH, Hf. cbn.
    rewrite <-app_assoc. by destruct (listed x).
Qed.

(** X9: when both listings of a node succeed, [scanServices] returns, in
    this order, one workload for every running virtual machine whose labels
    could be read, then one for every running container whose labels could
    be read and map "traefik.enable" to "true", each in the order of its
    listing; a guest that is not running, or whose labels could not be read,
    contributes nothing. *)
Theorem scanServices_listing (client : ProxmoxClient.t) (nodeName : string)
    (vms cts : list Guest.t) :
  ProxmoxClient.GetVirtualMachines client nodeName = Ok vms →
  ProxmoxClient.GetContainers client nodeName = Ok cts →
  (scanServices client nodeName).1
  = Ok (omap (listedVM client nodeName) vms
        ++ omap (listedContainer client nodeName) cts).
Proof.
  intros Hvms Hcts. rewrite (scanServices_ok _ _ vms cts) by done.
  rewrite (forRange_listed _ (listedContainer client nodeName))
    by apply scanContainer_listed.
  rewrite (forRange_listed _ (listedVM client nodeName))
    by apply scanVM_listed.
  done.
Qed.

(** X10: [scanServices] returns a list exactly when both the listing of the
    virtual machines and the listing of the containers succeed.  When the
    listing of the containers fails, the virtual machines already scanned are
    dropped with it: the result is the error alone. *)
Theorem scanServices_ok_iff (client : ProxmoxClient.t) (nodeName : string) :
  ((∃ services, (scanServices client nodeName).1 = Ok services)
   ↔ (∃ vms, ProxmoxClient.GetVirtualMachines client nodeName = Ok vms)
     ∧ (∃ cts, ProxmoxClient.GetContainers client nodeName = Ok cts))
  ∧ (∀ e, ProxmoxClient.GetVirtualMachines client nodeName = Err e →
          scanServices client nodeName
          = (Err ("error scanning VMs on node " +:+ nodeName +:+ ": " +:+ e),
             []))
  ∧ (∀ e, ProxmoxClient.GetContainers client nodeName = Err e →
          (∃ e', ProxmoxClient.GetVirtualMachines client nodeName = Err e')
          ∨ (scanServices client nodeName).1
            = Err ("error scanning containers on node " +:+ nodeName
                   +:+ ": " +:+ e)).
Proof.
  split; [|split].
  - split.
    + intros [services Hok]. unfold scanServices in Hok.
      destruct (ProxmoxClient.GetVirtualMachines client nodeName)
        as [vms|e]; [|done].
      rewrite bind_fst in Hok.
      destruct (ProxmoxClient.GetContainers client nodeName)
        as [cts|e]; [|done].
      split; by eexists.
    + intros [[vms Hvms] [cts Hcts]]. eexists. by apply scanServices_ok.
  - intros e Hvms. unfold scanServices. by rewrite Hvms.
  - intros e Hcts. unfold scanServices.
    destruct (ProxmoxClient.GetVirtualMachines client nodeName)
      as [vms|e']; [right|left; by eexists].
    by rewrite bind_fst, Hcts.
Qed.

Lemma scannedService_interfaces_ok (client : ProxmoxClient.t)
    (nodeName : string) (isContainer : bool) (guest : Guest.t)
    (configMap : gmap string string) (rawIPs : list IP.t) :
  (if isContainer
   then ProxmoxClient.GetContainerNetworkInterfaces client nodeName
                                                    (Guest.VMID guest)
   else ProxmoxClient.GetVMNetworkInterfaces client nodeName
                                             (Guest.VMID guest)) = Ok rawIPs →
  scannedService client nodeName isContainer guest configMap
  = internal.Service.mk (Guest.VMID guest) (Guest.Name guest) configMap
      (filter (λ ip, (IP.AddressType ip = "ipv4" ∨ IP.AddressType ip = "inet")
                     ∧ IP.Address ip ≠ "127.0.0.1") rawIPs).
Proof.
  intros Hf. unfold scannedService, getIPsOfService. rewrite Hf.
  by rewrite !bind_fst.
Qed.

Lemma filter_unusable (ips : list IP.t) :
  Forall (λ x, ¬ usableIP x) ips →
  Forall (λ x, IP.Address x = "" ∨ IP.Address x = "127.0.0.1")
    (filter (λ ip, (IP.AddressType ip = "ipv4" ∨ IP.AddressType ip = "inet")
                   ∧ IP.Address ip ≠ "127.0.0.1") ips).
Proof.
  intros Hall. apply Forall_forall.
  intros ip [[Hty Hlo] Hin]%list_elem_of_filter.
  rewrite Forall_forall in Hall. specialize (Hall ip Hin).
  destruct (decide (IP.Address ip = "")); [by left|].
  destruct Hall. done.
Qed.

(** X11: the host of a scanned workload whose guest agent answered is the
    address of the first reported entry that is of family "ipv4" or "inet",
    not empty and not "127.0.0.1"; entries of other families are passed over
    even when they come first; when no entry qualifies the host is
    "<name>.<node>". *)
Theorem scanned_workload_host (client : ProxmoxClient.t) (nodeName : string)
    (isContainer : bool) (guest : Guest.t) (configMap : gmap string string)
    (rawIPs : list IP.t) :
  (if isContainer
   then ProxmoxClient.GetContainerNetworkInterfaces client nodeName
                                                    (Guest.VMID guest)
   else ProxmoxClient.GetVMNetworkInterfaces client nodeName
                                             (Guest.VMID guest)) = Ok rawIPs →
  let workload := scannedService client nodeName isContainer guest configMap in
  (∀ pre ip post,
     rawIPs = pre ++ ip :: post →
     Forall (λ x, ¬ usableIP x) pre → usableIP ip →
     getServiceIP workload nodeName = (IP.Address ip, []))
  ∧ (Forall (λ x, ¬ usableIP x) rawIPs →
     getServiceIP workload nodeName
     = (Guest.Name guest +:+ "." +:+ nodeName,
        [WarnNoValidIP (Guest.Name guest) nodeName])).
Proof.
  intros Hf workload. subst workload.
  rewrite (scannedService_interfaces_ok _ _ _ _ _ rawIPs Hf).
  unfold getServiceIP. cbn. split.
  - intros pre ip post -> Hpre (Hty & Hne & Hlo).
    rewrite filter_app, filter_cons_True by done.
    rewrite firstValidIP_first; [done|by apply filter_unusable|done..].
  - intros Hall. rewrite firstValidIP_none; [done|by apply filter_unusable].
Qed.

(** ** The map of services *)

Lemma getServiceMap_fold (client : ProxmoxClient.t) (nodes : list string)
    (servicesMap : gmap string (list internal.Service.t)) (node : string) :
  (forRange (λ (servicesMap : gmap string (list internal.Service.t)) node,
               services ← scanServices client node;
               match services with
               | Err e =>
                   _ ← logPrintf (LogNodeScanError node e);
                   mret servicesMap
               | Ok services => mret (<[node := services]> servicesMap)
               end)
            nodes servicesMap).1 !! node
  = match (scanServices client node).1 with
    | Ok services =>
        if decide (node ∈ nodes) then Some services else servicesMap !! node
    | Err _ => servicesMap !! node
    end.
Proof.
  revert servicesMap. induction nodes as [|n nodes IH]; intros servicesMap.
  - cbn. destruct (scanServices client node).1; [|done].
    rewrite decide_False; [done|apply not_elem_of_nil].
  - rewrite forRange_cons_fst, IH, bind_fst.
    destruct (decide (n = node)) as [->|Hne].
    + destruct (scanServices client node).1 as [services|e]; cbn.
      * rewrite (decide_True (P := node ∈ node :: nodes)) by (by left).
        rewrite lookup_insert_eq. by case_decide.
      * done.
    + destruct (scanServices client node).1 as [services|e] eqn:Hnode.
      * destruct (scanServices client n).1 as [services'|e'] eqn:Hn; cbn.
        -- rewrite lookup_insert_ne by done.
           destruct (decide (node ∈ nodes)) as [Hin|Hin].
           ++ by rewrite decide_True by (by right).
           ++ rewrite decide_False; [done|].
              by intros [->|?]%elem_of_cons.
        -- destruct (decide (node ∈ nodes)) as [Hin|Hin].
           ++ by rewrite decide_True by (by right).
           ++ rewrite decide_False; [done|].
              by intros [->|?]%elem_of_cons.
      * destruct (scanServices client n).1 as [services'|e'] eqn:Hn; cbn;
          [by rewrite lookup_insert_ne|done].
Qed.

(** X12: [getServiceMap] fails exactly when the listing of the nodes fails.
    Otherwise the map it returns has an entry for a node exactly when the
    node is listed and its scan succeeded, and the entry is the list of that
    scan: a node whose scan fails is left out and the other nodes are kept. *)
Theorem getServiceMap_entries (client : ProxmoxClient.t) :
  (∀ e, ProxmoxClient.GetNodes client = Err e →
        getServiceMap client = (Err ("error scanning nodes: " +:+ e), []))
  ∧ (∀ nodes, ProxmoxClient.GetNodes client = Ok nodes →
        ∃ servicesMap,
          (getServiceMap client).1 = Ok servicesMap
          ∧ ∀ node services,
              servicesMap !! node = Some services
              ↔ node ∈ nodes ∧ (scanServices client node).1 = Ok services).
Proof.
  split.
  - intros e He. unfold getServiceMap. by rewrite He.
  - intros nodes Hnodes. unfold getServiceMap. rewrite Hnodes.
    rewrite bind_fst. eexists. split; [reflexivity|].
    intros node services. rewrite getServiceMap_fold, lookup_empty.
    destruct (scanServices client node).1 as [services'|e].
    + case_decide.
      * split; [by intros [= <-]|by intros [_ [= <-]]].
      * split; [done|by intros [? _]].
    + split; [done|by intros [_ ?]].
Qed.

(** ** The assembler over the whole fleet *)

Lemma keysKept_refl (config : Configuration.t) : keysKept config config.
Proof. by repeat split. Qed.

Lemma keysKept_trans (c1 c2 c3 : Configuration.t) :
  keysKept c1 c2 → keysKept c2 c3 → keysKept c1 c3.
Proof.
  intros (? & ? & ? & ? & ? & ? & ?) (? & ? & ? & ? & ? & ? & ?).
  repeat split; etrans; done.
Qed.

Section Fleet.

Variable rangeMap : ∀ V, gmap string V → list (string * V).
Hypothesis rangeMap_perm :
  ∀ V (m : gmap string V), rangeMap V m ≡ₚ map_to_list m.
Variable Decode :
  gmap string string → Configuration.t → Configuration.t * option string.

Lemma buildHTTPConfiguration_dom (httpConfig : HTTPConfiguration.t)
    (service : internal.Service.t) (nodeName : string) :
  let out := (buildHTTPConfiguration rangeMap httpConfig service nodeName).1 in
  dom (HTTPConfiguration.Routers httpConfig)
  ⊆ dom (HTTPConfiguration.Routers out)
  ∧ dom (HTTPConfiguration.Services httpConfig)
    ⊆ dom (HTTPConfiguration.Services out)
  ∧ HTTPConfiguration.Middlewares out
    = HTTPConfiguration.Middlewares httpConfig.
Proof.
  cbn. rewrite buildHTTPConfiguration_fst. cbn.
  set (dR := getDefinedElements rangeMap (Service.Config service)
                                "http" "routers").
  set (dS := getDefinedElements rangeMap (Service.Config service)
                                "http" "services").
  split; [|split; [|done]].
  - intros k Hk%elem_of_dom. apply elem_of_dom, foldl_alter_is_Some.
    destruct (decide (length dR = 0)); [|done].
    rewrite lookup_insert. case_decide; [by eexists|done].
  - intros k Hk%elem_of_dom. apply elem_of_dom, foldl_alter_is_Some.
    destruct (decide (length dS = 0)); [|done].
    rewrite lookup_insert. case_decide; [by eexists|done].
Qed.

Lemma processService_keeps_keys (nodeName : string)
    (config : Configuration.t) (service : internal.Service.t) :
  keysKept config (Decode (Service.Config service) config).1 →
  keysKept config (processService rangeMap Decode nodeName config service).1.
Proof.
  intros Hdec.
  destruct (Decode (Service.Config service) config) as [config' [e|]] eqn:Hd.
  - by rewrite (processService_decode_error _ _ _ _ _ _ e Hd).
  - rewrite (processService_decoded _ _ _ _ _ _ Hd).
    eapply keysKept_trans; [done|]. cbn.
    destruct (buildHTTPConfiguration_dom (Configuration.HTTP config')
                service nodeName) as (? & ? & Hmw).
    destruct (buildTCPConfiguration_frame_lookup rangeMap rangeMap_perm
                (Configuration.TCP config') service nodeName) as (_ & _ & ?).
    destruct (buildUDPConfiguration_frame_lookup rangeMap rangeMap_perm
                (Configuration.UDP config') service nodeName) as (_ & _ & ?).
    repeat split; cbn; try done.
    + by rewrite Hmw.
    + by rewrite buildTCPConfiguration_routers_dom.
    + by rewrite buildUDPConfiguration_routers_dom.
Qed.

(** X13: when the decoder never drops a router, service or middleware key,
    neither does the generation: every key of the configuration at hand
    before a run of the two loops of [generateConfiguration] is a key after
    it, whatever the workloads and whichever of them fail to decode; entries
    are added and rewritten, never removed. *)
Theorem generateConfiguration_keeps_keys
    (nodes : list (string * list internal.Service.t))
    (config : Configuration.t) :
  (∀ labels config, keysKept config (Decode labels config).1) →
  keysKept config (processNodes rangeMap Decode nodes config).1.
Proof.
  intros Hdec. unfold processNodes.
  apply (forRange_invariant (keysKept config)); [|apply keysKept_refl].
  intros c entry _ Hc.
  apply (forRange_invariant (keysKept config)); [|done].
  intros c' service _ Hc'.
  eapply keysKept_trans; [done|].
  apply processService_keeps_keys, Hdec.
Qed.

Lemma processNodes_no_workloads
    (nodes : list (string * list internal.Service.t))
    (config : Configuration.t) :
  Forall (λ entry, entry.2 = []) nodes →
  processNodes rangeMap Decode nodes config = (config, []).
Proof.
  induction 1 as [|[nodeName services] nodes Hnil _ IH]; [done|].
  cbn in Hnil. subst services.
  rewrite processNodes_cons. cbn -[processNodes]. by rewrite IH.
Qed.

(** X14: a fleet without workloads, with no node or with nodes whose lists
    are all empty, yields the configuration with seven empty maps, whatever
    the decoder, and nothing is logged. *)
Theorem generateConfiguration_no_workloads
    (servicesMap : gmap string (list internal.Service.t)) :
  (∀ node services, servicesMap !! node = Some services → services = []) →
  generateConfiguration rangeMap Decode servicesMap = (emptyConfiguration, []).
Proof.
  intros Hempty. unfold generateConfiguration.
  apply processNodes_no_workloads, Forall_forall.
  intros [node services] Hin. cbn.
  apply (Hempty node). apply elem_of_map_to_list.
  by rewrite <-rangeMap_perm.
Qed.

End Fleet.

(** ** Element discovery: order and edge *)

Lemma append_nil_r (s : string) : s +:+ "" = s.
Proof.
  induction s as [|c s IH]; [done|].
  change (String c (s +:+ "") = String c s). by rewrite IH.
Qed.

(** X15: the order in which the runtime walks the maps changes the order of
    the identifiers [getDefinedElements] returns and nothing else: under any
    two orders the two results are permutations of each other. *)
Theorem getDefinedElements_order_independent
    (rangeMap rangeMap' : ∀ V, gmap string V → list (string * V))
    (labels : gmap string string) (proto elemType : string) :
  (∀ V (m : gmap string V), rangeMap V m ≡ₚ map_to_list m) →
  (∀ V (m : gmap string V), rangeMap' V m ≡ₚ map_to_list m) →
  getDefinedElements rangeMap labels proto elemType
  ≡ₚ getDefinedElements rangeMap' labels proto elemType.
Proof.
  intros Hperm Hperm'. apply NoDup_Permutation.
  - by apply getDefinedElements_NoDup.
  - by apply getDefinedElements_NoDup.
  - intros id. by rewrite !getDefinedElements_declares.
Qed.

(** X16: a key that stops right after the prefix, or goes on with a dot,
    declares the empty identifier: [getDefinedElements] then returns the
    empty string among the identifiers, and a key under the prefix always
    yields some identifier, so the result is empty only when no key lies
    under the prefix. *)
Theorem getDefinedElements_empty_identifier
    (rangeMap : ∀ V, gmap string V → list (string * V))
    (labels : gmap string string) (proto elemType : string) :
  (∀ V (m : gmap string V), rangeMap V m ≡ₚ map_to_list m) →
  ("" ∈ getDefinedElements rangeMap labels proto elemType
   ↔ is_Some (labels !! labelPrefix proto elemType)
     ∨ ∃ tail, is_Some (labels !! (labelPrefix proto elemType +:+ "."
                                   +:+ tail)))
  ∧ (getDefinedElements rangeMap labels proto elemType = []
     ↔ ¬ hasLabels labels proto elemType).
Proof.
  intros Hperm. split; [|by apply getDefinedElements_nil].
  rewrite getDefinedElements_declares by done. split.
  - intros (k & rest & Hk & -> & _ & [->|[tail ->]]).
    + left. by rewrite append_nil_r in Hk.
    + right. by exists tail.
  - intros [Hk|[tail Hk]].
    + exists (labelPrefix proto elemType), "". split; [done|].
      split; [by rewrite append_nil_r|].
      split; [by intros []|by left].
    + exists (labelPrefix proto elemType +:+ "." +:+ tail), ("." +:+ tail).
      split; [done|]. split; [done|].
      split; [by intros []|right; by exists tail].
Qed.

(** ** The plugin configuration *)

Lemma validateConfig_Some (c : Config.t) :
  validateConfig (Some c) = None
  ↔ Config.PollInterval c ≠ "" ∧ Config.ApiEndpoint c ≠ ""
    ∧ Config.ApiTokenId c ≠ "" ∧ Config.ApiToken c ≠ "".
Proof.
  unfold validateConfig. repeat case_decide; split; try done;
    intros (? & ? & ? & ?); done.
Qed.

Lemma validateConfig_newParserConfig (c : Config.t) :
  validateConfig (Some c) = None →
  newParserConfig (Config.ApiEndpoint c) (Config.ApiTokenId c)
                  (Config.ApiToken c)
  = Ok (ParserConfig.mk (Config.ApiEndpoint c) (Config.ApiTokenId c)
                        (Config.ApiToken c) "info" true).
Proof.
  intros (? & ? & ? & ?)%validateConfig_Some. unfold newParserConfig.
  rewrite decide_False; [done|]. by intros [?|[?|?]].
Qed.

(** X17: [validateConfig] accepts a configuration exactly when it is not
    nil and its poll interval, API endpoint, token id and token are all
    non-empty; the logging level and the TLS flag are not looked at.  A
    configuration it accepts is one [newParserConfig] accepts too, and the
    parser configuration then carries the three connection fields, the level
    "info" and TLS validation on. *)
Theorem validateConfig_accepts (config : option Config.t) :
  (validateConfig config = None
   ↔ ∃ c, config = Some c
          ∧ Config.PollInterval c ≠ "" ∧ Config.ApiEndpoint c ≠ ""
          ∧ Config.ApiTokenId c ≠ "" ∧ Config.ApiToken c ≠ "")
  ∧ (∀ c, validateConfig (Some c) = None →
          newParserConfig (Config.ApiEndpoint c) (Config.ApiTokenId c)
                          (Config.ApiToken c)
          = Ok (ParserConfig.mk (Config.ApiEndpoint c) (Config.ApiTokenId c)
                                (Config.ApiToken c) "info" true)).
Proof.
  split.
  - destruct config as [c|].
    + rewrite validateConfig_Some.
      split; [intros ?; by exists c|by intros (? & [= <-] & ?)].
    + split; [done|by intros (? & ? & _)].
  - apply validateConfig_newParserConfig.
Qed.

Section LifecycleFacts.

Variable ParseDuration : string → result Z.
Variable formatDuration : Z → string.
Variable NewProxmoxClient :
  string → string → string → bool → string → ProxmoxClient.t.
Variable GetVersion : ProxmoxClient.t → result string.

(** X18: [New] returns a provider exactly when the configuration passes
    [validateConfig], its poll interval parses to at least five seconds, and
    the version probe of the client succeeds.  The provider then has the
    given name and the parsed interval, and its client is built from the
    three connection fields, with TLS validation on exactly when the flag is
    the string "true" and with the configured logging level; the one line
    logged is the release the probe reported. *)
Theorem New_succeeds_iff (config : option Config.t) (name : string)
    (p : Provider.t) (log : list ConnectEvent) :
  New ParseDuration formatDuration NewProxmoxClient GetVersion config name
  = (Ok p, log)
  ↔ ∃ c release,
      config = Some c
      ∧ validateConfig (Some c) = None
      ∧ ParseDuration (Config.PollInterval c) = Ok (Provider.pollInterval p)
      ∧ (5 * Second ≤ Provider.pollInterval p)%Z
      ∧ Provider.name p = name
      ∧ Provider.client p
        = NewProxmoxClient (Config.ApiEndpoint c) (Config.ApiTokenId c)
            (Config.ApiToken c)
            (bool_decide (Config.ApiValidateSSL c = "true"))
            (Config.ApiLogging c)
      ∧ GetVersion (Provider.client p) = Ok release
      ∧ log = [LogConnected release].
Proof.
  unfold New. split.
  - destruct (validateConfig config) as [err|] eqn:Hval; [done|].
    destruct config as [c|]; [|done].
    destruct (ParseDuration (Config.PollInterval c)) as [pi|err] eqn:Hpi;
      [|done].
    case_decide as Hmin; [done|].
    rewrite (validateConfig_newParserConfig c Hval). cbn.
    unfold logVersion, newClient. cbn.
    destruct (GetVersion _) as [release|err] eqn:Hver; [|done].
    intros [= <- <-]. exists c, release. cbn.
    repeat split; try done. lia.
  - intros (c & release & -> & Hval & Hpi & Hmin & <- & Hclient & Hver & ->).
    rewrite Hval, Hpi. rewrite decide_False by lia.
    rewrite (validateConfig_newParserConfig c Hval). cbn.
    unfold logVersion, newClient. cbn.
    rewrite <-Hclient, Hver. by destruct p.
Qed.

End LifecycleFacts.

Lemma isBoolLabelEnabled_gate (labels : gmap string string) (label : string) :
  isBoolLabelEnabled labels label = true ↔ labels !! label = Some "true".
Proof.
  unfold isBoolLabelEnabled. destruct (labels !! label) as [val|]; [|done].
  rewrite bool_decide_eq_true. split; [by intros ->|by intros [= ->]].
Qed.

Section Delivery.

Variable rangeMap : ∀ V, gmap string V → list (string * V).
Hypothesis rangeMap_perm :
  ∀ V (m : gmap string V), rangeMap V m ≡ₚ map_to_list m.
Variable Decode :
  gmap string string → Configuration.t → Configuration.t * option string.

(** X19: [updateConfiguration] sends nothing and returns an error when the
    listing of the nodes fails.  In every other case it sends exactly one
    payload, the configuration generated from the map of [getServiceMap],
    and returns no error: a node whose scan fails only drops that node, and
    when the scan of every node fails the payload is the configuration with
    empty maps. *)
Theorem updateConfiguration_delivery (p : Provider.t) :
  (∀ e, ProxmoxClient.GetNodes (Provider.client p) = Err e →
        updateConfiguration rangeMap Decode p
        = (([], Some ("error getting service map: "
                      +:+ "error scanning nodes: " +:+ e)), []))
  ∧ (∀ nodes, ProxmoxClient.GetNodes (Provider.client p) = Ok nodes →
        ∃ servicesMap,
          (getServiceMap (Provider.client p)).1 = Ok servicesMap
          ∧ (updateConfiguration rangeMap Decode p).1
            = ([(generateConfiguration rangeMap Decode servicesMap).1], None))
  ∧ (∀ nodes, ProxmoxClient.GetNodes (Provider.client p) = Ok nodes →
        (∀ node, node ∈ nodes →
                 ∃ e, (scanServices (Provider.client p) node).1 = Err e) →
        (updateConfiguration rangeMap Decode p).1
        = ([emptyConfiguration], None)).
Proof.
  split; [|split].
  - intros e He. unfold updateConfiguration, getServiceMap. by rewrite He.
  - intros nodes Hnodes. unfold updateConfiguration.
    rewrite bind_fst. unfold getServiceMap. rewrite Hnodes.
    rewrite !bind_fst. cbn -[forRange scanServices generateConfiguration].
    eexists. split; [reflexivity|]. by rewrite bind_fst.
  - intros nodes Hnodes Hfail. unfold updateConfiguration.
    rewrite bind_fst. unfold getServiceMap. rewrite Hnodes.
    rewrite !bind_fst. cbn -[forRange scanServices generateConfiguration].
    rewrite bind_fst. cbn -[forRange scanServices generateConfiguration].
    do 2 f_equal. unfold generateConfiguration.
    rewrite processNodes_no_workloads; [done|].
    apply Forall_forall. intros [node services] Hin. exfalso.
    rewrite rangeMap_perm in Hin. apply elem_of_map_to_list in Hin.
    rewrite getServiceMap_fold, lookup_empty in Hin.
    destruct (scanServices (Provider.client p) node).1 as [s|e] eqn:Hscan;
      [|done].
    case_decide as Hnode; [|done].
    destruct (Hfail node Hnode) as [e He]. congruence.
Qed.

End Delivery.

(** ** The further statements at the sample inputs *)

Lemma declares_intro (labels : gmap string string)
    (proto elemType id tail : string) :
  is_Some (labels !! (labelPrefix proto elemType +:+ id +:+ "." +:+ tail)) →
  ¬ occurs "."%char id →
  declares labels proto elemType id.
Proof.
  intros Hk Hno. eexists _, (id +:+ "." +:+ tail).
  split; [done|]. split; [done|]. split; [done|right; by exists tail].
Qed.

Lemma reverseRange_perm :
  ∀ V (m : gmap string V), reverseRange V m ≡ₚ map_to_list m.
Proof. intros V m. apply reverse_Permutation. Qed.

Lemma buildHTTPConfiguration_router_fields_witness :
  HTTPConfiguration.Routers
    (buildHTTPConfiguration sampleRange sampleHTTP apiWorkload "pve").1
    !! "myrouter"
  = Some (Router.mk "mysvc" "Host(`a.example`)" (Some 1%Z)).
Proof.
  apply (buildHTTPConfiguration_router_fields sampleRange sampleRange_perm
           sampleHTTP apiWorkload "pve" "myrouter"
           (Router.mk "" "Host(`a.example`)" None)).
  - apply (declares_intro _ _ _ "myrouter" "rule").
    + vm_compute. by eexists.
    + vm_compute. intuition discriminate.
  - reflexivity.
Defined.

Lemma buildHTTPConfiguration_service_fields_witness :
  ∃ lb,
    HTTPConfiguration.Services
      (buildHTTPConfiguration sampleRange sampleHTTP apiWorkload "pve").1
      !! "mysvc"
    = Some (Service.mk (Some lb))
    ∧ ServersLoadBalancer.PassHostHeader lb = Some true
    ∧ ServersLoadBalancer.Servers lb !! 0%nat
      = Some (Server.mk "http://10.0.0.8:8080" "" "8080").
Proof.
  destruct (buildHTTPConfiguration_service_fields sampleRange sampleRange_perm
              sampleHTTP apiWorkload "pve" "mysvc"
              (Service.mk (Some (ServersLoadBalancer.mk None
                 [Server.mk "" "" "8080"]))))
    as (lb & Hlb & Hphh & _ & _ & Hservers).
  - apply (declares_intro _ _ _ "mysvc" "loadbalancer.server.port").
    + vm_compute. by eexists.
    + vm_compute. intuition discriminate.
  - reflexivity.
  - exists lb. split; [exact Hlb|]. split; [exact Hphh|].
    apply (Hservers _ 0%nat (Server.mk "" "" "8080") eq_refl eq_refl).
Defined.

Lemma buildHTTPConfiguration_frame_witness :
  HTTPConfiguration.Routers
    (buildHTTPConfiguration sampleRange sampleHTTP webWorkload "pve").1
    !! "myrouter"
  = HTTPConfiguration.Routers sampleHTTP !! "myrouter".
Proof.
  apply (buildHTTPConfiguration_frame sampleRange sampleRange_perm
           sampleHTTP webWorkload "pve").
  - intros Hd. apply (hasLabelsb_false (Service.Config webWorkload)
                        "http" "routers"); [by vm_compute|].
    apply hasLabels_declares. by exists "myrouter".
  - left. vm_compute. discriminate.
Defined.

Lemma stream_router_fields_witness :
  TCPConfiguration.Routers
    (buildTCPConfiguration sampleRange sampleTCP dbWorkload "pve").1 !! "foo"
  = Some (TCPRouter.mk "db-101" "HostSNI(`*`)" (Some 1%Z))
  ∧ UDPConfiguration.Routers
      (buildUDPConfiguration sampleRange sampleUDP dbWorkload "pve").1 !! "dns"
    = Some (UDPRouter.mk "db-101").
Proof.
  split.
  - apply (proj1 (stream_router_fields sampleRange sampleRange_perm
                    dbWorkload "pve" "foo") sampleTCP (TCPRouter.mk "" "" None)).
    + apply (declares_intro _ _ _ "foo" "rule").
      * vm_compute. by eexists.
      * vm_compute. intuition discriminate.
    + reflexivity.
  - apply (proj2 (stream_router_fields sampleRange sampleRange_perm
                    dbWorkload "pve" "dns") sampleUDP (UDPRouter.mk "")).
    + apply (declares_intro _ _ _ "dns" "service").
      * vm_compute. by eexists.
      * vm_compute. intuition discriminate.
    + reflexivity.
Defined.

Lemma stream_service_fields_witness :
  ∃ lb,
    TCPConfiguration.Services
      (buildTCPConfiguration sampleRange
         (TCPConfiguration.mk ∅
            {[ "ssh" := TCPService.mk (Some (TCPServersLoadBalancer.mk
                          [TCPServer.mk "" "2222"])) ]})
         sshWorkload "pve").1 !! "ssh"
    = Some (TCPService.mk (Some lb))
    ∧ TCPServersLoadBalancer.Servers lb !! 0%nat
      = Some (TCPServer.mk "10.0.0.9:2222" "2222").
Proof.
  destruct (proj1 (stream_service_fields sampleRange sampleRange_perm
                     sshWorkload "pve" "ssh")
              (TCPConfiguration.mk ∅
                 {[ "ssh" := TCPService.mk (Some (TCPServersLoadBalancer.mk
                               [TCPServer.mk "" "2222"])) ]})
              (TCPService.mk (Some (TCPServersLoadBalancer.mk
                 [TCPServer.mk "" "2222"]))))
    as (lb & Hlb & _ & _ & Hservers).
  - apply (declares_intro _ _ _ "ssh" "loadbalancer.server.port").
    + vm_compute. by eexists.
    + vm_compute. intuition discriminate.
  - reflexivity.
  - exists lb. split; [exact Hlb|].
    apply (Hservers _ 0%nat (TCPServer.mk "" "2222") eq_refl eq_refl).
Defined.

Lemma stream_frame_witness :
  TCPConfiguration.Services
    (buildTCPConfiguration sampleRange sampleTCP dbWorkload "pve").1 !! "ssh"
  = TCPConfiguration.Services sampleTCP !! "ssh".
Proof.
  apply (proj1 (stream_frame sampleRange sampleRange_perm dbWorkload "pve")
           sampleTCP).
  - intros Hd. apply (hasLabelsb_false (Service.Config dbWorkload)
                        "tcp" "services"); [by vm_compute|].
    apply hasLabels_declares. by exists "ssh".
  - left. vm_compute. discriminate.
Defined.

Lemma scanServices_listing_witness :
  (scanServices sampleClient "pve").1
  = Ok (omap (listedVM sampleClient "pve")
             [Guest.mk 100 "web" "running"; Guest.mk 102 "app" "running"]
        ++ omap (listedContainer sampleClient "pve")
                [Guest.mk 200 "ct" "running"; Guest.mk 201 "cache" "running"]).
Proof.
  apply (scanServices_listing sampleClient "pve"); reflexivity.
Defined.

Lemma scanServices_ok_iff_witness :
  (scanServices brokenClient "pve").1
  = Err "error scanning containers on node pve: timeout".
Proof.
  destruct (proj2 (proj2 (scanServices_ok_iff brokenClient "pve"))
              "timeout" eq_refl) as [[e' He']|Herr].
  - vm_compute in He'. discriminate.
  - exact Herr.
Defined.

Lemma scanned_workload_host_witness :
  getServiceIP
    (scannedService agentClient "pve" false (Guest.mk 102 "app" "running")
                    {[ "traefik.enable" := "true" ]})
    "pve"
  = ("10.0.0.7", []).
Proof.
  apply (proj1 (scanned_workload_host agentClient "pve" false
                  (Guest.mk 102 "app" "running")
                  {[ "traefik.enable" := "true" ]}
                  [IP.mk "fe80::1" "ipv6"; IP.mk "127.0.0.1" "ipv4";
                   IP.mk "10.0.0.7" "ipv4"] eq_refl)
           [IP.mk "fe80::1" "ipv6"; IP.mk "127.0.0.1" "ipv4"]
           (IP.mk "10.0.0.7" "ipv4") []).
  - reflexivity.
  - constructor; [|constructor; [|constructor]].
    + intros ([Hty|Hty] & _); vm_compute in Hty; discriminate.
    + intros (_ & _ & Hlo). by apply Hlo.
  - split; [by left|]. split; vm_compute; discriminate.
Defined.

Lemma getServiceMap_entries_witness :
  ∃ servicesMap,
    (getServiceMap sampleClient).1 = Ok servicesMap
    ∧ ∀ node services,
        servicesMap !! node = Some services
        ↔ node ∈ ["pve"] ∧ (scanServices sampleClient node).1 = Ok services.
Proof.
  apply (proj2 (getServiceMap_entries sampleClient) ["pve"]). reflexivity.
Defined.

Lemma generateConfiguration_keeps_keys_witness :
  keysKept emptyConfiguration
    (processNodes sampleRange sampleDecode
       [("pve", [webWorkload; badWorkload; dbWorkload])]
       emptyConfiguration).1.
Proof.
  apply (generateConfiguration_keeps_keys sampleRange sampleRange_perm
           sampleDecode).
  intros labels config. unfold sampleDecode.
  destruct (decide (labels !! "traefik.http.routers.bad.priority"
                    = Some "high")); apply keysKept_refl.
Defined.

Lemma generateConfiguration_no_workloads_witness :
  generateConfiguration sampleRange sampleDecode {[ "pve" := [] ]}
  = (emptyConfiguration, []).
Proof.
  apply (generateConfiguration_no_workloads sampleRange sampleRange_perm
           sampleDecode).
  intros node services [_ <-]%lookup_singleton_Some. reflexivity.
Defined.

Lemma getDefinedElements_order_independent_witness :
  getDefinedElements sampleRange (Service.Config apiWorkload) "http" "routers"
  ≡ₚ getDefinedElements reverseRange (Service.Config apiWorkload)
                        "http" "routers".
Proof.
  apply (getDefinedElements_order_independent sampleRange reverseRange).
  - exact sampleRange_perm.
  - exact reverseRange_perm.
Defined.

Lemma getDefinedElements_empty_identifier_witness :
  "" ∈ getDefinedElements sampleRange
         {[ "traefik.http.routers." := "x" ]} "http" "routers".
Proof.
  apply (proj1 (getDefinedElements_empty_identifier sampleRange
                  {[ "traefik.http.routers." := "x" ]} "http" "routers"
                  sampleRange_perm)).
  left. vm_compute. by eexists.
Defined.

Lemma validateConfig_accepts_witness :
  validateConfig (Some sampleConfig) = None
  ∧ validateConfig (Some CreateConfig) ≠ None.
Proof.
  split.
  - apply (proj1 (validateConfig_accepts (Some sampleConfig))).
    exists sampleConfig. repeat split; vm_compute; discriminate.
  - intros Hok.
    apply (proj1 (validateConfig_accepts (Some CreateConfig))) in Hok
      as (c & [= <-] & _ & Hendpoint & _).
    by apply Hendpoint.
Defined.

Lemma New_succeeds_iff_witness :
  New sampleParseDuration (λ _, "30s") (λ _ _ _ _ _, sampleClient)
      (λ _, Ok "8.2") (Some sampleConfig) "proxmox"
  = (Ok (Provider.mk "proxmox" (30 * Second)%Z sampleClient),
     [LogConnected "8.2"]).
Proof.
  apply (proj2 (New_succeeds_iff sampleParseDuration (λ _, "30s")
                  (λ _ _ _ _ _, sampleClient) (λ _, Ok "8.2")
                  (Some sampleConfig) "proxmox"
                  (Provider.mk "proxmox" (30 * Second)%Z sampleClient)
                  [LogConnected "8.2"])).
  exists sampleConfig, "8.2".
  repeat split; try reflexivity. vm_compute. discriminate.
Defined.

Lemma updateConfiguration_delivery_witness :
  (updateConfiguration sampleRange sampleDecode sampleProvider).1
  = ([emptyConfiguration], None).
Proof.
  apply (proj2 (proj2 (updateConfiguration_delivery sampleRange
                         sampleRange_perm sampleDecode sampleProvider))
           ["pve"] eq_refl).
  intros node ->%list_elem_of_singleton. eexists. vm_compute. reflexivity.
Defined.

(** ** The two HTTP defaults, one without the other *)

Lemma alter_insert_eq {A} (f : A → A) (m : gmap string A) (k : string) (x : A) :
  alter f k (<[k := x]> m) = <[k := f x]> m.
Proof.
  rewrite (alter_lookup_Some f _ k x) by apply lookup_insert_eq.
  apply insert_insert_eq.
Qed.

Section HTTPHalves.

Variable rangeMap : ∀ V, gmap string V → list (string * V).
Hypothesis rangeMap_perm :
  ∀ V (m : gmap string V), rangeMap V m ≡ₚ map_to_list m.

(** X20: the two defaults of [buildHTTPConfiguration] are decided apart.
    Without a router label the router "<name>-<id>" is put in, with rule
    Host(`<name>`) and priority 1, and it points at the first discovered
    service name when the labels declare services, at "<name>-<id>" only when
    they declare none.  Without a service label the service "<name>-<id>" is
    put in, with pass-host-header true and one server at
    "http://<resolved-host>:80", whether or not the labels declare routers. *)
Theorem buildHTTPConfiguration_each_default (httpConfig : HTTPConfiguration.t)
    (service : internal.Service.t) (nodeName : string) :
  let labels := Service.Config service in
  let out := (buildHTTPConfiguration rangeMap httpConfig service nodeName).1 in
  (¬ hasLabels labels "http" "routers" →
   HTTPConfiguration.Routers out
   = <[defaultID service :=
         Router.mk
           (default (defaultID service)
                    (head (getDefinedElements rangeMap labels "http" "services")))
           ("Host(`" +:+ Service.Name service +:+ "`)") (Some 1%Z)]>
       (HTTPConfiguration.Routers httpConfig))
  ∧ (¬ hasLabels labels "http" "services" →
     HTTPConfiguration.Services out
     = <[defaultID service :=
           Service.mk (Some (ServersLoadBalancer.mk (Some true)
             [Server.mk ("http://" +:+ (getServiceIP service nodeName).1
                         +:+ ":80") "" ""]))]>
         (HTTPConfiguration.Services httpConfig)).
Proof.
  intros labels out. subst labels out.
  rewrite buildHTTPConfiguration_fst. cbn. split.
  - intros Hr%(getDefinedElements_nil rangeMap rangeMap_perm).
    rewrite Hr. rewrite !(decide_True (P := length [] = 0)) by done. cbn.
    rewrite alter_insert_eq. f_equal.
    unfold httpRouterDefaults. rewrite head_lookup_total. cbn.
    rewrite decide_True; [by rewrite decide_True|].
    split; [done|apply default_names_length].
  - intros Hs%(getDefinedElements_nil rangeMap rangeMap_perm).
    rewrite Hs. rewrite !(decide_True (P := length [] = 0)) by done. cbn.
    rewrite alter_insert_eq. by f_equal.
Qed.

End HTTPHalves.

Lemma buildHTTPConfiguration_each_default_witness :
  HTTPConfiguration.Services
    (buildHTTPConfiguration sampleRange sampleHTTP dbWorkload "pve").1
  = <["db-101" :=
        Service.mk (Some (ServersLoadBalancer.mk (Some true)
          [Server.mk "http://db.pve:80" "" ""]))]>
      (HTTPConfiguration.Services sampleHTTP).
Proof.
  apply (proj2 (buildHTTPConfiguration_each_default sampleRange
                  sampleRange_perm sampleHTTP dbWorkload "pve")).
  apply hasLabelsb_false. vm_compute. reflexivity.
Defined.

(** ** Running a pass again *)

Lemma foldl_alter_twice {A} (f f' : A → A) (names names' : list string)
    (m : gmap string A) :
  (∀ x, f' x = f x) → (∀ x, f (f x) = f x) → names ≡ₚ names' →
  foldl (λ m name, alter f' name m)
        (foldl (λ m name, alter f name m) m names) names'
  = foldl (λ m name, alter f name m) m names.
Proof.
  intros Hff Hf Hperm. apply map_eq. intros k.
  rewrite (foldl_alter_lookup f') by (intros x; by rewrite !Hff).
  rewrite !foldl_alter_lookup by done.
  destruct (decide (k ∈ names')) as [Hin|Hin].
  - rewrite decide_True by (by rewrite Hperm).
    destruct (m !! k) as [x|]; [|done].
    change (Some (f' (f x)) = Some (f x)). by rewrite Hff, Hf.
  - by rewrite decide_False by (by rewrite Hperm).
Qed.

Lemma foldl_alter_default_twice {A} (f f' : A → A) (d : string) (x : A)
    (m : gmap string A) :
  f' x = f x →
  foldl (λ m name, alter f' name m)
        (<[d := x]> (foldl (λ m name, alter f name m) (<[d := x]> m) [d])) [d]
  = foldl (λ m name, alter f name m) (<[d := x]> m) [d].
Proof.
  intros Hff. cbn. apply map_eq. intros k.
  rewrite !lookup_alter. case_decide; [subst|].
  - rewrite !lookup_insert_eq. cbn. by rewrite Hff.
  - by rewrite !lookup_insert_ne, lookup_alter_ne, lookup_insert_ne.
Qed.

Lemma head_lookup_total_0 (names names' : list string) :
  head names = head names' → names !!! 0%nat = names' !!! 0%nat.
Proof. destruct names, names'; cbn; congruence. Qed.

Lemma httpRouterDefaults_names (service : internal.Service.t)
    (names names' : list string) (router : Router.t) :
  length names = length names' → names !!! 0%nat = names' !!! 0%nat →
  httpRouterDefaults service names' router
  = httpRouterDefaults service names router.
Proof.
  intros Hlen Hhead. unfold httpRouterDefaults. rewrite Hlen, Hhead. done.
Qed.

Lemma tcpRouterDefaults_names (names names' : list string)
    (router : TCPRouter.t) :
  length names = length names' → names !!! 0%nat = names' !!! 0%nat →
  tcpRouterDefaults names' router = tcpRouterDefaults names router.
Proof.
  intros Hlen Hhead. unfold tcpRouterDefaults. rewrite Hlen, Hhead. done.
Qed.

Lemma udpRouterDefaults_names (names names' : list string)
    (router : UDPRouter.t) :
  length names = length names' → names !!! 0%nat = names' !!! 0%nat →
  udpRouterDefaults names' router = udpRouterDefaults names router.
Proof.
  intros Hlen Hhead. unfold udpRouterDefaults. rewrite Hlen, Hhead. done.
Qed.

Lemma default_names_agree (dS dS' : list string) (d : string) :
  dS ≡ₚ dS' → head dS = head dS' →
  let names := if decide (length dS = 0) then dS ++ [d] else dS in
  let names' := if decide (length dS' = 0) then dS' ++ [d] else dS' in
  length names = length names' ∧ names !!! 0%nat = names' !!! 0%nat.
Proof.
  intros Hperm Hhead names names'. subst names names'.
  pose proof (Permutation_length Hperm) as Hlen.
  rewrite !head_lookup_total, Hhead. split; [|done].
  destruct dS, dS'; cbn in *; try done.
Qed.

Lemma stream_names_agree (dR dR' dS dS' : list string) (d : string) :
  dR ≡ₚ dR' → dS ≡ₚ dS' → head dS = head dS' →
  let names :=
    if decide (0 < length dR ∧ length dS = 0) then dS ++ [d] else dS in
  let names' :=
    if decide (0 < length dR' ∧ length dS' = 0) then dS' ++ [d] else dS' in
  length names = length names' ∧ names !!! 0%nat = names' !!! 0%nat.
Proof.
  intros HR HS Hhead names names'. subst names names'.
  pose proof (Permutation_length HR) as HlenR.
  pose proof (Permutation_length HS) as HlenS.
  rewrite <-HlenR, <-HlenS.
  case_decide as Hc.
  - destruct Hc as [_ Hnil]. rewrite Hnil in HlenS.
    apply nil_length_inv in Hnil. symmetry in HlenS.
    apply nil_length_inv in HlenS. by subst.
  - split; [done|by apply head_lookup_total_0].
Qed.

Section Rerun.

Variable rangeMap rangeMap' : ∀ V, gmap string V → list (string * V).
Hypothesis rangeMap_perm :
  ∀ V (m : gmap string V), rangeMap V m ≡ₚ map_to_list m.
Hypothesis rangeMap'_perm :
  ∀ V (m : gmap string V), rangeMap' V m ≡ₚ map_to_list m.

Lemma getDefinedElements_perm (labels : gmap string string)
    (proto elemType : string) :
  getDefinedElements rangeMap labels proto elemType
  ≡ₚ getDefinedElements rangeMap' labels proto elemType.
Proof.
  apply NoDup_Permutation.
  - by apply getDefinedElements_NoDup.
  - by apply getDefinedElements_NoDup.
  - intros id. by rewrite !getDefinedElements_declares.
Qed.

(** X7: each of the three passes reaches a fixed point in one run, across
    runs that walk the maps in different orders, as long as the second run
    discovers the same first service identifier as the first run (which is
    so whenever the labels declare at most one service of the protocol): run
    again for the same workload and node on the configuration the first run
    produced, the pass produces that configuration again. *)
Theorem passes_idempotent (service : internal.Service.t) (nodeName : string) :
  let labels := Service.Config service in
  (head (getDefinedElements rangeMap labels "http" "services")
   = head (getDefinedElements rangeMap' labels "http" "services") →
   ∀ httpConfig,
     (buildHTTPConfiguration rangeMap'
        (buildHTTPConfiguration rangeMap httpConfig service nodeName).1
        service nodeName).1
     = (buildHTTPConfiguration rangeMap httpConfig service nodeName).1)
  ∧ (head (getDefinedElements rangeMap labels "tcp" "services")
     = head (getDefinedElements rangeMap' labels "tcp" "services") →
     ∀ tcpConfig,
       (buildTCPConfiguration rangeMap'
          (buildTCPConfiguration rangeMap tcpConfig service nodeName).1
          service nodeName).1
       = (buildTCPConfiguration rangeMap tcpConfig service nodeName).1)
  ∧ (head (getDefinedElements rangeMap labels "udp" "services")
     = head (getDefinedElements rangeMap' labels "udp" "services") →
     ∀ udpConfig,
       (buildUDPConfiguration rangeMap'
          (buildUDPConfiguration rangeMap udpConfig service nodeName).1
          service nodeName).1
       = (buildUDPConfiguration rangeMap udpConfig service nodeName).1).
Proof.
  cbv zeta. split; [|split].
  - intros Hhead httpConfig.
    rewrite (buildHTTPConfiguration_fst rangeMap'),
            (buildHTTPConfiguration_fst rangeMap). cbn.
    pose proof (getDefinedElements_perm (Service.Config service)
                  "http" "routers") as HR.
    pose proof (getDefinedElements_perm (Service.Config service)
                  "http" "services") as HS.
    revert Hhead HR HS.
    generalize (getDefinedElements rangeMap (Service.Config service)
                                   "http" "routers"),
               (getDefinedElements rangeMap' (Service.Config service)
                                   "http" "routers"),
               (getDefinedElements rangeMap (Service.Config service)
                                   "http" "services"),
               (getDefinedElements rangeMap' (Service.Config service)
                                   "http" "services").
    intros dR dR' dS dS' Hhead HR HS.
    destruct (default_names_agree dS dS' (defaultID service) HS Hhead)
      as [Hlen H0].
    pose proof (Permutation_length HR) as HlenR.
    pose proof (Permutation_length HS) as HlenS.
    f_equal.
    + destruct (decide (length dR = 0)) as [HnilR|HnilR].
      * rewrite !(decide_True (P := length dR' = 0)) by lia.
        apply nil_length_inv in HnilR. subst dR.
        apply Permutation_nil in HR. subst dR'.
        apply foldl_alter_default_twice.
        by apply httpRouterDefaults_names.
      * rewrite !(decide_False (P := length dR' = 0)) by lia.
        apply foldl_alter_twice; [|apply httpRouterDefaults_idem|done].
        intros x. by apply httpRouterDefaults_names.
    + destruct (decide (length dS = 0)) as [HnilS|HnilS].
      * rewrite !(decide_True (P := length dS' = 0)) by lia.
        apply nil_length_inv in HnilS. subst dS.
        apply Permutation_nil in HS. subst dS'.
        by apply foldl_alter_default_twice.
      * rewrite !(decide_False (P := length dS' = 0)) by lia.
        by apply foldl_alter_twice; [|apply httpServiceDefaults_idem|].
  - intros Hhead tcpConfig.
    rewrite (buildTCPConfiguration_fst rangeMap'),
            (buildTCPConfiguration_fst rangeMap). cbn.
    pose proof (getDefinedElements_perm (Service.Config service)
                  "tcp" "routers") as HR.
    pose proof (getDefinedElements_perm (Service.Config service)
                  "tcp" "services") as HS.
    revert Hhead HR HS.
    generalize (getDefinedElements rangeMap (Service.Config service)
                                   "tcp" "routers"),
               (getDefinedElements rangeMap' (Service.Config service)
                                   "tcp" "routers"),
               (getDefinedElements rangeMap (Service.Config service)
                                   "tcp" "services"),
               (getDefinedElements rangeMap' (Service.Config service)
                                   "tcp" "services").
    intros dR dR' dS dS' Hhead HR HS.
    destruct (stream_names_agree dR dR' dS dS' (defaultID service)
                HR HS Hhead) as [Hlen H0].
    pose proof (Permutation_length HR) as HlenR.
    pose proof (Permutation_length HS) as HlenS.
    f_equal.
    + apply foldl_alter_twice; [|apply tcpRouterDefaults_idem|done].
      intros x. by apply tcpRouterDefaults_names.
    + destruct (decide (0 < length dR ∧ length dS = 0)) as [[? HnilS]|Hno].
      * rewrite !(decide_True (P := 0 < length dR' ∧ length dS' = 0))
          by (split; lia).
        apply nil_length_inv in HnilS. subst dS.
        apply Permutation_nil in HS. subst dS'.
        by apply foldl_alter_default_twice.
      * rewrite !(decide_False (P := 0 < length dR' ∧ length dS' = 0))
          by (intros [? ?]; apply Hno; split; lia).
        by apply foldl_alter_twice; [|apply tcpServiceDefaults_idem|].
  - intros Hhead udpConfig.
    rewrite (buildUDPConfiguration_fst rangeMap'),
            (buildUDPConfiguration_fst rangeMap). cbn.
    pose proof (getDefinedElements_perm (Service.Config service)
                  "udp" "routers") as HR.
    pose proof (getDefinedElements_perm (Service.Config service)
                  "udp" "services") as HS.
    revert Hhead HR HS.
    generalize (getDefinedElements rangeMap (Service.Config service)
                                   "udp" "routers"),
               (getDefinedElements rangeMap' (Service.Config service)
                                   "udp" "routers"),
               (getDefinedElements rangeMap (Service.Config service)
                                   "udp" "services"),
               (getDefinedElements rangeMap' (Service.Config service)
                                   "udp" "services").
    intros dR dR' dS dS' Hhead HR HS.
    destruct (stream_names_agree dR dR' dS dS' (defaultID service)
                HR HS Hhead) as [Hlen H0].
    pose proof (Permutation_length HR) as HlenR.
    pose proof (Permutation_length HS) as HlenS.
    f_equal.
    + apply foldl_alter_twice; [|apply udpRouterDefaults_idem|done].
      intros x. by apply udpRouterDefaults_names.
    + destruct (decide (0 < length dR ∧ length dS = 0)) as [[? HnilS]|Hno].
      * rewrite !(decide_True (P := 0 < length dR' ∧ length dS' = 0))
          by (split; lia).
        apply nil_length_inv in HnilS. subst dS.
        apply Permutation_nil in HS. subst dS'.
        by apply foldl_alter_default_twice.
      * rewrite !(decide_False (P := 0 < length dR' ∧ length dS' = 0))
          by (intros [? ?]; apply Hno; split; lia).
        by apply foldl_alter_twice; [|apply udpServiceDefaults_idem|].
Qed.

End Rerun.

Lemma passes_idempotent_witness :
  (buildHTTPConfiguration reverseRange
     (buildHTTPConfiguration sampleRange pairHTTP pairWorkload "pve").1
     pairWorkload "pve").1
  = (buildHTTPConfiguration sampleRange pairHTTP pairWorkload "pve").1.
Proof.
  apply (proj1 (passes_idempotent sampleRange reverseRange sampleRange_perm
                  reverseRange_perm pairWorkload "pve")).
  vm_compute. reflexivity.
Defined.
